(** * Dataworker polling loop, Scroll WETH bridge adapter and relayer configuration

    A shallow embedding of three pieces of the relayer code base:

    - [runDataworker] (the dataworker entry point): the polling loop, the
      adaptive lookback retry loop that resolves the spoke pool event search
      window, and the order in which the disputer, the proposer and the
      executor are driven;
    - [ScrollWethBridge.constructL1ToL2Txn];
    - the constructor of [RelayerConfig].

    JavaScript numbers that hold block numbers, chain ids and counters are
    integers in this code and are modelled as [Z]; objects used as
    dictionaries are [gmap]s.  Calls into code that lives outside these files
    (clients, the [Dataworker] class, the logger) are collaborators: they are
    parameters of the model, they may change the outside world and they may
    throw.  Every such call is recorded, with its arguments and its result, in
    the list of events a computation emits, so that statements about order,
    number of calls and argument passing are statements about that list. *)

From stdpp Require Import gmap strings list.
From Equations Require Import Equations.
From Stdlib Require Import ZArith Lia Sorted.

Local Open Scope Z_scope.
Set Warnings "-register-all,-clear-no-such-hyp".

(** ** JavaScript completions *)

(** What a [throw] carries.  [TypeError] is what the runtime raises when a
    property of [undefined] is read; [Thrown] is any error raised by a
    collaborator. *)
Inductive JsError : Type :=
| TypeError
| Thrown (reason : string).

(** The outcome of evaluating an expression or awaiting a promise. *)
Inductive Completion (A : Type) : Type :=
| Normal (a : A)
| Throw (e : JsError).

Arguments Normal {A} a.
Arguments Throw {A} e.

Definition isNormal {A : Type} (c : Completion A) : bool :=
  match c with Normal _ => true | Throw _ => false end.

(** [{ [chainId: number]: number }] *)
Abbreviation BlockMap := (gmap Z Z).

(** [Object.fromEntries]: a later entry overwrites an earlier one with the
    same key. *)
Definition fromEntries (entries : list (Z * Z)) : BlockMap :=
  foldl (fun m kv => <[kv.1 := kv.2]> m) ∅ entries.

(** * ScrollWethBridge *)

Module ScrollWethBridge.
Section Bridge.

Context {Abi Signer Provider Contract BigNumber BaseBridgeAdapter : Type}.

(** [CONTRACT_ADDRESSES[chainId].<name>] is [{ address, abi }]. *)
Variable CONTRACT_ADDRESSES : gmap Z (gmap string (string * Abi)).
(** [new Contract(address, abi, signerOrProvider)] *)
Variable newContract : string -> Abi -> Signer + Provider -> Completion Contract.
(** [super(l2chainId, hubChainId, l1Signer, l2SignerOrProvider, gateways)] *)
Variable super :
  Z -> Z -> Signer -> Signer + Provider -> list string -> Completion BaseBridgeAdapter.

Record Bridge : Type := {
  base : BaseBridgeAdapter;
  l1Bridge : Contract;
  l2Bridge : Contract;
  atomicDepositor : Contract;
  l2Gas : Z
}.

(** An element of the [args] array of a transaction. *)
Inductive Arg : Type :=
| ArgString (s : string)
| ArgBigNumber (b : BigNumber)
| ArgNumber (n : Z).

Record BridgeTransactionDetails : Type := {
  contract : Contract;
  method : string;
  args : list Arg
}.

(** [const { address, abi } = CONTRACT_ADDRESSES[chainId].<name>]: reading a
    property of a missing chain entry, or destructuring a missing contract
    entry, is a [TypeError]. *)
Definition contractEntry (chainId : Z) (name : string) : Completion (string * Abi) :=
  match CONTRACT_ADDRESSES !! chainId with
  | None => Throw TypeError
  | Some byName =>
      match byName !! name with
      | None => Throw TypeError
      | Some entry => Normal entry
      end
  end.

Definition andThen {A B : Type} (c : Completion A) (k : A -> Completion B) : Completion B :=
  match c with
  | Normal a => k a
  | Throw e => Throw e
  end.

Definition constructor (l2chainId hubChainId : Z) (l1Signer : Signer)
  (l2SignerOrProvider : Signer + Provider) (_l1Token : string) : Completion Bridge :=
  andThen (contractEntry hubChainId "scrollGatewayRouter") (fun l1 =>
  andThen (contractEntry l2chainId "scrollGatewayRouter") (fun l2 =>
  andThen (contractEntry hubChainId "atomicDepositor") (fun depositor =>
  andThen (super l2chainId hubChainId l1Signer l2SignerOrProvider [depositor.1]) (fun b =>
  (* field initialiser: [protected l2Gas = 20000] *)
  let gas := 20000 in
  andThen (newContract l1.1 l1.2 (inl l1Signer)) (fun c1 =>
  andThen (newContract l2.1 l2.2 l2SignerOrProvider) (fun c2 =>
  andThen (newContract depositor.1 depositor.2 (inl l1Signer)) (fun c3 =>
  Normal {| base := b; l1Bridge := c1; l2Bridge := c2;
            atomicDepositor := c3; l2Gas := gas |}))))))).

(** The promise returned by the [async] method, as the completion of
    awaiting it. *)
Definition constructL1ToL2Txn (this : Bridge) (toAddress l1Token l2Token : string)
  (amount : BigNumber) : Completion BridgeTransactionDetails :=
  Normal {| contract := atomicDepositor this;
            method := "bridgeWethToScroll";
            args := [ArgString toAddress; ArgBigNumber amount; ArgNumber (l2Gas this)] |}.

End Bridge.
End ScrollWethBridge.

(** * RelayerConfig *)

Module RelayerConfig.

(** The values [JSON.parse] can return. *)
Inductive Json : Type :=
| JNull
| JBool (b : bool)
| JNumber (n : Z)
| JString (s : string)
| JArray (items : list Json)
| JObject (fields : list (string * Json)).

(** [{}] *)
Definition emptyObject : Json := JObject [].

(** [ProcessEnv]: a variable is a string or [undefined]. *)
Abbreviation ProcessEnv := (gmap string string).

(** Truthiness of [string | undefined]: only a non-empty string is truthy. *)
Definition truthy (v : option string) : bool :=
  match v with
  | Some s => negb (String.eqb s "")
  | None => false
  end.

(** [v === "true"] *)
Definition strictEqualsTrue (v : option string) : bool :=
  match v with
  | Some s => String.eqb s "true"
  | None => false
  end.

Section Config.

Context {CommonConfig : Type}.

(** [super(env)], the constructor of [CommonConfig]. *)
Variable super : ProcessEnv -> Completion CommonConfig.
Variable JSON_parse : string -> Completion Json.

Record Config : Type := {
  common : CommonConfig;
  maxRelayerLookBack : Json;
  repaymentChainIdForToken : Json;
  sendingRelaysEnabled : bool
}.

(** [V ? JSON.parse(V) : {}] *)
Definition parseOrEmpty (v : option string) : Completion Json :=
  if truthy v then JSON_parse (default "" v) else Normal emptyObject.

Definition constructor (env : ProcessEnv) : Completion Config :=
  let MAX_RELAYER_DEPOSIT_LOOK_BACK := env !! "MAX_RELAYER_DEPOSIT_LOOK_BACK" in
  let REPAYMENT_CHAIN_FOR_TOKEN := env !! "REPAYMENT_CHAIN_FOR_TOKEN" in
  let SEND_RELAYS := env !! "SEND_RELAYS" in
  match super env with
  | Throw e => Throw e
  | Normal c =>
      match parseOrEmpty MAX_RELAYER_DEPOSIT_LOOK_BACK with
      | Throw e => Throw e
      | Normal lookBack =>
          match parseOrEmpty REPAYMENT_CHAIN_FOR_TOKEN with
          | Throw e => Throw e
          | Normal repayment =>
              Normal {| common := c;
                        maxRelayerLookBack := lookBack;
                        repaymentChainIdForToken := repayment;
                        sendingRelaysEnabled := strictEqualsTrue SEND_RELAYS |}
          end
      end
  end.

End Config.
End RelayerConfig.

(** * The dataworker entry point *)

Module Dataworker.

(** The three kinds of leaves of a root bundle. *)
Inductive LeafKind : Type := PoolRebalance | SlowRelay | RelayerRefund.

(** The messages handed to the logger.  The log level and the remaining
    payload (block ranges, transaction hashes, the elapsed time taken from
    [Date.now()]) do not influence control flow and are left out; the logger
    is taken not to throw. *)
Inductive LogMessage : Type :=
| LogStarted
| LogSettingStartBlocks (retriesMade dataworkerFastLookbackCount : Z)
| LogWillIncreaseAndRetry (oldDataworkerFastLookbackCount newDataworkerFastLookbackCount : Z)
| LogIdentifiedInvalidStartBlocks
| LogDisputerDisabled
| LogProposerDisabled
| LogExecutorDisabled
| LogTimeToLoop
| LogDisconnectingRedis.

Section Model.

(** [World] is everything outside [runDataworker]: the chains, the clients
    and the [Dataworker] instance built by [createDataworker], the
    transaction queue, the process signals.  [BalanceAllocator] is the
    content of a balance allocator object (its virtual balance ledger).
    The configuration copy, the spoke pool clients and the invalid start
    block map are handed to the callees as values: nothing in this file
    writes to them after handing them on, and the callees are taken not to
    either.  The balance allocator is there to be written by its callees and
    is an object on a heap. *)
Context {World SpokePoolClientsByChain Providers BalanceAllocator BigNumber OtherSettings : Type}.

(** The fields of [DataworkerConfig] that [runDataworker] reads.  All other
    fields travel along in [otherSettings]. *)
Record DataworkerConfig : Type := {
  dataworkerFastLookbackCount : Z;
  dataworkerFastLookbackRetryCount : Z;
  dataworkerFastLookbackRetryMultiplier : Z;
  disputerEnabled : bool;
  sendingDisputesEnabled : bool;
  proposerEnabled : bool;
  sendingProposalsEnabled : bool;
  rootBundleExecutionThreshold : BigNumber;
  executorEnabled : bool;
  sendingExecutionsEnabled : bool;
  pollingDelay : Z;
  otherSettings : OtherSettings
}.

(** [customConfig.dataworkerFastLookbackCount = n] on a copy of the
    configuration. *)
Definition setDataworkerFastLookbackCount (c : DataworkerConfig) (n : Z) : DataworkerConfig :=
  {| dataworkerFastLookbackCount := n;
     dataworkerFastLookbackRetryCount := dataworkerFastLookbackRetryCount c;
     dataworkerFastLookbackRetryMultiplier := dataworkerFastLookbackRetryMultiplier c;
     disputerEnabled := disputerEnabled c;
     sendingDisputesEnabled := sendingDisputesEnabled c;
     proposerEnabled := proposerEnabled c;
     sendingProposalsEnabled := sendingProposalsEnabled c;
     rootBundleExecutionThreshold := rootBundleExecutionThreshold c;
     executorEnabled := executorEnabled c;
     sendingExecutionsEnabled := sendingExecutionsEnabled c;
     pollingDelay := pollingDelay c;
     otherSettings := otherSettings c |}.

(** What [getSpokePoolClientEventSearchConfigsForFastDataworker] returns.
    The two bundles only feed a log message; their transaction hashes stand
    for them. *)
Record EventSearchConfigs : Type := {
  fromBundle : option string;
  toBundle : option string;
  fromBlocks : BlockMap;
  toBlocks : BlockMap
}.

(** A collaborator call that may change the world and may throw. *)
Definition Effect (A : Type) : Type := World -> Completion A * World.

(** The code outside this file that [runDataworker] calls.  Arguments that
    are the same object at every call (the logger, the signer, [clients],
    [dataworker]) are part of the world. *)
Record Collaborators : Type := {
  (* createDataworker *)
  newDataworkerConfig : Effect DataworkerConfig;
  constructDataworkerClients : DataworkerConfig -> Effect unit;
  newDataworker : DataworkerConfig -> Effect unit;
  (* the loop *)
  updateDataworkerClients : Effect unit;
  (* [None] is [undefined]. *)
  getLatestFullyExecutedRootBundle : Effect (option (list BigNumber));
  chainIdListForBundleEvaluationBlockNumbers : World -> list Z;
  toNumber : BigNumber -> Completion Z;
  getSpokePoolClientEventSearchConfigsForFastDataworker :
    DataworkerConfig -> Effect EventSearchConfigs;
  constructSpokePoolClientsForFastDataworker :
    DataworkerConfig -> BlockMap -> BlockMap -> Effect SpokePoolClientsByChain;
  getLatestInvalidBundleStartBlocks : SpokePoolClientsByChain -> Effect BlockMap;
  validatePendingRootBundle :
    option SpokePoolClientsByChain -> bool -> BlockMap -> Effect unit;
  proposeRootBundle :
    option SpokePoolClientsByChain -> BigNumber -> bool -> BlockMap -> Effect unit;
  spokePoolClientsToProviders : option SpokePoolClientsByChain -> Effect Providers;
  (* The constructor of [BalanceAllocator]: the content of a new object. *)
  newBalanceAllocator : Providers -> BalanceAllocator;
  (* The leaf executors receive the allocator object and may write to it:
     they take its content and give back the content they leave. *)
  executePoolRebalanceLeaves :
    option SpokePoolClientsByChain -> BalanceAllocator -> bool -> BlockMap ->
    World -> Completion unit * BalanceAllocator * World;
  executeSlowRelayLeaves :
    option SpokePoolClientsByChain -> BalanceAllocator -> bool -> BlockMap ->
    World -> Completion unit * BalanceAllocator * World;
  executeRelayerRefundLeaves :
    option SpokePoolClientsByChain -> BalanceAllocator -> bool -> BlockMap ->
    World -> Completion unit * BalanceAllocator * World;
  executeTransactionQueue : Effect unit;
  processEndPollingLoop : Z -> Effect bool;
  (* [clients.configStoreClient.redisClient !== undefined] *)
  hasRedisClient : World -> bool;
  (* [redisClient.disconnect()]; the promise is not awaited. *)
  disconnectRedis : World -> World
}.

(** The calls [runDataworker] makes, in the order it makes them.  An object
    created by [new BalanceAllocator] is identified by its address in the
    heap of allocator objects; the executors' events also carry the content
    of the object before and after the call. *)
Inductive Event : Type :=
| EvLog (m : LogMessage)
| EvNewDataworkerConfig (r : Completion DataworkerConfig)
| EvConstructDataworkerClients (config : DataworkerConfig) (r : Completion unit)
| EvNewDataworker (config : DataworkerConfig) (r : Completion unit)
| EvUpdateDataworkerClients (r : Completion unit)
| EvGetLatestFullyExecutedRootBundle (r : Completion (option (list BigNumber)))
| EvGetSearchConfigs (customConfig : DataworkerConfig) (r : Completion EventSearchConfigs)
| EvConstructSpokePoolClients (customConfig : DataworkerConfig) (fromBlocks toBlocks : BlockMap)
    (r : Completion SpokePoolClientsByChain)
| EvGetLatestInvalidBundleStartBlocks (spokePoolClients : SpokePoolClientsByChain)
    (r : Completion BlockMap)
| EvValidatePendingRootBundle (spokePoolClients : option SpokePoolClientsByChain)
    (sendingDisputesEnabled : bool) (latestInvalidBundleStartBlocks : BlockMap)
    (r : Completion unit)
| EvProposeRootBundle (spokePoolClients : option SpokePoolClientsByChain)
    (rootBundleExecutionThreshold : BigNumber) (sendingProposalsEnabled : bool)
    (latestInvalidBundleStartBlocks : BlockMap) (r : Completion unit)
| EvSpokePoolClientsToProviders (spokePoolClients : option SpokePoolClientsByChain)
    (r : Completion Providers)
| EvNewBalanceAllocator (providers : Providers) (address : nat)
| EvExecuteLeaves (kind : LeafKind) (spokePoolClients : option SpokePoolClientsByChain)
    (balanceAllocator : nat) (ledgerBefore ledgerAfter : BalanceAllocator)
    (sendingExecutionsEnabled : bool) (latestInvalidBundleStartBlocks : BlockMap)
    (r : Completion unit)
| EvExecuteTransactionQueue (r : Completion unit)
| EvProcessEndPollingLoop (pollingDelay : Z) (r : Completion bool)
| EvRedisDisconnect.

(** The state a computation threads: the outside world and the heap of
    balance allocator objects created so far (an object's address is its
    position). *)
Record Machine : Type := {
  world : World;
  allocators : list BalanceAllocator
}.

(** A computation: from a machine state to a completion, the state it
    leaves and the events it emitted. *)
Definition M (A : Type) : Type := Machine -> Completion A * Machine * list Event.

Definition ret {A : Type} (a : A) : M A := fun s => (Normal a, s, []).

Definition throw {A : Type} (e : JsError) : M A := fun s => (Throw e, s, []).

Definition bind {A B : Type} (m : M A) (k : A -> M B) : M B := fun s =>
  match m s with
  | (Normal a, s1, t1) => let '(r, s2, t2) := k a s1 in (r, s2, t1 ++ t2)
  | (Throw e, s1, t1) => (Throw e, s1, t1)
  end.

Notation "x <- c ;; k" := (bind c (fun x => k))
  (at level 100, c at next level, right associativity).
Notation "c ;;; k" := (bind c (fun _ => k))
  (at level 100, right associativity).

(** A pure expression that may throw. *)
Definition lift {A : Type} (c : Completion A) : M A := fun s => (c, s, []).

Definition log (m : LogMessage) : M unit := fun s => (Normal tt, s, [EvLog m]).

(** Calling (and, for an asynchronous one, awaiting) a collaborator. *)
Definition call {A : Type} (f : Effect A) (ev : Completion A -> Event) : M A := fun s =>
  let '(r, w) := f (world s) in
  (r, {| world := w; allocators := allocators s |}, [ev r]).

(** Reading a property of an object of the world. *)
Definition readWorld {A : Type} (f : World -> A) : M A := fun s => (Normal (f (world s)), s, []).

(** [new BalanceAllocator(providers)]: a new object at the next free
    address. *)
Definition newAllocatorObject (col : Collaborators) (providers : Providers) : M nat := fun s =>
  let address := length (allocators s) in
  (Normal address,
   {| world := world s; allocators := allocators s ++ [newBalanceAllocator col providers] |},
   [EvNewBalanceAllocator providers address]).

(** Calling a leaf executor with the allocator object at [address]: the
    callee works on the object itself, so what it leaves is what the next
    holder of the same address finds.  An address obtained from
    [newAllocatorObject] always holds an object; the first case stands for a
    variable that refers to nothing and is never met. *)
Definition callExecutor (kind : LeafKind)
  (f : option SpokePoolClientsByChain -> BalanceAllocator -> bool -> BlockMap ->
       World -> Completion unit * BalanceAllocator * World)
  (spokePoolClients : option SpokePoolClientsByChain) (address : nat)
  (sending : bool) (invalid : BlockMap) : M unit := fun s =>
  match allocators s !! address with
  | None => (Throw TypeError, s, [])
  | Some ledger =>
      let '(r, ledger', w) := f spokePoolClients ledger sending invalid (world s) in
      (r, {| world := w; allocators := <[address := ledger']> (allocators s) |},
       [EvExecuteLeaves kind spokePoolClients address ledger ledger' sending invalid r])
  end.

(** ** createDataworker *)

Definition createDataworker (col : Collaborators) : M DataworkerConfig :=
  config <- call (newDataworkerConfig col) EvNewDataworkerConfig ;;
  call (constructDataworkerClients col config) (EvConstructDataworkerClients config) ;;;
  call (newDataworker col config) (EvNewDataworker config) ;;;
  ret config.

(** ** The end blocks of the latest fully executed bundle *)

(** [chainIds.map((chainId, index) => [chainId, endBlocks[index].toNumber()])]
    from position [index] on.  An end block list shorter than the chain id
    list yields [undefined.toNumber()], a [TypeError]. *)
Fixpoint endBlockEntries (col : Collaborators) (chainIds : list Z) (index : nat)
  (endBlocks : list BigNumber) : Completion (list (Z * Z)) :=
  match chainIds with
  | [] => Normal []
  | chainId :: rest =>
      match endBlocks !! index with
      | None => Throw TypeError
      | Some b =>
          match toNumber col b with
          | Throw e => Throw e
          | Normal n =>
              match endBlockEntries col rest (S index) endBlocks with
              | Throw e => Throw e
              | Normal entries => Normal ((chainId, n) :: entries)
              end
          end
      end
  end.

Definition bundleEndBlockMapping (col : Collaborators) (chainIds : list Z)
  (endBlocks : list BigNumber) : Completion BlockMap :=
  match endBlockEntries col chainIds 0%nat endBlocks with
  | Throw e => Throw e
  | Normal entries => Normal (fromEntries entries)
  end.

(** ** The lookback retry loop *)

(** [invalidBundleStartBlock > bundleEndBlockMapping[chainId]]; a comparison
    with [undefined] is false. *)
Definition laterThanEndBlock (bundleEndBlockMapping : BlockMap) (entry : Z * Z) : bool :=
  match bundleEndBlockMapping !! entry.1 with
  | Some endBlock => entry.2 >? endBlock
  | None => false
  end.

(** [Object.entries(latestInvalidBundleStartBlocks).some(...)] *)
Definition someInvalidStartBlockIsLater (latestInvalidBundleStartBlocks bundleEndBlockMapping : BlockMap)
  : bool :=
  existsb (laterThanEndBlock bundleEndBlockMapping) (map_to_list latestInvalidBundleStartBlocks).

(** The variables declared in the body of the polling loop and assigned in
    the retry loop. *)
Record Locals : Type := {
  spokePoolClients : option SpokePoolClientsByChain;
  latestInvalidBundleStartBlocks : BlockMap;
  customConfig : DataworkerConfig
}.

(** One pass through the body of the retry loop: the locals it leaves, and
    [true] when the body ran to its end (the loop goes on with [i++]) or
    [false] when it left through [break]. *)
Definition fetchRound (col : Collaborators) (config : DataworkerConfig)
  (bundleEndBlockMapping : BlockMap) (i : Z) (loc : Locals) : M (Locals * bool) :=
  searchConfigs <-
    call (getSpokePoolClientEventSearchConfigsForFastDataworker col (customConfig loc))
         (EvGetSearchConfigs (customConfig loc)) ;;
  log (LogSettingStartBlocks i (dataworkerFastLookbackCount (customConfig loc))) ;;;
  clients <-
    call (constructSpokePoolClientsForFastDataworker col (customConfig loc)
            (fromBlocks searchConfigs) (toBlocks searchConfigs))
         (EvConstructSpokePoolClients (customConfig loc)
            (fromBlocks searchConfigs) (toBlocks searchConfigs)) ;;
  invalid <-
    call (getLatestInvalidBundleStartBlocks col clients)
         (EvGetLatestInvalidBundleStartBlocks clients) ;;
  if someInvalidStartBlockIsLater invalid bundleEndBlockMapping then
    let widened :=
      setDataworkerFastLookbackCount (customConfig loc)
        (dataworkerFastLookbackCount (customConfig loc)
         * dataworkerFastLookbackRetryMultiplier config) in
    log (LogWillIncreaseAndRetry (dataworkerFastLookbackCount config)
           (dataworkerFastLookbackCount widened)) ;;;
    ret ({| spokePoolClients := Some clients;
            latestInvalidBundleStartBlocks := invalid;
            customConfig := widened |}, true)
  else
    log LogIdentifiedInvalidStartBlocks ;;;
    ret ({| spokePoolClients := Some clients;
            latestInvalidBundleStartBlocks := invalid;
            customConfig := customConfig loc |}, false).

(** [for (let i = 0; i <= config.dataworkerFastLookbackRetryCount; i++)],
    entered with the counter at [i].  The distance of [i] to the bound
    shrinks with every pass. *)
Equations? retryLoop (col : Collaborators) (config : DataworkerConfig)
  (bundleEndBlockMapping : BlockMap) (i : Z) (loc : Locals) : M Locals
  by wf (Z.to_nat (dataworkerFastLookbackRetryCount config + 1 - i)) lt :=
retryLoop col config bundleEndBlockMapping i loc
  with Z_le_gt_dec i (dataworkerFastLookbackRetryCount config) := {
  | left _ =>
      round <- fetchRound col config bundleEndBlockMapping i loc ;;
      if round.2
      then retryLoop col config bundleEndBlockMapping (i + 1) round.1
      else ret round.1
  | right _ => ret loc }.
Proof. lia. Qed.

(** The ways one pass through the body of the retry loop can end, read off
    [fetchRound]: which call threw, or whether the window was found
    insufficient, with the events emitted on the way. *)
Inductive RoundResult (col : Collaborators) (config : DataworkerConfig)
  (bundleEndBlockMapping : BlockMap) (i : Z) (loc : Locals) (s : Machine)
  : Completion (Locals * bool) -> Machine -> list Event -> Prop :=
| SearchConfigsThrew e w :
    getSpokePoolClientEventSearchConfigsForFastDataworker col (customConfig loc) (world s)
      = (Throw e, w) ->
    RoundResult col config bundleEndBlockMapping i loc s
      (Throw e) {| world := w; allocators := allocators s |}
      [EvGetSearchConfigs (customConfig loc) (Throw e)]
| ConstructThrew sc w1 e w2 :
    getSpokePoolClientEventSearchConfigsForFastDataworker col (customConfig loc) (world s)
      = (Normal sc, w1) ->
    constructSpokePoolClientsForFastDataworker col (customConfig loc)
      (fromBlocks sc) (toBlocks sc) w1 = (Throw e, w2) ->
    RoundResult col config bundleEndBlockMapping i loc s
      (Throw e) {| world := w2; allocators := allocators s |}
      [EvGetSearchConfigs (customConfig loc) (Normal sc);
       EvLog (LogSettingStartBlocks i (dataworkerFastLookbackCount (customConfig loc)));
       EvConstructSpokePoolClients (customConfig loc) (fromBlocks sc) (toBlocks sc) (Throw e)]
| InvalidStartBlocksThrew sc w1 clients w2 e w3 :
    getSpokePoolClientEventSearchConfigsForFastDataworker col (customConfig loc) (world s)
      = (Normal sc, w1) ->
    constructSpokePoolClientsForFastDataworker col (customConfig loc)
      (fromBlocks sc) (toBlocks sc) w1 = (Normal clients, w2) ->
    getLatestInvalidBundleStartBlocks col clients w2 = (Throw e, w3) ->
    RoundResult col config bundleEndBlockMapping i loc s
      (Throw e) {| world := w3; allocators := allocators s |}
      [EvGetSearchConfigs (customConfig loc) (Normal sc);
       EvLog (LogSettingStartBlocks i (dataworkerFastLookbackCount (customConfig loc)));
       EvConstructSpokePoolClients (customConfig loc) (fromBlocks sc) (toBlocks sc)
         (Normal clients);
       EvGetLatestInvalidBundleStartBlocks clients (Throw e)]
| WindowInsufficient sc w1 clients w2 invalid w3 :
    getSpokePoolClientEventSearchConfigsForFastDataworker col (customConfig loc) (world s)
      = (Normal sc, w1) ->
    constructSpokePoolClientsForFastDataworker col (customConfig loc)
      (fromBlocks sc) (toBlocks sc) w1 = (Normal clients, w2) ->
    getLatestInvalidBundleStartBlocks col clients w2 = (Normal invalid, w3) ->
    someInvalidStartBlockIsLater invalid bundleEndBlockMapping = true ->
    RoundResult col config bundleEndBlockMapping i loc s
      (Normal ({| spokePoolClients := Some clients;
                  latestInvalidBundleStartBlocks := invalid;
                  customConfig :=
                    setDataworkerFastLookbackCount (customConfig loc)
                      (dataworkerFastLookbackCount (customConfig loc)
                       * dataworkerFastLookbackRetryMultiplier config) |}, true))
      {| world := w3; allocators := allocators s |}
      [EvGetSearchConfigs (customConfig loc) (Normal sc);
       EvLog (LogSettingStartBlocks i (dataworkerFastLookbackCount (customConfig loc)));
       EvConstructSpokePoolClients (customConfig loc) (fromBlocks sc) (toBlocks sc)
         (Normal clients);
       EvGetLatestInvalidBundleStartBlocks clients (Normal invalid);
       EvLog (LogWillIncreaseAndRetry (dataworkerFastLookbackCount config)
                (dataworkerFastLookbackCount (customConfig loc)
                 * dataworkerFastLookbackRetryMultiplier config))]
| WindowSufficient sc w1 clients w2 invalid w3 :
    getSpokePoolClientEventSearchConfigsForFastDataworker col (customConfig loc) (world s)
      = (Normal sc, w1) ->
    constructSpokePoolClientsForFastDataworker col (customConfig loc)
      (fromBlocks sc) (toBlocks sc) w1 = (Normal clients, w2) ->
    getLatestInvalidBundleStartBlocks col clients w2 = (Normal invalid, w3) ->
    someInvalidStartBlockIsLater invalid bundleEndBlockMapping = false ->
    RoundResult col config bundleEndBlockMapping i loc s
      (Normal ({| spokePoolClients := Some clients;
                  latestInvalidBundleStartBlocks := invalid;
                  customConfig := customConfig loc |}, false))
      {| world := w3; allocators := allocators s |}
      [EvGetSearchConfigs (customConfig loc) (Normal sc);
       EvLog (LogSettingStartBlocks i (dataworkerFastLookbackCount (customConfig loc)));
       EvConstructSpokePoolClients (customConfig loc) (fromBlocks sc) (toBlocks sc)
         (Normal clients);
       EvGetLatestInvalidBundleStartBlocks clients (Normal invalid);
       EvLog LogIdentifiedInvalidStartBlocks].

(** ** One pass through the body of the polling loop *)

(** The locals as declared, before the retry loop:
    [let spokePoolClients], [let latestInvalidBundleStartBlocks = {}],
    [const customConfig = { ...config }]. *)
Definition initialLocals (config : DataworkerConfig) : Locals :=
  {| spokePoolClients := None;
     latestInvalidBundleStartBlocks := ∅;
     customConfig := config |}.

(** The executor branch. *)
Definition executeLeaves (col : Collaborators) (config : DataworkerConfig) (loc : Locals)
  : M unit :=
  providers <-
    call (spokePoolClientsToProviders col (spokePoolClients loc))
         (EvSpokePoolClientsToProviders (spokePoolClients loc)) ;;
  balanceAllocator <- newAllocatorObject col providers ;;
  callExecutor PoolRebalance (executePoolRebalanceLeaves col) (spokePoolClients loc)
    balanceAllocator (sendingExecutionsEnabled config) (latestInvalidBundleStartBlocks loc) ;;;
  callExecutor SlowRelay (executeSlowRelayLeaves col) (spokePoolClients loc)
    balanceAllocator (sendingExecutionsEnabled config) (latestInvalidBundleStartBlocks loc) ;;;
  callExecutor RelayerRefund (executeRelayerRefundLeaves col) (spokePoolClients loc)
    balanceAllocator (sendingExecutionsEnabled config) (latestInvalidBundleStartBlocks loc).

(** The end blocks of the latest fully executed root bundle, keyed by chain
    id. *)
Definition latestExecutedBundleEndBlocks (col : Collaborators) : M BlockMap :=
  bundle <- call (getLatestFullyExecutedRootBundle col) EvGetLatestFullyExecutedRootBundle ;;
  latestFullyExecutedBundleEndBlocks <-
    lift (match bundle with Some b => Normal b | None => Throw TypeError end) ;;
  chainIds <- readWorld (chainIdListForBundleEvaluationBlockNumbers col) ;;
  lift (bundleEndBlockMapping col chainIds latestFullyExecutedBundleEndBlocks).

(** What follows the retry loop in the body of [for (;;)]: disputer,
    proposer, executor, the queue flush and the end-of-loop check, whose
    answer is the result ([true]: leave the loop). *)
Definition validateProposeExecute (col : Collaborators) (config : DataworkerConfig)
  (loc : Locals) : M bool :=
  (if disputerEnabled config
   then call (validatePendingRootBundle col (spokePoolClients loc)
                (sendingDisputesEnabled config) (latestInvalidBundleStartBlocks loc))
             (EvValidatePendingRootBundle (spokePoolClients loc)
                (sendingDisputesEnabled config) (latestInvalidBundleStartBlocks loc))
   else log LogDisputerDisabled) ;;;
  (if proposerEnabled config
   then call (proposeRootBundle col (spokePoolClients loc)
                (rootBundleExecutionThreshold config) (sendingProposalsEnabled config)
                (latestInvalidBundleStartBlocks loc))
             (EvProposeRootBundle (spokePoolClients loc)
                (rootBundleExecutionThreshold config) (sendingProposalsEnabled config)
                (latestInvalidBundleStartBlocks loc))
   else log LogProposerDisabled) ;;;
  (if executorEnabled config
   then executeLeaves col config loc
   else log LogExecutorDisabled) ;;;
  call (executeTransactionQueue col) EvExecuteTransactionQueue ;;;
  log LogTimeToLoop ;;;
  call (processEndPollingLoop col (pollingDelay config)) (EvProcessEndPollingLoop (pollingDelay config)).

(** The body of [for (;;)]. *)
Definition iteration (col : Collaborators) (config : DataworkerConfig) : M bool :=
  call (updateDataworkerClients col) EvUpdateDataworkerClients ;;;
  endBlockMapping <- latestExecutedBundleEndBlocks col ;;
  loc <- retryLoop col config endBlockMapping 0 (initialLocals config) ;;
  validateProposeExecute col config loc.

(** How far a pass through the body of [for (;;)] gets, read off
    [iteration]: the refresh throws, the end blocks cannot be had, the retry
    loop throws, or the pass goes on behind the retry loop. *)
Inductive PassResult (col : Collaborators) (config : DataworkerConfig) (s : Machine)
  : Completion bool -> Machine -> list Event -> Prop :=
| RefreshThrew e w :
    updateDataworkerClients col (world s) = (Throw e, w) ->
    PassResult col config s (Throw e) {| world := w; allocators := allocators s |}
      [EvUpdateDataworkerClients (Throw e)]
| EndBlocksThrew w e s1 t1 :
    updateDataworkerClients col (world s) = (Normal tt, w) ->
    latestExecutedBundleEndBlocks col {| world := w; allocators := allocators s |}
      = (Throw e, s1, t1) ->
    PassResult col config s (Throw e) s1 (EvUpdateDataworkerClients (Normal tt) :: t1)
| RetryLoopThrew w ends s1 t1 e s2 t2 :
    updateDataworkerClients col (world s) = (Normal tt, w) ->
    latestExecutedBundleEndBlocks col {| world := w; allocators := allocators s |}
      = (Normal ends, s1, t1) ->
    retryLoop col config ends 0 (initialLocals config) s1 = (Throw e, s2, t2) ->
    PassResult col config s (Throw e) s2
      (EvUpdateDataworkerClients (Normal tt) :: t1 ++ t2)
| WentOn w ends s1 t1 loc s2 t2 r s3 t3 :
    updateDataworkerClients col (world s) = (Normal tt, w) ->
    latestExecutedBundleEndBlocks col {| world := w; allocators := allocators s |}
      = (Normal ends, s1, t1) ->
    retryLoop col config ends 0 (initialLocals config) s1 = (Normal loc, s2, t2) ->
    validateProposeExecute col config loc s2 = (r, s3, t3) ->
    PassResult col config s r s3
      (EvUpdateDataworkerClients (Normal tt) :: t1 ++ t2 ++ t3).

(** ** runDataworker *)

(** How far [for (;;)] got. *)
Inductive LoopStatus : Type :=
| Returned
| Raised (e : JsError)
| StillPolling.

(** [for (;;) { ...; if (await processEndPollingLoop(...)) break; }], cut
    off after [fuel] passes: the loop has no bound of its own. *)
Fixpoint pollingLoop (col : Collaborators) (config : DataworkerConfig) (fuel : nat)
  (s : Machine) : LoopStatus * Machine * list Event :=
  match fuel with
  | O => (StillPolling, s, [])
  | S fuel' =>
      match iteration col config s with
      | (Normal true, s1, t1) => (Returned, s1, t1)
      | (Normal false, s1, t1) =>
          let '(r, s2, t2) := pollingLoop col config fuel' s1 in (r, s2, t1 ++ t2)
      | (Throw e, s1, t1) => (Raised e, s1, t1)
      end
  end.

(** The [catch] block, up to its [throw error]. *)
Definition disconnectOnError (col : Collaborators) (s : Machine) : Machine * list Event :=
  if hasRedisClient col (world s)
  then ({| world := disconnectRedis col (world s); allocators := allocators s |},
        [EvLog LogDisconnectingRedis; EvRedisDisconnect])
  else (s, []).

(** The [try] statement, given the configuration [createDataworker]
    returned. *)
Definition tryPolling (col : Collaborators) (config : DataworkerConfig) (fuel : nat)
  (s : Machine) : LoopStatus * Machine * list Event :=
  match pollingLoop col config fuel s with
  | (Raised e, s1, t1) =>
      let '(s2, t2) := disconnectOnError col s1 in
      (Raised e, s2, EvLog LogStarted :: t1 ++ t2)
  | (r, s1, t1) => (r, s1, EvLog LogStarted :: t1)
  end.

Definition runDataworker (col : Collaborators) (fuel : nat) (s : Machine)
  : LoopStatus * Machine * list Event :=
  match createDataworker col s with
  | (Throw e, s1, t1) => (Raised e, s1, t1)
  | (Normal config, s1, t1) =>
      let '(r, s2, t2) := tryPolling col config fuel s1 in (r, s2, t1 ++ t2)
  end.

(** ** Observations on event lists *)

Definition count (p : Event -> bool) (t : list Event) : nat := length (List.filter p t).

(** A pass through the body of the retry loop starts with the search
    configuration call. *)
Definition isRoundStart (e : Event) : bool :=
  match e with EvGetSearchConfigs _ _ => true | _ => false end.

(** The fetch of a round: the construction (and update) of the spoke pool
    clients over the round's block window. *)
Definition isFetch (e : Event) : bool :=
  match e with EvConstructSpokePoolClients _ _ _ _ => true | _ => false end.

(** The log line of a round that found its window insufficient. *)
Definition isWillRetryLog (e : Event) : bool :=
  match e with EvLog (LogWillIncreaseAndRetry _ _) => true | _ => false end.

Definition isRefresh (e : Event) : bool :=
  match e with EvUpdateDataworkerClients _ => true | _ => false end.

Definition isPoll (e : Event) : bool :=
  match e with EvProcessEndPollingLoop _ _ => true | _ => false end.

(** The events a pass through the body of the retry loop emits. *)
Definition isRoundEvent (e : Event) : bool :=
  match e with
  | EvGetSearchConfigs _ _
  | EvConstructSpokePoolClients _ _ _ _
  | EvGetLatestInvalidBundleStartBlocks _ _
  | EvLog (LogSettingStartBlocks _ _)
  | EvLog (LogWillIncreaseAndRetry _ _)
  | EvLog LogIdentifiedInvalidStartBlocks => true
  | _ => false
  end.

(** The error of a collaborator call that threw. *)
Definition failure (e : Event) : option JsError :=
  match e with
  | EvNewDataworkerConfig (Throw x)
  | EvConstructDataworkerClients _ (Throw x)
  | EvNewDataworker _ (Throw x)
  | EvUpdateDataworkerClients (Throw x)
  | EvGetLatestFullyExecutedRootBundle (Throw x)
  | EvGetSearchConfigs _ (Throw x)
  | EvConstructSpokePoolClients _ _ _ (Throw x)
  | EvGetLatestInvalidBundleStartBlocks _ (Throw x)
  | EvValidatePendingRootBundle _ _ _ (Throw x)
  | EvProposeRootBundle _ _ _ _ (Throw x)
  | EvSpokePoolClientsToProviders _ (Throw x)
  | EvExecuteLeaves _ _ _ _ _ _ _ (Throw x)
  | EvExecuteTransactionQueue (Throw x)
  | EvProcessEndPollingLoop _ (Throw x) => Some x
  | _ => None
  end.

(** The calls that come after the retry loop and receive the invalid start
    block map: the map they were given. *)
Definition invalidStartBlocksGiven (e : Event) : option BlockMap :=
  match e with
  | EvValidatePendingRootBundle _ _ m _ => Some m
  | EvProposeRootBundle _ _ _ m _ => Some m
  | EvExecuteLeaves _ _ _ _ _ _ m _ => Some m
  | _ => None
  end.

(** The same calls: the spoke pool clients they were given. *)
Definition spokePoolClientsGiven (e : Event) : option (option SpokePoolClientsByChain) :=
  match e with
  | EvValidatePendingRootBundle c _ _ _ => Some c
  | EvProposeRootBundle c _ _ _ _ => Some c
  | EvSpokePoolClientsToProviders c _ => Some c
  | EvExecuteLeaves _ c _ _ _ _ _ _ => Some c
  | _ => None
  end.

(** The map returned by the last [getLatestInvalidBundleStartBlocks] call of
    an event list, [m] when there is none. *)
Definition lastInvalidStartBlocks (m : BlockMap) (t : list Event) : BlockMap :=
  foldl (fun acc e =>
           match e with
           | EvGetLatestInvalidBundleStartBlocks _ (Normal m') => m'
           | _ => acc
           end) m t.

(** The configuration copy the first round of an event list was made
    with. *)
Fixpoint firstSearchConfig (t : list Event) : option DataworkerConfig :=
  match t with
  | [] => None
  | EvGetSearchConfigs c _ :: _ => Some c
  | _ :: rest => firstSearchConfig rest
  end.



(** The steps of a pass through the polling loop. *)
Inductive Step : Type :=
| StepRefresh
| StepResolve
| StepValidate
| StepPropose
| StepPoolRebalance
| StepSlowRelay
| StepRelayerRefund
| StepFlush
| StepPoll.

(** The step a call belongs to.  Log lines and the creation of the balance
    allocator are not steps of their own. *)
Definition stepOf (e : Event) : option Step :=
  match e with
  | EvUpdateDataworkerClients _ => Some StepRefresh
  | EvGetLatestFullyExecutedRootBundle _ => Some StepResolve
  | EvGetSearchConfigs _ _ => Some StepResolve
  | EvConstructSpokePoolClients _ _ _ _ => Some StepResolve
  | EvGetLatestInvalidBundleStartBlocks _ _ => Some StepResolve
  | EvValidatePendingRootBundle _ _ _ _ => Some StepValidate
  | EvProposeRootBundle _ _ _ _ _ => Some StepPropose
  | EvExecuteLeaves PoolRebalance _ _ _ _ _ _ _ => Some StepPoolRebalance
  | EvExecuteLeaves SlowRelay _ _ _ _ _ _ _ => Some StepSlowRelay
  | EvExecuteLeaves RelayerRefund _ _ _ _ _ _ _ => Some StepRelayerRefund
  | EvExecuteTransactionQueue _ => Some StepFlush
  | EvProcessEndPollingLoop _ _ => Some StepPoll
  | _ => None
  end.

Definition steps (t : list Event) : list Step := omap stepOf t.




(** [k] passes through the polling loop that all ran to their end and were
    all told to go on: the state and the events after them. *)
Fixpoint completedPasses (col : Collaborators) (config : DataworkerConfig) (k : nat)
  (s : Machine) : option (Machine * list Event) :=
  match k with
  | O => Some (s, [])
  | S k' =>
      match iteration col config s with
      | (Normal false, s1, t1) =>
          match completedPasses col config k' s1 with
          | Some (s2, t2) => Some (s2, t1 ++ t2)
          | None => None
          end
      | _ => None
      end
  end.

(** ** Further observations on event lists *)

Definition isDisconnect (e : Event) : bool :=
  match e with EvRedisDisconnect => true | _ => false end.

Definition isFlush (e : Event) : bool :=
  match e with EvExecuteTransactionQueue _ => true | _ => false end.

Definition isDisputerCall (e : Event) : bool :=
  match e with EvValidatePendingRootBundle _ _ _ _ => true | _ => false end.

Definition isProposerCall (e : Event) : bool :=
  match e with EvProposeRootBundle _ _ _ _ _ => true | _ => false end.

(** The calls of the executor branch: the providers, the new balance
    allocator and the three leaf executors. *)
Definition isExecutorCall (e : Event) : bool :=
  match e with
  | EvSpokePoolClientsToProviders _ _
  | EvNewBalanceAllocator _ _
  | EvExecuteLeaves _ _ _ _ _ _ _ _ => true
  | _ => false
  end.

(** The spoke pool clients returned by the last
    [constructSpokePoolClientsForFastDataworker] call of an event list, [c]
    when there is none. *)
Definition lastSpokePoolClients (c : option SpokePoolClientsByChain) (t : list Event)
  : option SpokePoolClientsByChain :=
  foldl (fun acc e =>
           match e with
           | EvConstructSpokePoolClients _ _ _ (Normal clients) => Some clients
           | _ => acc
           end) c t.



(** No call of the list comes after a call that threw. *)
Fixpoint stopsAtFirstFailure (t : list Event) : Prop :=
  match t with
  | [] => True
  | e :: rest => (rest = [] \/ failure e = None) /\ stopsAtFirstFailure rest
  end.

End Model.
End Dataworker.


(** * Arrays *)

(** [list.map(f)] where [f] may throw: the elements are mapped from left to
    right and the first throw ends the mapping. *)
Fixpoint mapThrowing {A B : Type} (f : A -> Completion B) (l : list A)
  : Completion (list B) :=
  match l with
  | [] => Normal []
  | x :: rest =>
      match f x with
      | Throw e => Throw e
      | Normal y =>
          match mapThrowing f rest with
          | Throw e => Throw e
          | Normal ys => Normal (y :: ys)
          end
      end
  end.

(** [list.find(p)] *)
Definition find {A : Type} (p : A -> bool) (l : list A) : option A := List.find p l.

(** [list.findIndex(p)]: the position of the first element that satisfies
    [p], from [index] on; [-1] if there is none. *)
Fixpoint findIndexFrom {A : Type} (p : A -> bool) (index : Z) (l : list A) : Z :=
  match l with
  | [] => -1
  | x :: rest => if p x then index else findIndexFrom p (index + 1) rest
  end.

Definition findIndex {A : Type} (p : A -> bool) (l : list A) : Z := findIndexFrom p 0 l.

(** * ScrollWethBridge: the event queries *)

Module ScrollWethBridgeEvents.


Section Queries.

Context {Contract BaseBridgeAdapter EventFilter EventSearchConfig RawEvent BridgeEvent : Type}.

Abbreviation Bridge :=
  (ScrollWethBridge.Bridge (Contract := Contract) (BaseBridgeAdapter := BaseBridgeAdapter)).

(** Methods of [BaseBridgeAdapter]. *)
Variable getL1Bridge : Bridge -> Completion Contract.
Variable getL2Bridge : Bridge -> Completion Contract.
Variable resolveL2TokenAddress : Bridge -> string -> Completion string.
(** [bridge.filters.DepositETH(from, to)] and
    [bridge.filters.FinalizeDepositETH(from, to)] *)
Variable DepositETH : Contract -> string -> string -> Completion EventFilter.
Variable FinalizeDepositETH : Contract -> string -> string -> Completion EventFilter.
(** The awaited [paginatedEventQuery(contract, filter, eventConfig)]. *)
Variable paginatedEventQuery :
  Contract -> EventFilter -> EventSearchConfig -> Completion (list RawEvent).
(** [processEvent(event, amountField, toField, fromField)] *)
Variable processEvent : RawEvent -> string -> string -> string -> Completion BridgeEvent.

(** [BridgeEvents]: the processed events by L2 token. *)
Abbreviation BridgeEvents := (gmap string (list BridgeEvent)).

Definition andThen {A B : Type} (c : Completion A) (k : A -> Completion B) : Completion B :=
  match c with
  | Normal a => k a
  | Throw e => Throw e
  end.

(** [{ [key]: events.map((event) => processEvent(event, "amount", "to", "from")) }]:
    the computed key is evaluated before the value. *)
Definition eventsUnderToken (this : Bridge) (l1Token : string) (events : list RawEvent)
  : Completion BridgeEvents :=
  andThen (resolveL2TokenAddress this l1Token) (fun l2Token =>
  andThen (mapThrowing (fun event => processEvent event "amount" "to" "from") events)
    (fun processed =>
  Normal {[ l2Token := processed ]})).

Definition queryL1BridgeInitiationEvents (this : Bridge)
  (l1Token fromAddress toAddress : string) (eventConfig : EventSearchConfig)
  : Completion BridgeEvents :=
  andThen (getL1Bridge this) (fun l1Bridge =>
  andThen (DepositETH l1Bridge fromAddress toAddress) (fun filter =>
  andThen (paginatedEventQuery l1Bridge filter eventConfig) (fun events =>
  eventsUnderToken this l1Token events))).

Definition queryL2BridgeFinalizationEvents (this : Bridge)
  (l1Token fromAddress toAddress : string) (eventConfig : EventSearchConfig)
  : Completion BridgeEvents :=
  andThen (getL2Bridge this) (fun l2Bridge =>
  andThen (FinalizeDepositETH l2Bridge fromAddress toAddress) (fun filter =>
  andThen (paginatedEventQuery l2Bridge filter eventConfig) (fun events =>
  eventsUnderToken this l1Token events))).

End Queries.
End ScrollWethBridgeEvents.

(** * The root bundle validation script *)

Module RootBundleValidator.
Import Dataworker.

(** The messages the script hands to the logger, with the payload that
    depends on what the script found. *)
Inductive LogMessage : Type :=
| LogValidating
| LogOutdatedConfigStore
| LogNoBundleLinkedToDispute (foundDisputeEvent foundProposedRootBundle : bool)
| LogFoundPrecedingRootBundle (transactionHash : string)
| LogSettingStartBlocks
| LogValidationResults (valid : bool).

Section Script.

Context {World SpokePoolClientsByChain Providers BalanceAllocator BigNumber OtherSettings : Type}.
Context {Time Dvm DisputeEvent BlockRanges Reason : Type}.

Abbreviation Config := (@DataworkerConfig BigNumber OtherSettings).
Abbreviation Machine := (@Dataworker.Machine World BalanceAllocator).
Abbreviation Effect := (@Dataworker.Effect World).

(** [ProposedRootBundle]: a proposal event of the hub pool. *)
Record ProposedRootBundle : Type := {
  poolRebalanceRoot : string;
  relayerRefundRoot : string;
  slowRelayRoot : string;
  proposer : string;
  poolRebalanceLeafCount : Z;
  challengePeriodEndTimestamp : Z;
  bundleEvaluationBlockNumbers : list BigNumber;
  blockNumber : Z;
  transactionHash : string
}.

(** [PendingRootBundle], as the script builds it from a proposal. *)
Record PendingRootBundle : Type := {
  pendingPoolRebalanceRoot : string;
  pendingRelayerRefundRoot : string;
  pendingSlowRelayRoot : string;
  pendingProposer : string;
  unclaimedPoolRebalanceLeafCount : Z;
  pendingChallengePeriodEndTimestamp : Z;
  pendingBundleEvaluationBlockNumbers : list Z;
  proposalBlockNumber : Z
}.

(** [{ ...config, dataworkerFastStartBundle, dataworkerFastLookbackCount }]:
    the copy with its lookback count replaced, and the start bundle, which
    [DataworkerConfig] keeps among its other settings, beside it. *)
Record OverriddenConfig : Type := {
  copied : Config;
  dataworkerFastStartBundle : Z
}.

(** The code outside the script that only the script calls; the rest it
    shares with [runDataworker]. *)
Record Collaborators : Type := {
  shared :
    @Dataworker.Collaborators World SpokePoolClientsByChain Providers BalanceAllocator
      BigNumber OtherSettings;
  (* [Number(text)] *)
  Number : string -> Time;
  getCurrentTime : World -> Time;
  getBlockForTimestamp : Time -> Time -> Effect Z;
  getDvmContract : Effect Dvm;
  (* [updateDataworkerClients(clients, false)] *)
  updateDataworkerClientsOnly : Effect unit;
  hasLatestConfigStoreVersion : World -> bool;
  (* [None] is [undefined]. *)
  getDisputeForTimestamp : Dvm -> Time -> Z -> Effect (option DisputeEvent);
  getDisputedProposal : DisputeEvent -> Effect (option ProposedRootBundle);
  getProposedRootBundles : Effect (list ProposedRootBundle);
  sortEventsDescending : list ProposedRootBundle -> list ProposedRootBundle;
  getValidatedRootBundles : Effect (list ProposedRootBundle);
  (* [getSpokePoolClientEventSearchConfigsForFastDataworker], given the
     overridden configuration. *)
  getSearchConfigsForOverridden : OverriddenConfig -> Effect EventSearchConfigs;
  (* [getWidestPossibleExpectedBlockRange], with the chain id list, the end
     block buffers and the clients taken from the world. *)
  getWidestPossibleExpectedBlockRange : SpokePoolClientsByChain -> Z -> Effect BlockRanges;
  (* [dataworker.validateRootBundle]: [{ valid, reason }]. *)
  validateRootBundle :
    BlockRanges -> PendingRootBundle -> SpokePoolClientsByChain -> BlockMap ->
    Effect (bool * Reason)
}.

(** The calls of the script. *)
Inductive Event : Type :=
| EvCreateDataworker
    (e : @Dataworker.Event SpokePoolClientsByChain Providers BalanceAllocator BigNumber
           OtherSettings)
| EvLog (m : LogMessage)
| EvGetBlockForTimestamp (priceRequestTime currentTime : Time) (r : Completion Z)
| EvGetDvmContract (r : Completion Dvm)
| EvUpdateDataworkerClients (r : Completion unit)
| EvHasLatestConfigStoreVersion (latest : bool)
| EvGetDisputeForTimestamp (priceRequestTime : Time) (priceRequestBlock : Z)
    (r : Completion (option DisputeEvent))
| EvGetDisputedProposal (dispute : DisputeEvent) (r : Completion (option ProposedRootBundle))
| EvGetProposedRootBundles (r : Completion (list ProposedRootBundle))
| EvGetValidatedRootBundles (r : Completion (list ProposedRootBundle))
| EvGetSearchConfigs (overriddenConfig : OverriddenConfig) (r : Completion EventSearchConfigs)
| EvConstructSpokePoolClients (config : Config) (fromBlocks toBlocks : BlockMap)
    (r : Completion SpokePoolClientsByChain)
| EvGetWidestPossibleExpectedBlockRange (spokePoolClients : SpokePoolClientsByChain)
    (priceRequestBlock : Z) (r : Completion BlockRanges)
| EvValidateRootBundle (widestPossibleBlockRanges : BlockRanges)
    (rootBundle : PendingRootBundle) (spokePoolClients : SpokePoolClientsByChain)
    (fromBlocks : BlockMap) (r : Completion (bool * Reason)).

(** A computation of the script. *)
Definition V (A : Type) : Type := Machine -> Completion A * Machine * list Event.

Definition ret {A : Type} (a : A) : V A := fun s => (Normal a, s, []).

Definition throw {A : Type} (e : JsError) : V A := fun s => (Throw e, s, []).

Definition bind {A B : Type} (m : V A) (k : A -> V B) : V B := fun s =>
  match m s with
  | (Normal a, s1, t1) => let '(r, s2, t2) := k a s1 in (r, s2, t1 ++ t2)
  | (Throw e, s1, t1) => (Throw e, s1, t1)
  end.

Notation "x <- c ;; k" := (bind c (fun x => k))
  (at level 100, c at next level, right associativity).
Notation "c ;;; k" := (bind c (fun _ => k))
  (at level 100, right associativity).

Definition lift {A : Type} (c : Completion A) : V A := fun s => (c, s, []).

Definition log (m : LogMessage) : V unit := fun s => (Normal tt, s, [EvLog m]).

Definition call {A : Type} (f : Effect A) (ev : Completion A -> Event) : V A := fun s =>
  let '(r, w) := f (world s) in
  (r, {| world := w; allocators := allocators s |}, [ev r]).

Definition readWorld {A : Type} (f : World -> A) : V A := fun s => (Normal (f (world s)), s, []).

(** A computation of [runDataworker]'s file, run from the script. *)
Definition fromDataworker {A : Type} (m : Dataworker.M A) : V A := fun s =>
  let '(r, s1, t) := m s in (r, s1, map EvCreateDataworker t).

(** ** Finding the bundle to validate *)

(** [sorted.find((x) => x.blockNumber <= priceRequestBlock)] *)
Definition mostRecentBefore (sorted : list ProposedRootBundle) (priceRequestBlock : Z)
  : option ProposedRootBundle :=
  find (fun x => blockNumber x <=? priceRequestBlock) sorted.

(** From the dispute lookup to the check that a proposal was found. *)
Definition findPrecedingProposal (col : Collaborators) (dvm : Dvm) (priceRequestTime : Time)
  (priceRequestBlock : Z) : V ProposedRootBundle :=
  disputeEventForRequestTime <-
    call (getDisputeForTimestamp col dvm priceRequestTime priceRequestBlock)
         (EvGetDisputeForTimestamp priceRequestTime priceRequestBlock) ;;
  disputed <-
    match disputeEventForRequestTime with
    | Some dispute =>
        call (getDisputedProposal col dispute) (EvGetDisputedProposal dispute)
    | None => ret None
    end ;;
  precedingProposeRootBundleEvent <-
    match disputeEventForRequestTime, disputed with
    | Some _, Some proposal => ret (Some proposal)
    | _, _ =>
        log (LogNoBundleLinkedToDispute
               (bool_decide (is_Some disputeEventForRequestTime))
               (bool_decide (is_Some disputed))) ;;;
        proposed <- call (getProposedRootBundles col) EvGetProposedRootBundles ;;
        ret (mostRecentBefore (sortEventsDescending col proposed) priceRequestBlock)
    end ;;
  match precedingProposeRootBundleEvent with
  | Some proposal => ret proposal
  | None => throw (Thrown "No proposed root bundle found before request time")
  end.

(** The [PendingRootBundle] of a proposal: its end blocks as numbers, its
    block number as proposal block number. *)
Definition toPendingRootBundle (col : Collaborators) (proposal : ProposedRootBundle)
  : Completion PendingRootBundle :=
  match mapThrowing (toNumber (shared col)) (bundleEvaluationBlockNumbers proposal) with
  | Throw e => Throw e
  | Normal numbers =>
      Normal {| pendingPoolRebalanceRoot := poolRebalanceRoot proposal;
                pendingRelayerRefundRoot := relayerRefundRoot proposal;
                pendingSlowRelayRoot := slowRelayRoot proposal;
                pendingProposer := proposer proposal;
                unclaimedPoolRebalanceLeafCount := poolRebalanceLeafCount proposal;
                pendingChallengePeriodEndTimestamp := challengePeriodEndTimestamp proposal;
                pendingBundleEvaluationBlockNumbers := numbers;
                proposalBlockNumber := blockNumber proposal |}
  end.

(** ** The search window *)

(** The index of the first validated bundle at or after the proposal. *)
Definition closestFollowingValidatedBundleIndex (validated : list ProposedRootBundle)
  (rootBundle : PendingRootBundle) : Z :=
  findIndex (fun x => blockNumber x >=? proposalBlockNumber rootBundle) validated.

Definition overrideConfig (config : Config) (validated : list ProposedRootBundle)
  (rootBundle : PendingRootBundle) : OverriddenConfig :=
  {| copied := setDataworkerFastLookbackCount config 8;
     dataworkerFastStartBundle := closestFollowingValidatedBundleIndex validated rootBundle + 2 |}.

(** ** validate *)

Definition validate (col : Collaborators) (env : gmap string string) : V unit :=
  if negb (RelayerConfig.truthy (env !! "REQUEST_TIME")) then
    throw (Thrown "Must set environment variable 'REQUEST_TIME=<NUMBER>' to disputed price request time")
  else
    let priceRequestTime := Number col (default "" (env !! "REQUEST_TIME")) in
    config <- fromDataworker (createDataworker (shared col)) ;;
    log LogValidating ;;;
    currentTime <- readWorld (getCurrentTime col) ;;
    priceRequestBlock <-
      call (getBlockForTimestamp col priceRequestTime currentTime)
           (EvGetBlockForTimestamp priceRequestTime currentTime) ;;
    dvm <- call (getDvmContract col) EvGetDvmContract ;;
    call (updateDataworkerClientsOnly col) EvUpdateDataworkerClients ;;;
    latest <- (fun s =>
                 (Normal (hasLatestConfigStoreVersion col (world s)), s,
                  [EvHasLatestConfigStoreVersion (hasLatestConfigStoreVersion col (world s))])) ;;
    if negb latest then
      log LogOutdatedConfigStore
    else
      proposal <- findPrecedingProposal col dvm priceRequestTime priceRequestBlock ;;
      rootBundle <- lift (toPendingRootBundle col proposal) ;;
      log (LogFoundPrecedingRootBundle (transactionHash proposal)) ;;;
      validated <- call (getValidatedRootBundles col) EvGetValidatedRootBundles ;;
      let overriddenConfig := overrideConfig config validated rootBundle in
      searchConfigs <-
        call (getSearchConfigsForOverridden col overriddenConfig)
             (EvGetSearchConfigs overriddenConfig) ;;
      log LogSettingStartBlocks ;;;
      spokePoolClients <-
        call (constructSpokePoolClientsForFastDataworker (shared col) config
                (fromBlocks searchConfigs) (toBlocks searchConfigs))
             (EvConstructSpokePoolClients config
                (fromBlocks searchConfigs) (toBlocks searchConfigs)) ;;
      widestPossibleBlockRanges <-
        call (getWidestPossibleExpectedBlockRange col spokePoolClients priceRequestBlock)
             (EvGetWidestPossibleExpectedBlockRange spokePoolClients priceRequestBlock) ;;
      result <-
        call (validateRootBundle col widestPossibleBlockRanges rootBundle spokePoolClients
                (fromBlocks searchConfigs))
             (EvValidateRootBundle widestPossibleBlockRanges rootBundle spokePoolClients
                (fromBlocks searchConfigs)) ;;
      log (LogValidationResults result.1).

(** ** Observations on the script's events *)

Definition count (p : Event -> bool) (t : list Event) : nat := length (List.filter p t).


Definition isFetch (e : Event) : bool :=
  match e with EvConstructSpokePoolClients _ _ _ _ => true | _ => false end.

Definition isProposedBundlesQuery (e : Event) : bool :=
  match e with EvGetProposedRootBundles _ => true | _ => false end.

End Script.
End RootBundleValidator.
(** * Concrete inputs *)

(** A small world on which the model runs: one spoke chain (chain id 1)
    whose head is block 1000, a latest fully executed bundle that ended at
    block 960, and spoke pool clients that cannot match fills before the
    first block of their search window.  The world counts the passes
    through the polling loop. *)
Module Example.
Import Dataworker.

(** The spoke pool clients are the first block they loaded. *)
Abbreviation Clients := Z.
(** A balance allocator is the list of leaf kinds it reserved for. *)
Abbreviation Ledger := (list LeafKind).
Abbreviation Config := (@DataworkerConfig Z unit).
Abbreviation Calls := (@Collaborators nat Clients unit Ledger Z unit).
Abbreviation State := (@Machine nat Ledger).
Abbreviation Trace := (list (@Event Clients unit Ledger Z unit)).

Definition config (retries : Z) (executor : bool) : Config :=
  {| dataworkerFastLookbackCount := 16;
     dataworkerFastLookbackRetryCount := retries;
     dataworkerFastLookbackRetryMultiplier := 2;
     disputerEnabled := true;
     sendingDisputesEnabled := false;
     proposerEnabled := true;
     sendingProposalsEnabled := false;
     rootBundleExecutionThreshold := 500000;
     executorEnabled := executor;
     sendingExecutionsEnabled := false;
     pollingDelay := 0;
     otherSettings := tt |}.

Definition searchConfigs (c : Config) : EventSearchConfigs :=
  {| fromBundle := None;
     toBundle := None;
     fromBlocks := {[ 1 := 1000 - dataworkerFastLookbackCount c ]};
     toBlocks := {[ 1 := 1000 ]} |}.

Definition reserve (k : LeafKind) (_ : option Clients) (ledger : Ledger) (_ : bool)
  (_ : BlockMap) (w : nat) : Completion unit * Ledger * nat :=
  (Normal tt, ledger ++ [k], w).

(** The queue flush fails in pass [failingPass] (if any); the loop is told
    to stop at the end of pass [lastPass]. *)
Definition calls (retries : Z) (lastPass : nat) (failingPass : option nat) : Calls :=
  {| newDataworkerConfig := fun w => (Normal (config retries true), w);
     constructDataworkerClients := fun _ w => (Normal tt, w);
     newDataworker := fun _ w => (Normal tt, w);
     updateDataworkerClients := fun w => (Normal tt, S w);
     getLatestFullyExecutedRootBundle := fun w => (Normal (Some [960]), w);
     chainIdListForBundleEvaluationBlockNumbers := fun _ => [1];
     toNumber := fun b => Normal b;
     getSpokePoolClientEventSearchConfigsForFastDataworker :=
       fun c w => (Normal (searchConfigs c), w);
     constructSpokePoolClientsForFastDataworker :=
       fun _ from _ w => (Normal (default 0 (from !! 1)), w);
     getLatestInvalidBundleStartBlocks := fun clients w => (Normal {[ 1 := clients ]}, w);
     validatePendingRootBundle := fun _ _ _ w => (Normal tt, w);
     proposeRootBundle := fun _ _ _ _ w => (Normal tt, w);
     spokePoolClientsToProviders := fun _ w => (Normal tt, w);
     newBalanceAllocator := fun _ => [];
     executePoolRebalanceLeaves := reserve PoolRebalance;
     executeSlowRelayLeaves := reserve SlowRelay;
     executeRelayerRefundLeaves := reserve RelayerRefund;
     executeTransactionQueue := fun w =>
       (if decide (failingPass = Some w) then Throw (Thrown "nonce too low") else Normal tt, w);
     processEndPollingLoop := fun _ w => (Normal (bool_decide (lastPass <= w)%nat), w);
     hasRedisClient := fun _ => true;
     disconnectRedis := fun w => w |}.

Definition start : State := {| world := 0%nat; allocators := [] |}.

(** The end blocks of the latest fully executed bundle, by chain. *)
Definition endBlocks : BlockMap := {[ 1 := 960 ]}.

(** A contract table with the hub chain (1) and Scroll (534352).  A
    contract is its address; the base adapter keeps nothing. *)
Definition contractAddresses : gmap Z (gmap string (string * unit)) :=
  {[ 1 := {[ "scrollGatewayRouter" := ("0xF8B1", tt); "atomicDepositor" := ("0xa679", tt) ]};
     534352 := {[ "scrollGatewayRouter" := ("0x4C0926", tt) ]} ]}.

Definition newContract (address : string) (_ : unit) (_ : unit + unit) : Completion string :=
  Normal address.

Definition baseAdapter (_ _ : Z) (_ : unit) (_ : unit + unit) (_ : list string)
  : Completion unit :=
  Normal tt.

Definition scrollBridge : ScrollWethBridge.Bridge (Contract := string) (BaseBridgeAdapter := unit) :=
  {| ScrollWethBridge.base := tt;
     ScrollWethBridge.l1Bridge := "0xF8B1";
     ScrollWethBridge.l2Bridge := "0x4C0926";
     ScrollWethBridge.atomicDepositor := "0xa679";
     ScrollWethBridge.l2Gas := 20000 |}.

(** An environment that enables relays and sets no lookback. *)
Definition relayerEnv : gmap string string :=
  {[ "SEND_RELAYS" := "true"; "REPAYMENT_CHAIN_FOR_TOKEN" := "" ]}.

Definition commonConfig (_ : gmap string string) : Completion unit := Normal tt.

(** A parser that accepts nothing but [{}]. *)
Definition parseJson (text : string) : Completion RelayerConfig.Json :=
  if String.eqb text "{}" then Normal RelayerConfig.emptyObject
  else Throw (Thrown "SyntaxError").

End Example.


(** ** Worlds in which something is missing *)

Module BrokenExample.
Import Dataworker Example.

(** As [calls 0 0 None], except that the hub pool reports [bundle] as its
    latest fully executed bundle, that bundles have an end block for each
    chain of [chainIds], and that constructing the dataworker clients fails
    when [clientsDown]. *)
Definition calls (bundle : option (list Z)) (chainIds : list Z) (clientsDown : bool) : Calls :=
  let c := Example.calls 0 0 None in
  {| newDataworkerConfig := newDataworkerConfig c;
     constructDataworkerClients := fun _ w =>
       (if clientsDown then Throw (Thrown "no provider") else Normal tt, w);
     newDataworker := newDataworker c;
     updateDataworkerClients := updateDataworkerClients c;
     getLatestFullyExecutedRootBundle := fun w => (Normal bundle, w);
     chainIdListForBundleEvaluationBlockNumbers := fun _ => chainIds;
     toNumber := toNumber c;
     getSpokePoolClientEventSearchConfigsForFastDataworker :=
       getSpokePoolClientEventSearchConfigsForFastDataworker c;
     constructSpokePoolClientsForFastDataworker :=
       constructSpokePoolClientsForFastDataworker c;
     getLatestInvalidBundleStartBlocks := getLatestInvalidBundleStartBlocks c;
     validatePendingRootBundle := validatePendingRootBundle c;
     proposeRootBundle := proposeRootBundle c;
     spokePoolClientsToProviders := spokePoolClientsToProviders c;
     newBalanceAllocator := newBalanceAllocator c;
     executePoolRebalanceLeaves := executePoolRebalanceLeaves c;
     executeSlowRelayLeaves := executeSlowRelayLeaves c;
     executeRelayerRefundLeaves := executeRelayerRefundLeaves c;
     executeTransactionQueue := executeTransactionQueue c;
     processEndPollingLoop := processEndPollingLoop c;
     hasRedisClient := hasRedisClient c;
     disconnectRedis := disconnectRedis c |}.

(** An environment that sets a lookback, as the empty object. *)
Definition lookbackEnv : gmap string string :=
  {[ "MAX_RELAYER_DEPOSIT_LOOK_BACK" := "{}" ]}.

End BrokenExample.

(** ** Bridge events *)

(** A bridge contract has three deposit events, each a block number and an
    amount; the one with a negative amount cannot be processed.  A filter
    is the event name with the two addresses, a search range a first and a
    last block. *)
Module BridgeEventsExample.

Abbreviation Bridge :=
  (ScrollWethBridge.Bridge (Contract := string) (BaseBridgeAdapter := unit)).

Definition rawEvents : list (Z * Z) := [(10, 5); (20, -1); (30, 7)].

Definition getL1Bridge (this : Bridge) : Completion string :=
  Normal (ScrollWethBridge.l1Bridge this).

Definition getL2Bridge (this : Bridge) : Completion string :=
  Normal (ScrollWethBridge.l2Bridge this).

Definition resolveL2TokenAddress (_ : Bridge) (l1Token : string) : Completion string :=
  if String.eqb l1Token "0xC02a" then Normal "0x5300"%string
  else Throw (Thrown "unknown token").

Definition eventFilter (name : string) (_ : string) (fromAddress toAddress : string)
  : Completion (string * string * string) :=
  Normal (name, fromAddress, toAddress).

Definition paginatedEventQuery (_ : string) (_ : string * string * string) (range : Z * Z)
  : Completion (list (Z * Z)) :=
  Normal (List.filter (fun ev : Z * Z => (range.1 <=? ev.1) && (ev.1 <=? range.2)) rawEvents).

Definition processEvent (ev : Z * Z) (_ _ _ : string) : Completion Z :=
  if ev.2 <? 0 then Throw (Thrown "malformed event") else Normal ev.2.

End BridgeEventsExample.

(** ** A disputed price request *)

(** The request time falls in block 250.  Three bundles were proposed, in
    blocks 100, 300 and 200; the two in blocks 100 and 200 were validated.
    No dispute is recorded for the request time. *)
Module ValidatorExample.
Import Dataworker RootBundleValidator.

Abbreviation Proposal := (@ProposedRootBundle Z).
Abbreviation Calls :=
  (@RootBundleValidator.Collaborators nat Example.Clients unit Example.Ledger Z unit
     Z unit unit (Z * Z) string).

Definition proposal (block : Z) (hash : string) : Proposal :=
  {| poolRebalanceRoot := "0xaa";
     relayerRefundRoot := "0xbb";
     slowRelayRoot := "0xcc";
     proposer := "0xdd";
     poolRebalanceLeafCount := 2;
     challengePeriodEndTimestamp := 7200;
     bundleEvaluationBlockNumbers := [block - 10];
     blockNumber := block;
     transactionHash := hash |}.

Definition proposals : list Proposal :=
  [proposal 100 "0x01"; proposal 300 "0x03"; proposal 200 "0x02"].

Definition sortedProposals : list Proposal :=
  [proposal 300 "0x03"; proposal 200 "0x02"; proposal 100 "0x01"].

(** Sorting by insertion, latest block first. *)
Fixpoint insertDescending (x : Proposal) (l : list Proposal) : list Proposal :=
  match l with
  | [] => [x]
  | y :: rest =>
      if blockNumber y <=? blockNumber x then x :: l else y :: insertDescending x rest
  end.

Definition sortDescending (l : list Proposal) : list Proposal :=
  foldr insertDescending [] l.

Definition calls (latest : bool) : Calls :=
  {| shared := Example.calls 0 0 None;
     Number := fun text => if String.eqb text "1700000000" then 1700000000 else 0;
     getCurrentTime := fun _ => 1700003600;
     getBlockForTimestamp := fun _ _ w => (Normal 250, w);
     getDvmContract := fun w => (Normal tt, w);
     updateDataworkerClientsOnly := fun w => (Normal tt, w);
     hasLatestConfigStoreVersion := fun _ => latest;
     getDisputeForTimestamp := fun _ _ _ w => (Normal None, w);
     getDisputedProposal := fun _ w => (Normal None, w);
     getProposedRootBundles := fun w => (Normal proposals, w);
     sortEventsDescending := sortDescending;
     getValidatedRootBundles := fun w => (Normal [proposal 100 "0x01"; proposal 200 "0x02"], w);
     getSearchConfigsForOverridden := fun overridden w =>
       (Normal (Example.searchConfigs (copied overridden)), w);
     getWidestPossibleExpectedBlockRange := fun clients priceRequestBlock w =>
       (Normal (clients, priceRequestBlock), w);
     validateRootBundle := fun _ _ _ _ w => (Normal (true, ""%string), w) |}.

Definition requestEnv : gmap string string := {[ "REQUEST_TIME" := "1700000000" ]}.

End ValidatorExample.

(** * Facts about ScrollWethBridge *)

Section BridgeFacts.

Import ScrollWethBridge.

Context {Abi Signer Provider Contract BigNumber BaseBridgeAdapter : Type}.
Variable CONTRACT_ADDRESSES : gmap Z (gmap string (string * Abi)).
Variable newContract : string -> Abi -> Signer + Provider -> Completion Contract.
Variable super :
  Z -> Z -> Signer -> Signer + Provider -> list string -> Completion BaseBridgeAdapter.

Lemma andThen_Normal {A B : Type} (c : Completion A) (k : A -> Completion B) (b : B) :
  andThen c k = Normal b -> exists a, c = Normal a /\ k a = Normal b.
Proof. destruct c as [a|e]; simpl; [eauto | discriminate]. Qed.

(** The constructor never changes the gas limit set by the field
    initialiser, and the depositor it stores is the one built from the hub
    chain's table entry. *)
Lemma constructor_fields l2chainId hubChainId l1Signer l2SignerOrProvider l1Token
  (this : Bridge) :
  constructor CONTRACT_ADDRESSES newContract super
    l2chainId hubChainId l1Signer l2SignerOrProvider l1Token = Normal this ->
  l2Gas this = 20000 /\
  exists entry,
    contractEntry CONTRACT_ADDRESSES hubChainId "atomicDepositor" = Normal entry /\
    newContract entry.1 entry.2 (inl l1Signer) = Normal (atomicDepositor this).
Proof.
  unfold constructor. intros H.
  repeat (apply andThen_Normal in H; destruct H as [? [? H]]).
  injection H as <-. simpl. eauto.
Qed.

(** C9: on every bridge the constructor builds, [constructL1ToL2Txn]
    resolves, for all four arguments, to the transaction that calls
    [bridgeWethToScroll] on the atomic depositor (the contract made from the
    hub chain's [atomicDepositor] entry) with the arguments
    [toAddress, amount, 20000]; the two token arguments do not change the
    result. *)
Theorem constructL1ToL2Txn_bridgeWethToScroll
  l2chainId hubChainId l1Signer l2SignerOrProvider _l1Token (this : Bridge)
  (toAddress l1Token l2Token : string) (amount : BigNumber) :
  constructor CONTRACT_ADDRESSES newContract super
    l2chainId hubChainId l1Signer l2SignerOrProvider _l1Token = Normal this ->
  constructL1ToL2Txn this toAddress l1Token l2Token amount =
    Normal {| contract := atomicDepositor this;
              method := "bridgeWethToScroll";
              args := [ArgString toAddress; ArgBigNumber amount; ArgNumber 20000] |}
  /\ (exists entry,
        contractEntry CONTRACT_ADDRESSES hubChainId "atomicDepositor" = Normal entry /\
        newContract entry.1 entry.2 (inl l1Signer) = Normal (atomicDepositor this))
  /\ (forall l1Token' l2Token' : string,
        constructL1ToL2Txn this toAddress l1Token' l2Token' amount =
        constructL1ToL2Txn this toAddress l1Token l2Token amount).
Proof.
  intros H. apply constructor_fields in H as [Hgas Hdep].
  split; [| split; [exact Hdep | reflexivity]].
  unfold constructL1ToL2Txn. rewrite Hgas. reflexivity.
Qed.

End BridgeFacts.

(** The bridge between chain 1 and Scroll, asked to send 5 WETH. *)
Lemma constructL1ToL2Txn_bridgeWethToScroll_example :
  ScrollWethBridge.constructor Example.contractAddresses Example.newContract Example.baseAdapter
    534352 1 tt (inl tt) "0xC02a" = Normal Example.scrollBridge
  /\ ScrollWethBridge.constructL1ToL2Txn (BigNumber := Z) Example.scrollBridge
       "0x9A8f" "0xC02a" "0x5300" 5 =
     Normal {| ScrollWethBridge.contract := "0xa679"%string;
               ScrollWethBridge.method := "bridgeWethToScroll";
               ScrollWethBridge.args :=
                 [ScrollWethBridge.ArgString "0x9A8f"; ScrollWethBridge.ArgBigNumber 5;
                  ScrollWethBridge.ArgNumber 20000] |}.
Proof.
  assert (H : ScrollWethBridge.constructor Example.contractAddresses Example.newContract
                Example.baseAdapter 534352 1 tt (inl tt) "0xC02a"
              = Normal Example.scrollBridge) by (vm_compute; reflexivity).
  split; [exact H |].
  exact (proj1 (constructL1ToL2Txn_bridgeWethToScroll
                  Example.contractAddresses Example.newContract Example.baseAdapter
                  534352 1 tt (inl tt) "0xC02a" Example.scrollBridge
                  "0x9A8f" "0xC02a" "0x5300" 5 H)).
Defined.

(** * Facts about RelayerConfig *)

Section RelayerConfigFacts.

Import RelayerConfig.

Context {CommonConfig : Type}.
Variable super : ProcessEnv -> Completion CommonConfig.
Variable JSON_parse : string -> Completion Json.

Lemma strictEqualsTrue_iff (v : option string) :
  strictEqualsTrue v = true <-> v = Some "true".
Proof.
  destruct v as [s|]; simpl.
  - rewrite String.eqb_eq. split; congruence.
  - split; discriminate.
Qed.

Lemma parseOrEmpty_unset (v : option string) :
  v = None \/ v = Some "" -> parseOrEmpty JSON_parse v = Normal emptyObject.
Proof. intros [-> | ->]; reflexivity. Qed.

(** C10: whenever the constructor builds a configuration from an
    environment, [sendingRelaysEnabled] is [true] exactly when [SEND_RELAYS]
    is the string ["true"], and [maxRelayerLookBack] and
    [repaymentChainIdForToken] are the empty object when their variable is
    unset or the empty string. *)
Theorem constructor_reads_environment (env : ProcessEnv) (c : Config) :
  constructor super JSON_parse env = Normal c ->
  (sendingRelaysEnabled c = true <-> env !! "SEND_RELAYS" = Some "true")
  /\ (env !! "MAX_RELAYER_DEPOSIT_LOOK_BACK" = None
      \/ env !! "MAX_RELAYER_DEPOSIT_LOOK_BACK" = Some "" ->
      maxRelayerLookBack c = emptyObject)
  /\ (env !! "REPAYMENT_CHAIN_FOR_TOKEN" = None
      \/ env !! "REPAYMENT_CHAIN_FOR_TOKEN" = Some "" ->
      repaymentChainIdForToken c = emptyObject).
Proof.
  unfold constructor. intros H.
  destruct (super env) as [b|]; [| discriminate].
  destruct (parseOrEmpty JSON_parse (env !! "MAX_RELAYER_DEPOSIT_LOOK_BACK"))
    as [lookBack|] eqn:Hmax; [| discriminate].
  destruct (parseOrEmpty JSON_parse (env !! "REPAYMENT_CHAIN_FOR_TOKEN"))
    as [repayment|] eqn:Hrep; [| discriminate].
  injection H as <-. simpl.
  split; [apply strictEqualsTrue_iff |].
  split; intros Hunset; apply parseOrEmpty_unset in Hunset; congruence.
Qed.

End RelayerConfigFacts.

(** An environment with [SEND_RELAYS=true], an empty
    [REPAYMENT_CHAIN_FOR_TOKEN] and no [MAX_RELAYER_DEPOSIT_LOOK_BACK]. *)
Lemma constructor_reads_environment_example :
  exists c,
    RelayerConfig.constructor Example.commonConfig Example.parseJson Example.relayerEnv
      = Normal c
    /\ RelayerConfig.sendingRelaysEnabled c = true
    /\ RelayerConfig.maxRelayerLookBack c = RelayerConfig.emptyObject
    /\ RelayerConfig.repaymentChainIdForToken c = RelayerConfig.emptyObject.
Proof.
  eexists. split; [vm_compute; reflexivity |].
  match goal with
  | |- RelayerConfig.sendingRelaysEnabled ?c = _ /\ _ =>
      destruct (constructor_reads_environment Example.commonConfig Example.parseJson
                  Example.relayerEnv c ltac:(vm_compute; reflexivity)) as [Hsend [Hmax Hrep]]
  end.
  split; [apply Hsend; vm_compute; reflexivity |].
  split; [apply Hmax; left; vm_compute; reflexivity
         | apply Hrep; right; vm_compute; reflexivity].
Defined.

(** * Facts about the dataworker *)

Section DataworkerFacts.

Import Dataworker.

Context {World SpokePoolClientsByChain Providers BalanceAllocator BigNumber OtherSettings : Type}.

Abbreviation Cfg := (@DataworkerConfig BigNumber OtherSettings).
Abbreviation Col :=
  (@Collaborators World SpokePoolClientsByChain Providers BalanceAllocator BigNumber OtherSettings).
Abbreviation St := (@Machine World BalanceAllocator).
Abbreviation Ev :=
  (@Event SpokePoolClientsByChain Providers BalanceAllocator BigNumber OtherSettings).
Abbreviation Loc := (@Locals SpokePoolClientsByChain BigNumber OtherSettings).

Variable col : Col.
Variable config : Cfg.

(** ** The retry loop, one round at a time *)

Lemma fetchRound_result (ends : BlockMap) (i : Z) (loc : Loc) (s : St) :
  RoundResult col config ends i loc s
    (fetchRound col config ends i loc s).1.1
    (fetchRound col config ends i loc s).1.2
    (fetchRound col config ends i loc s).2.
Proof.
  unfold fetchRound, bind, call, log, ret.
  destruct (getSpokePoolClientEventSearchConfigsForFastDataworker col (customConfig loc) (world s))
    as [[sc|e] w1] eqn:Hsc; simpl; [| by apply SearchConfigsThrew].
  destruct (constructSpokePoolClientsForFastDataworker col (customConfig loc)
              (fromBlocks sc) (toBlocks sc) w1) as [[clients|e] w2] eqn:Hcl; simpl;
    [| by eapply ConstructThrew].
  destruct (getLatestInvalidBundleStartBlocks col clients w2) as [[invalid|e] w3] eqn:Hinv;
    simpl; [| by eapply InvalidStartBlocksThrew].
  destruct (someInvalidStartBlockIsLater invalid ends) eqn:Hlater; simpl.
  - by eapply WindowInsufficient.
  - by eapply WindowSufficient.
Qed.

Lemma retryLoop_unfold (ends : BlockMap) (i : Z) (loc : Loc) (s : St) :
  retryLoop col config ends i loc s =
  if Z_le_gt_dec i (dataworkerFastLookbackRetryCount config) then
    match fetchRound col config ends i loc s with
    | (Normal round, s1, t1) =>
        if round.2
        then let '(r, s2, t2) := retryLoop col config ends (i + 1) round.1 s1 in
             (r, s2, t1 ++ t2)
        else (Normal round.1, s1, t1 ++ [])
    | (Throw e, s1, t1) => (Throw e, s1, t1)
    end
  else (Normal loc, s, []).
Proof.
  rewrite retryLoop_equation_1.
  destruct (Z_le_gt_dec i (dataworkerFastLookbackRetryCount config)); simpl; [| reflexivity].
  unfold bind. destruct (fetchRound col config ends i loc s) as [[[round|e] s1] t1];
    [| reflexivity].
  destruct round as [loc1 [|]]; reflexivity.
Qed.

(** Induction over the rounds of the retry loop. *)
Lemma retryLoop_rounds_ind (ends : BlockMap)
  (P : Z -> Loc -> St -> Completion Loc * St * list Ev -> Prop) :
  (forall i loc s,
      i > dataworkerFastLookbackRetryCount config -> P i loc s (Normal loc, s, [])) ->
  (forall i loc s e s1 t1,
      i <= dataworkerFastLookbackRetryCount config ->
      RoundResult col config ends i loc s (Throw e) s1 t1 ->
      P i loc s (Throw e, s1, t1)) ->
  (forall i loc s loc1 s1 t1,
      i <= dataworkerFastLookbackRetryCount config ->
      RoundResult col config ends i loc s (Normal (loc1, false)) s1 t1 ->
      P i loc s (Normal loc1, s1, t1)) ->
  (forall i loc s loc1 s1 t1 r s2 t2,
      i <= dataworkerFastLookbackRetryCount config ->
      RoundResult col config ends i loc s (Normal (loc1, true)) s1 t1 ->
      retryLoop col config ends (i + 1) loc1 s1 = (r, s2, t2) ->
      P (i + 1) loc1 s1 (r, s2, t2) ->
      P i loc s (r, s2, t1 ++ t2)) ->
  forall i loc s, P i loc s (retryLoop col config ends i loc s).
Proof.
  intros Hexit Hthrow Hbreak Hnext i.
  remember (Z.to_nat (dataworkerFastLookbackRetryCount config + 1 - i)) as n eqn:Hn.
  revert i Hn. induction n as [|n IH]; intros i Hn loc s; rewrite retryLoop_unfold;
    destruct (Z_le_gt_dec i (dataworkerFastLookbackRetryCount config)) as [Hle|Hgt];
    try (apply Hexit; lia); try lia.
  pose proof (fetchRound_result ends i loc s) as Hround.
  destruct (fetchRound col config ends i loc s) as [[[[loc1 again]|e] s1] t1]; simpl in *.
  - destruct again.
    + destruct (retryLoop col config ends (i + 1) loc1 s1) as [[r s2] t2] eqn:Hrest.
      eapply Hnext; eauto.
      rewrite <- Hrest. apply IH. lia.
    + rewrite app_nil_r. by apply Hbreak.
  - by apply Hthrow.
Qed.

(** ** Event lists *)

Lemma count_app (p : Ev -> bool) (t1 t2 : list Ev) :
  count p (t1 ++ t2) = (count p t1 + count p t2)%nat.
Proof. unfold count. by rewrite List.filter_app, length_app. Qed.

Lemma count_cons (p : Ev -> bool) (e : Ev) (t : list Ev) :
  count p (e :: t) = ((if p e then 1 else 0) + count p t)%nat.
Proof. unfold count. simpl. by destruct (p e). Qed.

Lemma count_nil (p : Ev -> bool) : count p [] = 0%nat.
Proof. reflexivity. Qed.

Lemma count_zero_of_Forall (p q : Ev -> bool) (t : list Ev) :
  (forall e, q e = true -> p e = false) ->
  Forall (fun e => q e = true) t -> count p t = 0%nat.
Proof.
  intros Hpq Ht. induction Ht as [|e t He _ IH]; [reflexivity |].
  rewrite count_cons, (Hpq e He), IH. reflexivity.
Qed.

(** Counts over a list written with [::] and [++]. *)
Ltac count_list :=
  cbn [app];
  repeat first [ rewrite count_cons | rewrite count_app | rewrite count_nil ];
  cbn [isPoll isRefresh isRoundStart isFetch isWillRetryLog].

Lemma lastInvalidStartBlocks_app (m : BlockMap) (t1 t2 : list Ev) :
  lastInvalidStartBlocks m (t1 ++ t2)
  = lastInvalidStartBlocks (lastInvalidStartBlocks m t1) t2.
Proof. unfold lastInvalidStartBlocks. apply foldl_app. Qed.


(** ** The retry loop as a whole *)

Ltac round_cases H := inversion H; subst; clear H.

Lemma RoundResult_allocators ends i loc s r s1 t1 :
  RoundResult col config ends i loc s r s1 t1 -> allocators s1 = allocators s.
Proof. intros H. by round_cases H. Qed.

Lemma RoundResult_events ends i loc s r s1 t1 :
  RoundResult col config ends i loc s r s1 t1 ->
  Forall (fun e : Ev => isRoundEvent e = true) t1.
Proof. intros H. round_cases H; repeat constructor. Qed.

Lemma retryLoop_allocators ends i loc s :
  allocators (retryLoop col config ends i loc s).1.2 = allocators s.
Proof.
  apply (retryLoop_rounds_ind ends (fun _ _ s out => allocators out.1.2 = allocators s));
    clear; simpl; intros.
  - reflexivity.
  - by eapply RoundResult_allocators.
  - by eapply RoundResult_allocators.
  - etrans; [eassumption |]. by eapply RoundResult_allocators.
Qed.

Lemma retryLoop_events ends i loc s :
  Forall (fun e : Ev => isRoundEvent e = true) (retryLoop col config ends i loc s).2.
Proof.
  apply (retryLoop_rounds_ind ends
           (fun _ _ _ out => Forall (fun e : Ev => isRoundEvent e = true) out.2));
    clear; simpl; intros.
  - constructor.
  - by eapply RoundResult_events.
  - by eapply RoundResult_events.
  - apply Forall_app. split; [by eapply RoundResult_events | assumption].
Qed.



(** ** After the retry loop *)

(** A leaf executor called with the allocator object that was created
    last. *)
Lemma callExecutor_newest kind
  (f : option SpokePoolClientsByChain -> BalanceAllocator -> bool -> BlockMap ->
       World -> Completion unit * BalanceAllocator * World)
  spc (heap : list BalanceAllocator) ledger sending m w :
  callExecutor kind f spc (length heap) sending m
    {| world := w; allocators := heap ++ [ledger] |}
  = let '(r, ledger', w') := f spc ledger sending m w in
    (r, {| world := w'; allocators := heap ++ [ledger'] |},
     [EvExecuteLeaves kind spc (length heap) ledger ledger' sending m r] : list Ev).
Proof.
  unfold callExecutor. simpl.
  rewrite (list_lookup_middle heap [] ledger (length heap) eq_refl).
  destruct (f spc ledger sending m w) as [[r ledger'] w'].
  rewrite insert_app_r_alt by lia. by rewrite Nat.sub_diag.
Qed.

(** Runs [validateProposeExecute] on every combination of switches and
    call results. *)
Ltac run_call :=
  match goal with
  | |- context [validatePendingRootBundle col ?a ?b ?c ?w] =>
      destruct (validatePendingRootBundle col a b c w) as [[[]|?] ?]
  | |- context [proposeRootBundle col ?a ?b ?c ?d ?w] =>
      destruct (proposeRootBundle col a b c d w) as [[[]|?] ?]
  | |- context [spokePoolClientsToProviders col ?a ?w] =>
      destruct (spokePoolClientsToProviders col a w) as [[?|?] ?]
  | |- context [executePoolRebalanceLeaves col ?a ?b ?c ?d ?w] =>
      destruct (executePoolRebalanceLeaves col a b c d w) as [[[[]|?] ?] ?]
  | |- context [executeSlowRelayLeaves col ?a ?b ?c ?d ?w] =>
      destruct (executeSlowRelayLeaves col a b c d w) as [[[[]|?] ?] ?]
  | |- context [executeRelayerRefundLeaves col ?a ?b ?c ?d ?w] =>
      destruct (executeRelayerRefundLeaves col a b c d w) as [[[[]|?] ?] ?]
  | |- context [executeTransactionQueue col ?w] =>
      destruct (executeTransactionQueue col w) as [[[]|?] ?]
  | |- context [processEndPollingLoop col ?a ?w] =>
      destruct (processEndPollingLoop col a w) as [[?|?] ?]
  end.

Ltac run_tail :=
  unfold validateProposeExecute, executeLeaves, bind, call, log, ret, newAllocatorObject;
  destruct (disputerEnabled config), (proposerEnabled config), (executorEnabled config);
  simpl;
  repeat (first [ rewrite callExecutor_newest | run_call ]; simpl).


(** Splits a list that is written out in full before its last [n]
    elements. *)
Ltac split_before n :=
  match goal with
  | |- exists t0, ?l = t0 ++ _ /\ _ => exists (take (length l - n) l); simpl
  | |- exists t0 _, ?l = t0 ++ _ /\ _ => exists (take (length l - n) l); eexists; simpl
  end.

(** What the calls after the retry loop are given is what the retry loop
    left in the locals. *)
Lemma validateProposeExecute_arguments (loc : Loc) (s : St) :
  Forall (fun e : Ev =>
            isRoundEvent e = false /\ isRefresh e = false
            /\ (forall m, invalidStartBlocksGiven e = Some m ->
                          m = latestInvalidBundleStartBlocks loc)
            /\ (forall c, spokePoolClientsGiven e = Some c -> c = spokePoolClients loc))
    (validateProposeExecute col config loc s).2.
Proof.
  run_tail;
    repeat (constructor;
            [ repeat split; try reflexivity; simpl; intros ? ?; congruence |]);
    constructor.
Qed.


(** The end-of-loop check is the last thing a pass does, straight after the
    queue flush, and nothing else of the pass is such a check. *)
Lemma validateProposeExecute_poll (loc : Loc) (s : St) :
  (forall b, (validateProposeExecute col config loc s).1.1 = Normal b ->
     exists t0,
       (validateProposeExecute col config loc s).2
       = t0 ++ [EvExecuteTransactionQueue (Normal tt); EvLog LogTimeToLoop;
                EvProcessEndPollingLoop (pollingDelay config) (Normal b)]
       /\ count isPoll t0 = 0%nat)
  /\ (forall e, (validateProposeExecute col config loc s).1.1 = Throw e ->
        count isPoll (validateProposeExecute col config loc s).2 = 0%nat
        \/ exists t0,
             (validateProposeExecute col config loc s).2
             = t0 ++ [EvExecuteTransactionQueue (Normal tt); EvLog LogTimeToLoop;
                      EvProcessEndPollingLoop (pollingDelay config) (Throw e)]
             /\ count isPoll t0 = 0%nat).
Proof.
  run_tail;
    (split; intros ? [= <-];
     first [ left; reflexivity
           | right; split_before 3%nat; split; reflexivity
           | split_before 3%nat; split; reflexivity ]).
Qed.



(** ** A whole pass *)

Lemma iteration_cases (s : St) r s' t :
  iteration col config s = (r, s', t) -> PassResult col config s r s' t.
Proof.
  unfold iteration, bind at 1, call at 1.
  destruct (updateDataworkerClients col (world s)) as [[[]|e] w] eqn:Hup; simpl;
    [| intros [= <- <- <-]; by apply RefreshThrew].
  unfold bind at 1.
  destruct (latestExecutedBundleEndBlocks col _) as [[[ends|e] s1] t1] eqn:Hends; simpl;
    [| intros [= <- <- <-]; by eapply EndBlocksThrew].
  unfold bind at 1.
  destruct (retryLoop col config ends 0 (initialLocals config) s1)
    as [[[loc|e] s2] t2] eqn:Hloop; simpl;
    [| intros [= <- <- <-]; by eapply RetryLoopThrew].
  destruct (validateProposeExecute col config loc s2) as [[r3 s3] t3] eqn:Htail; simpl.
  intros [= <- <- <-]. by eapply WentOn.
Qed.


(** Asking for the end blocks is one call; it leaves the allocators
    alone. *)
Lemma latestExecutedBundleEndBlocks_result (s : St) :
  exists r0,
    (latestExecutedBundleEndBlocks col s).2 = [EvGetLatestFullyExecutedRootBundle r0]
    /\ allocators (latestExecutedBundleEndBlocks col s).1.2 = allocators s.
Proof.
  unfold latestExecutedBundleEndBlocks, bind, call, lift, readWorld.
  destruct (getLatestFullyExecutedRootBundle col (world s)) as [[[b|]|e] w]; simpl;
    eexists; split; reflexivity.
Qed.

Lemma latestExecutedBundleEndBlocks_cases (s : St) r s1 t1 :
  latestExecutedBundleEndBlocks col s = (r, s1, t1) ->
  exists r0, t1 = [EvGetLatestFullyExecutedRootBundle r0] /\ allocators s1 = allocators s.
Proof.
  intros H. destruct (latestExecutedBundleEndBlocks_result s) as [r0 Hr0].
  rewrite H in Hr0. eauto.
Qed.


(** ** One round of the retry loop *)



Lemma fetchRound_cases ends i loc s r s1 t1 :
  fetchRound col config ends i loc s = (r, s1, t1) ->
  RoundResult col config ends i loc s r s1 t1.
Proof. intros H. pose proof (fetchRound_result ends i loc s) as Hres. by rewrite H in Hres. Qed.

(** A round starts with the search configuration call, made with the
    current copy of the configuration. *)
Lemma RoundResult_first ends i loc s r s1 t1 :
  RoundResult col config ends i loc s r s1 t1 ->
  exists r0 rest, t1 = EvGetSearchConfigs (customConfig loc) r0 :: rest.
Proof. intros H. round_cases H; eauto. Qed.

Lemma retryLoop_first ends i loc s :
  i <= dataworkerFastLookbackRetryCount config ->
  exists r0 rest,
    (retryLoop col config ends i loc s).2 = EvGetSearchConfigs (customConfig loc) r0 :: rest.
Proof.
  intros Hle. rewrite retryLoop_unfold.
  destruct (Z_le_gt_dec i (dataworkerFastLookbackRetryCount config)); [| lia].
  destruct (fetchRound col config ends i loc s) as [[[[loc1 again]|e] s1] t1] eqn:Hround;
    apply fetchRound_cases, RoundResult_first in Hround as [r0 [rest ->]]; simpl.
  - destruct again; simpl; [| eauto].
    destruct (retryLoop col config ends (i + 1) loc1 s1) as [[r s2] t2]. simpl. eauto.
  - eauto.
Qed.



(** ** What the retry loop hands on *)

Lemma lastInvalidStartBlocks_unchanged (m : BlockMap) (t : list Ev) :
  Forall (fun e : Ev => isRoundEvent e = false) t -> lastInvalidStartBlocks m t = m.
Proof.
  intros Ht. revert m. induction Ht as [|e t He _ IH]; intros m; [reflexivity |].
  unfold lastInvalidStartBlocks in *. simpl. rewrite IH.
  by destruct e as [| | | | | | | |? []| | | | | | | |].
Qed.

Lemma invalidStartBlocksGiven_round_event (e : Ev) :
  isRoundEvent e = true -> invalidStartBlocksGiven e = None.
Proof. by destruct e. Qed.

Lemma RoundResult_last_map ends i loc s loc1 again s1 t1 (m : BlockMap) :
  RoundResult col config ends i loc s (Normal (loc1, again)) s1 t1 ->
  latestInvalidBundleStartBlocks loc1 = lastInvalidStartBlocks m t1.
Proof. intros H. by round_cases H. Qed.

(** When the retry loop returns, the map in the locals is the one returned
    by the last [getLatestInvalidBundleStartBlocks] call it made, and the
    map it was entered with if it made none. *)
Lemma retryLoop_last_map ends i loc s :
  forall loc', (retryLoop col config ends i loc s).1.1 = Normal loc' ->
  latestInvalidBundleStartBlocks loc'
  = lastInvalidStartBlocks (latestInvalidBundleStartBlocks loc)
      (retryLoop col config ends i loc s).2.
Proof.
  apply (retryLoop_rounds_ind ends
           (fun _ loc _ out =>
              forall loc', out.1.1 = Normal loc' ->
              latestInvalidBundleStartBlocks loc'
              = lastInvalidStartBlocks (latestInvalidBundleStartBlocks loc) out.2));
    clear; simpl.
  - by intros i loc s _ loc' [= <-].
  - discriminate.
  - intros i loc s loc1 s1 t1 _ Hround loc' [= <-]. by eapply RoundResult_last_map.
  - intros i loc s loc1 s1 t1 r s2 t2 _ Hround _ IH loc' Hr.
    rewrite lastInvalidStartBlocks_app, <- (RoundResult_last_map _ _ _ _ _ _ _ _ _ Hround).
    by apply IH.
Qed.



(** The retry loop only throws when one of its calls throws. *)
Lemma retryLoop_failure ends i loc s :
  forall e, (retryLoop col config ends i loc s).1.1 = Throw e ->
  exists t0 ev,
    (retryLoop col config ends i loc s).2 = t0 ++ [ev]
    /\ failure ev = Some e /\ isRoundEvent ev = true.
Proof.
  apply (retryLoop_rounds_ind ends
           (fun _ _ _ out =>
              forall e, out.1.1 = Throw e ->
              exists t0 ev, out.2 = t0 ++ [ev]
                            /\ failure ev = Some e /\ isRoundEvent ev = true));
    clear; simpl.
  - discriminate.
  - intros i loc s e s1 t1 _ Hround e' [= <-].
    round_cases Hround; split_before 1%nat; repeat split; reflexivity.
  - discriminate.
  - intros i loc s loc1 s1 t1 r s2 t2 _ _ _ IH e Hr.
    destruct (IH e Hr) as [t0 [ev [-> Hev]]].
    exists (t1 ++ t0), ev. by rewrite app_assoc.
Qed.

Lemma validateProposeExecute_not_round_events (loc : Loc) (s : St) :
  Forall (fun e : Ev => isRoundEvent e = false) (validateProposeExecute col config loc s).2.
Proof.
  eapply Forall_impl; [apply validateProposeExecute_arguments |]. by intros e [? _].
Qed.

(** Every call of a pass that is given the invalid start block map is given
    the map of the last round of that pass, and the empty map if the pass
    made no round. *)
Lemma iteration_invalid_start_blocks (s : St) :
  Forall (fun e : Ev =>
            forall m, invalidStartBlocksGiven e = Some m ->
                      m = lastInvalidStartBlocks ∅ (iteration col config s).2)
    (iteration col config s).2.
Proof.
  destruct (iteration col config s) as [[r s'] t] eqn:Hrun. simpl.
  apply iteration_cases in Hrun.
  inversion Hrun as [ e w Hup
                    | w e s1 t1 Hup Hends
                    | w ends s1 t1 e s2 t2 Hup Hends Hloop
                    | w ends s1 t1 loc s2 t2 r3 s3 t3 Hup Hends Hloop Hrest ]; subst;
    try (apply latestExecutedBundleEndBlocks_cases in Hends as [r0 [-> _]]).
  - by repeat constructor.
  - by repeat constructor.
  - constructor; [done |]. constructor; [done |].
    pose proof (retryLoop_events ends 0 (initialLocals config) s1) as Hevents.
    rewrite Hloop in Hevents. eapply Forall_impl; [exact Hevents |]. intros ev Hev m Hm.
    by rewrite (invalidStartBlocksGiven_round_event ev Hev) in Hm.
  - pose proof (retryLoop_events ends 0 (initialLocals config) s1) as Hevents.
    pose proof (retryLoop_last_map ends 0 (initialLocals config) s1 loc) as Hmap.
    pose proof (validateProposeExecute_arguments loc s2) as Hargs.
    pose proof (validateProposeExecute_not_round_events loc s2) as Hnot.
    rewrite Hloop in Hevents, Hmap. rewrite Hrest in Hargs, Hnot. simpl in Hevents, Hmap, Hargs, Hnot.
    change (EvUpdateDataworkerClients (Normal ())
            :: [EvGetLatestFullyExecutedRootBundle r0] ++ t2 ++ t3)
      with ([EvUpdateDataworkerClients (Normal ());
             EvGetLatestFullyExecutedRootBundle r0] ++ t2 ++ t3).
    rewrite !lastInvalidStartBlocks_app, (lastInvalidStartBlocks_unchanged _ t3 Hnot).
    change (lastInvalidStartBlocks ∅ [EvUpdateDataworkerClients (Normal ());
                                       EvGetLatestFullyExecutedRootBundle r0])
      with (∅ : BlockMap).
    rewrite <- (Hmap eq_refl).
    apply Forall_app. split; [by repeat constructor |].
    apply Forall_app. split.
    + eapply Forall_impl; [exact Hevents |]. intros ev Hev m Hm.
      by rewrite (invalidStartBlocksGiven_round_event ev Hev) in Hm.
    + eapply Forall_impl; [exact Hargs |]. intros ev [_ [_ [Hm _]]]. exact Hm.
Qed.


(** ** The order of the steps *)






(** ** The balance allocator *)



(** ** The end-of-loop check *)

Lemma isPoll_round_events (t : list Ev) :
  Forall (fun e : Ev => isRoundEvent e = true) t -> count isPoll t = 0%nat.
Proof. apply count_zero_of_Forall. by intros []. Qed.

Lemma isRefresh_round_events (t : list Ev) :
  Forall (fun e : Ev => isRoundEvent e = true) t -> count isRefresh t = 0%nat.
Proof. apply count_zero_of_Forall. by intros []. Qed.

Lemma validateProposeExecute_no_refresh (loc : Loc) (s : St) :
  count isRefresh (validateProposeExecute col config loc s).2 = 0%nat.
Proof.
  apply (count_zero_of_Forall _ (fun e => negb (isRefresh e))).
  - intros e. by destruct (isRefresh e).
  - eapply Forall_impl; [apply validateProposeExecute_arguments |].
    by intros e [_ [-> _]].
Qed.

(** A pass refreshes the clients once, and checks for the end of the loop
    at most once, as its last act, straight after the queue flush. *)
Lemma iteration_refresh_and_poll (s : St) :
  count isRefresh (iteration col config s).2 = 1%nat
  /\ (forall b, (iteration col config s).1.1 = Normal b ->
        exists t0,
          (iteration col config s).2
          = t0 ++ [EvExecuteTransactionQueue (Normal tt); EvLog LogTimeToLoop;
                   EvProcessEndPollingLoop (pollingDelay config) (Normal b)]
          /\ count isPoll t0 = 0%nat)
  /\ (forall e, (iteration col config s).1.1 = Throw e ->
        count isPoll (iteration col config s).2 = 0%nat
        \/ exists t0,
             (iteration col config s).2
             = t0 ++ [EvExecuteTransactionQueue (Normal tt); EvLog LogTimeToLoop;
                      EvProcessEndPollingLoop (pollingDelay config) (Throw e)]
             /\ count isPoll t0 = 0%nat).
Proof.
  destruct (iteration col config s) as [[r s'] t] eqn:Hrun. simpl.
  apply iteration_cases in Hrun.
  inversion Hrun as [ e w Hup
                    | w e s1 t1 Hup Hends
                    | w ends s1 t1 e s2 t2 Hup Hends Hloop
                    | w ends s1 t1 loc s2 t2 r3 s3 t3 Hup Hends Hloop Hrest ]; subst;
    try (apply latestExecutedBundleEndBlocks_cases in Hends as [r0 [-> _]]).
  - split; [reflexivity |]. split; [discriminate |]. intros ? _. by left.
  - split; [reflexivity |]. split; [discriminate |]. intros ? _. by left.
  - pose proof (retryLoop_events ends 0 (initialLocals config) s1) as Hevents.
    rewrite Hloop in Hevents. simpl in Hevents.
    split; [| split; [discriminate |]; intros ? _; left]; count_list.
    + by rewrite (isRefresh_round_events t2 Hevents).
    + by rewrite (isPoll_round_events t2 Hevents).
  - pose proof (retryLoop_events ends 0 (initialLocals config) s1) as Hevents.
    rewrite Hloop in Hevents. simpl in Hevents.
    pose proof (validateProposeExecute_no_refresh loc s2) as Hrefresh.
    destruct (validateProposeExecute_poll loc s2) as [Hreturn Hthrow].
    rewrite Hrest in Hrefresh, Hreturn, Hthrow. simpl in Hrefresh, Hreturn, Hthrow.
    assert (Hfront : count isPoll (EvUpdateDataworkerClients (Normal ())
                                   :: [EvGetLatestFullyExecutedRootBundle r0] ++ t2 : list Ev)
                     = 0%nat).
    { count_list. by rewrite (isPoll_round_events t2 Hevents). }
    split; [| split].
    + count_list. by rewrite (isRefresh_round_events t2 Hevents), Hrefresh.
    + intros b Hb. destruct (Hreturn b Hb) as [t0 [-> Ht0]].
      exists ((EvUpdateDataworkerClients (Normal ())
               :: [EvGetLatestFullyExecutedRootBundle r0] ++ t2) ++ t0).
      split; [by rewrite <- !app_assoc |]. rewrite count_app. lia.
    + intros e He. destruct (Hthrow e He) as [Hnone | [t0 [-> Ht0]]].
      * left. rewrite (app_assoc _ t2 t3), app_comm_cons, count_app. lia.
      * right.
        exists ((EvUpdateDataworkerClients (Normal ())
                 :: [EvGetLatestFullyExecutedRootBundle r0] ++ t2) ++ t0).
        split; [by rewrite <- !app_assoc |]. rewrite count_app. lia.
Qed.

Lemma count_poll_at_end (t0 : list Ev) (r : Completion bool) :
  count isPoll t0 = 0%nat ->
  count isPoll (t0 ++ [EvExecuteTransactionQueue (Normal tt); EvLog LogTimeToLoop;
                       EvProcessEndPollingLoop (pollingDelay config) r]) = 1%nat.
Proof. intros Ht0. rewrite count_app, Ht0. reflexivity. Qed.

(** Over a run of the polling loop, there is one check for every pass that
    was begun, except for a last pass that threw before its check. *)
Lemma pollingLoop_checks (fuel : nat) (s : St) :
  (count isPoll (pollingLoop col config fuel s).2
   <= count isRefresh (pollingLoop col config fuel s).2
   <= count isPoll (pollingLoop col config fuel s).2 + 1)%nat
  /\ ((forall e, (pollingLoop col config fuel s).1.1 <> Raised e) ->
      count isPoll (pollingLoop col config fuel s).2
      = count isRefresh (pollingLoop col config fuel s).2).
Proof.
  revert s. induction fuel as [|fuel IH]; intros s; simpl.
  - rewrite !count_nil. split; [lia | reflexivity].
  - destruct (iteration_refresh_and_poll s) as [Hrefresh [Hreturn Hthrow]].
    destruct (iteration col config s) as [[[[|]|e] s1] t1]; simpl in *.
    + destruct (Hreturn true eq_refl) as [t0 [-> Ht0]].
      rewrite (count_poll_at_end t0 _ Ht0). split; [lia | by intros _].
    + destruct (Hreturn false eq_refl) as [t0 [Heq Ht0]].
      specialize (IH s1).
      destruct (pollingLoop col config fuel s1) as [[status s2] t2]. simpl in *.
      rewrite !count_app, Hrefresh, Heq, (count_poll_at_end t0 _ Ht0).
      destruct IH as [IHle IHeq]. split; [lia |]. intros Hstatus.
      rewrite (IHeq Hstatus). reflexivity.
    + split; [| intros Hstatus; by destruct (Hstatus e)].
      destruct (Hthrow e eq_refl) as [-> | [t0 [-> Ht0]]]; [lia |].
      rewrite (count_poll_at_end t0 _ Ht0). lia.
Qed.

(** C7: a pass through the polling loop, once begun, returns or throws.
    The end-of-loop signal is asked for by [processEndPollingLoop] only; a
    pass that returns has asked once, as its last call and straight after
    the queue flush, and its result is the answer; a pass that throws has
    not asked before, it may only have thrown in that last call.  Over a run
    of the loop there is exactly one such call for every pass begun, save a
    last pass that threw. *)
Theorem end_of_loop_checked_once_at_end_of_each_pass (s : St) (fuel : nat) :
  ((exists b, (iteration col config s).1.1 = Normal b)
   \/ (exists e, (iteration col config s).1.1 = Throw e))
  /\ (forall b, (iteration col config s).1.1 = Normal b ->
        exists t0,
          (iteration col config s).2
          = t0 ++ [EvExecuteTransactionQueue (Normal tt); EvLog LogTimeToLoop;
                   EvProcessEndPollingLoop (pollingDelay config) (Normal b)]
          /\ count isPoll t0 = 0%nat)
  /\ (forall e, (iteration col config s).1.1 = Throw e ->
        count isPoll (iteration col config s).2 = 0%nat
        \/ exists t0,
             (iteration col config s).2
             = t0 ++ [EvExecuteTransactionQueue (Normal tt); EvLog LogTimeToLoop;
                      EvProcessEndPollingLoop (pollingDelay config) (Throw e)]
             /\ count isPoll t0 = 0%nat)
  /\ (count isPoll (pollingLoop col config fuel s).2
      <= count isRefresh (pollingLoop col config fuel s).2
      <= count isPoll (pollingLoop col config fuel s).2 + 1)%nat
  /\ ((forall e, (pollingLoop col config fuel s).1.1 <> Raised e) ->
      count isPoll (pollingLoop col config fuel s).2
      = count isRefresh (pollingLoop col config fuel s).2).
Proof.
  destruct (iteration_refresh_and_poll s) as [_ [Hreturn Hthrow]].
  destruct (pollingLoop_checks fuel s) as [Hbounds Hequal].
  split; [| split; [exact Hreturn | split; [exact Hthrow | split; [exact Hbounds | exact Hequal]]]].
  destruct (iteration col config s) as [[[b|e] s1] t1]; simpl; eauto.
Qed.

(** ** Errors *)



(** ** Nothing is kept from one pass to the next *)

Lemma firstSearchConfig_app (t1 t2 : list Ev) :
  firstSearchConfig (t1 ++ t2)
  = match firstSearchConfig t1 with
    | Some c => Some c
    | None => firstSearchConfig t2
    end.
Proof. induction t1 as [|e t1 IH]; [reflexivity |]. by destruct e. Qed.

Lemma firstSearchConfig_not_round_events (t : list Ev) :
  Forall (fun e : Ev => isRoundEvent e = false) t -> firstSearchConfig t = None.
Proof.
  intros Ht. induction Ht as [|e t He _ IH]; [reflexivity |].
  destruct e; simpl in He; try discriminate; exact IH.
Qed.

Lemma retryLoop_first_config ends i loc s :
  forall c, firstSearchConfig (retryLoop col config ends i loc s).2 = Some c ->
            c = customConfig loc.
Proof.
  intros c. destruct (Z_le_gt_dec i (dataworkerFastLookbackRetryCount config)) as [Hle|Hgt].
  - destruct (retryLoop_first ends i loc s Hle) as [r0 [rest ->]]. by intros [= <-].
  - rewrite retryLoop_unfold.
    destruct (Z_le_gt_dec i (dataworkerFastLookbackRetryCount config)); [lia |].
    discriminate.
Qed.

(** A round does not look at the clients and the map of the round before. *)
Lemma fetchRound_from_scratch ends i (loc loc' : Loc) (s : St) :
  customConfig loc = customConfig loc' ->
  fetchRound col config ends i loc s = fetchRound col config ends i loc' s.
Proof. intros Hcopy. unfold fetchRound. by rewrite Hcopy. Qed.

(** C8: in every round of the retry loop the invalid start block map is
    what [getLatestInvalidBundleStartBlocks] returns for the spoke pool
    clients constructed in that same round, and neither the map nor the
    clients of an earlier round enter the round.  In every pass through the
    polling loop, whatever state the passes before left, the map the later
    calls are given is that of the last round of this pass, the empty map if
    there was no round, and the first round is made with the configuration
    itself, not with a lookback count widened in an earlier pass. *)
Theorem invalid_start_blocks_and_lookback_start_afresh (s : St) :
  (forall ends i loc sr loc1 again s1 t1,
      fetchRound col config ends i loc sr = (Normal (loc1, again), s1, t1) ->
      exists c from to clients,
        In (EvConstructSpokePoolClients c from to (Normal clients) : Ev) t1
        /\ In (EvGetLatestInvalidBundleStartBlocks clients
                 (Normal (latestInvalidBundleStartBlocks loc1)) : Ev) t1
        /\ spokePoolClients loc1 = Some clients)
  /\ (forall ends i (loc loc' : Loc) sr,
        customConfig loc = customConfig loc' ->
        fetchRound col config ends i loc sr = fetchRound col config ends i loc' sr)
  /\ Forall (fun e : Ev =>
               forall m, invalidStartBlocksGiven e = Some m ->
                         m = lastInvalidStartBlocks ∅ (iteration col config s).2)
       (iteration col config s).2
  /\ (forall c, firstSearchConfig (iteration col config s).2 = Some c -> c = config).
Proof.
  split; [| split; [| split]].
  - intros ends i loc sr loc1 again s1 t1 Hround.
    apply fetchRound_cases in Hround.
    inversion Hround; subst; do 4 eexists; simpl; (split; [| split]);
      [ right; right; left; reflexivity | tauto | reflexivity
      | right; right; left; reflexivity | tauto | reflexivity ].
  - intros ends i loc loc' sr. apply fetchRound_from_scratch.
  - apply iteration_invalid_start_blocks.
  - destruct (iteration col config s) as [[r s'] t] eqn:Hrun. simpl.
    apply iteration_cases in Hrun.
    inversion Hrun as [ e w Hup
                      | w e s1 t1 Hup Hends
                      | w ends s1 t1 e s2 t2 Hup Hends Hloop
                      | w ends s1 t1 loc s2 t2 r3 s3 t3 Hup Hends Hloop Hrest ]; subst;
      try (apply latestExecutedBundleEndBlocks_cases in Hends as [r0 [-> _]]);
      try discriminate.
    + intros c. simpl.
      pose proof (retryLoop_first_config ends 0 (initialLocals config) s1 c) as Hfirst.
      by rewrite Hloop in Hfirst.
    + intros c. simpl. rewrite firstSearchConfig_app.
      pose proof (retryLoop_first_config ends 0 (initialLocals config) s1 c) as Hfirst.
      pose proof (validateProposeExecute_not_round_events loc s2) as Hnot.
      rewrite Hloop in Hfirst. rewrite Hrest in Hnot. simpl in Hfirst, Hnot.
      rewrite (firstSearchConfig_not_round_events t3 Hnot).
      destruct (firstSearchConfig t2); [exact Hfirst | discriminate].
Qed.

(** * Further facts about the dataworker *)

(** ** The end block mapping *)

Lemma endBlockEntries_Normal (chainIds : list Z) (index : nat)
  (endBlocks : list BigNumber) (entries : list (Z * Z)) :
  endBlockEntries col chainIds index endBlocks = Normal entries ->
  entries.*1 = chainIds
  /\ forall j chainId,
       chainIds !! j = Some chainId ->
       exists b n,
         endBlocks !! (index + j)%nat = Some b /\ toNumber col b = Normal n
         /\ entries !! j = Some (chainId, n).
Proof.
  revert index entries. induction chainIds as [|c rest IH]; intros index entries; simpl.
  - intros [= <-]. split; [reflexivity |]. intros j chainId. by rewrite lookup_nil.
  - destruct (endBlocks !! index) as [b|] eqn:Hb; [| discriminate].
    destruct (toNumber col b) as [n|] eqn:Hn; [| discriminate].
    destruct (endBlockEntries col rest (S index) endBlocks) as [tail|] eqn:Htail;
      [| discriminate].
    intros [= <-]. destruct (IH (S index) tail Htail) as [Hfst Hget].
    split; [by rewrite fmap_cons, Hfst |].
    intros [|j] chainId Hj; simpl in Hj.
    + injection Hj as <-. exists b, n. by rewrite Nat.add_0_r.
    + destruct (Hget j chainId Hj) as [b' [n' [Hb' [Hn' Hentry]]]].
      exists b', n'. by rewrite Nat.add_succ_r.
Qed.

Lemma fromEntries_snoc (entries : list (Z * Z)) (k v : Z) :
  fromEntries (entries ++ [(k, v)]) = <[k := v]> (fromEntries entries).
Proof. unfold fromEntries. by rewrite foldl_app. Qed.

(** [Object.fromEntries] keeps, for each key, the value of its last
    entry. *)
Lemma fromEntries_lookup (entries : list (Z * Z)) (k : Z) :
  (fromEntries entries !! k = None <-> k ∉ entries.*1)
  /\ forall j v,
       entries !! j = Some (k, v) ->
       (forall j' v', (j < j')%nat -> entries !! j' <> Some (k, v')) ->
       fromEntries entries !! k = Some v.
Proof.
  induction entries as [|[k' v'] entries [IHnone IHlast]] using rev_ind.
  - split; [split; [set_solver | done] |]. intros j v. by rewrite lookup_nil.
  - rewrite fromEntries_snoc, fmap_app. simpl. split.
    + rewrite lookup_insert. case_decide as Hk; simpl.
      * subst k'. split; [discriminate |]. intros Hnot. exfalso. apply Hnot. set_solver.
      * rewrite IHnone. set_solver.
    + intros j v Hj Hlast.
      destruct (decide (j < length entries)%nat) as [Hlt|Hge].
      * rewrite lookup_app_l in Hj by exact Hlt.
        rewrite lookup_insert. case_decide as Hk; simpl.
        -- subst k'. exfalso. apply (Hlast (length entries) v'); [exact Hlt |].
           by rewrite (list_lookup_middle entries [] (k, v') (length entries) eq_refl).
        -- apply (IHlast j v Hj). intros j' v'' Hj' Hentry.
           apply (Hlast j' v'' Hj'). apply lookup_app_l_Some. exact Hentry.
      * assert (Hlen : j = length entries).
        { apply lookup_lt_Some in Hj. rewrite length_app in Hj. simpl in Hj. lia. }
        subst j.
        rewrite (list_lookup_middle entries [] (k', v') (length entries) eq_refl) in Hj.
        injection Hj as -> ->. by rewrite lookup_insert_eq.
Qed.

Lemma endBlockEntries_short_list (chainIds : list Z) (endBlocks : list BigNumber)
  (index : nat) :
  (forall b, b ∈ endBlocks -> isNormal (toNumber col b) = true) ->
  (index <= length endBlocks < index + length chainIds)%nat ->
  endBlockEntries col chainIds index endBlocks = Throw TypeError.
Proof.
  intros Hnumbers. revert index.
  induction chainIds as [|c rest IH]; intros index Hlen; simpl in *; [lia |].
  destruct (endBlocks !! index) as [b|] eqn:Hb; [| reflexivity].
  pose proof (Hnumbers b (list_elem_of_lookup_2 _ _ _ Hb)) as Hok.
  destruct (toNumber col b) as [n|]; [| discriminate].
  apply lookup_lt_Some in Hb. rewrite (IH (S index)) by lia. reflexivity.
Qed.

(** X1: when the list of end blocks of the latest fully executed bundle is
    shorter than the dataworker's chain id list, and the end blocks that are
    there convert to numbers, building the end block mapping throws a
    [TypeError] ([undefined.toNumber()]). *)
Theorem bundleEndBlockMapping_short_list_TypeError
  (chainIds : list Z) (endBlocks : list BigNumber) :
  (forall b, b ∈ endBlocks -> isNormal (toNumber col b) = true) ->
  (length endBlocks < length chainIds)%nat ->
  bundleEndBlockMapping col chainIds endBlocks = Throw TypeError.
Proof.
  intros Hnumbers Hshort. unfold bundleEndBlockMapping.
  by rewrite (endBlockEntries_short_list chainIds endBlocks 0 Hnumbers) by lia.
Qed.

(** X2: when the end block mapping is built, its keys are exactly the chain
    ids of the dataworker's list, and a chain id is mapped to the number of
    the end block at the position of its last occurrence in that list (end
    blocks beyond the chain id list are ignored). *)
Theorem bundleEndBlockMapping_lookup
  (chainIds : list Z) (endBlocks : list BigNumber) (mapping : BlockMap) :
  bundleEndBlockMapping col chainIds endBlocks = Normal mapping ->
  (forall chainId, mapping !! chainId = None <-> chainId ∉ chainIds)
  /\ forall i chainId,
       chainIds !! i = Some chainId ->
       (forall j, (i < j)%nat -> chainIds !! j <> Some chainId) ->
       exists b n,
         endBlocks !! i = Some b /\ toNumber col b = Normal n
         /\ mapping !! chainId = Some n.
Proof.
  unfold bundleEndBlockMapping.
  destruct (endBlockEntries col chainIds 0 endBlocks) as [entries|] eqn:Hentries;
    [| discriminate].
  intros [= <-]. apply endBlockEntries_Normal in Hentries as [Hfst Hget]. split.
  - intros chainId. rewrite <- Hfst. apply fromEntries_lookup.
  - intros i chainId Hi Hlast.
    destruct (Hget i chainId Hi) as [b [n [Hb [Hn Hentry]]]].
    exists b, n. split; [exact Hb |]. split; [exact Hn |].
    apply (proj2 (fromEntries_lookup entries chainId) i n Hentry).
    intros j v' Hj Hother. apply (Hlast j Hj).
    rewrite <- Hfst, list_lookup_fmap, Hother. reflexivity.
Qed.

(** ** The lookback counts of the rounds *)





Lemma count_zero_of_not_round_events (p : Ev -> bool) (t : list Ev) :
  (forall e, p e = true -> isRoundEvent e = true) ->
  Forall (fun e : Ev => isRoundEvent e = false) t -> count p t = 0%nat.
Proof.
  intros Hp Ht. induction Ht as [|e t He _ IH]; [reflexivity |].
  rewrite count_cons, IH. destruct (p e) eqn:Hpe; [| reflexivity].
  apply Hp in Hpe. congruence.
Qed.





(** ** The spoke pool clients handed on *)

Lemma lastSpokePoolClients_app (c : option SpokePoolClientsByChain) (t1 t2 : list Ev) :
  lastSpokePoolClients c (t1 ++ t2)
  = lastSpokePoolClients (lastSpokePoolClients c t1) t2.
Proof. unfold lastSpokePoolClients. apply foldl_app. Qed.

Lemma lastSpokePoolClients_unchanged (c : option SpokePoolClientsByChain) (t : list Ev) :
  Forall (fun e : Ev => isRoundEvent e = false) t -> lastSpokePoolClients c t = c.
Proof.
  intros Ht. revert c. induction Ht as [|e t He _ IH]; intros c; [reflexivity |].
  unfold lastSpokePoolClients in *. simpl. rewrite IH.
  destruct e; simpl in He; try discriminate; reflexivity.
Qed.

Lemma spokePoolClientsGiven_round_event (e : Ev) :
  isRoundEvent e = true -> spokePoolClientsGiven e = None.
Proof. by destruct e. Qed.

Lemma RoundResult_snapshot ends i loc s loc1 again s1 t1
  (c : option SpokePoolClientsByChain) :
  RoundResult col config ends i loc s (Normal (loc1, again)) s1 t1 ->
  spokePoolClients loc1 = lastSpokePoolClients c t1
  /\ exists clients,
       spokePoolClients loc1 = Some clients
       /\ In (EvGetLatestInvalidBundleStartBlocks clients
                (Normal (latestInvalidBundleStartBlocks loc1)) : Ev) t1.
Proof.
  intros H. round_cases H; (split; [reflexivity |]); eexists; (split; [reflexivity |]);
    simpl; tauto.
Qed.

(** When the retry loop returns, the clients in the locals are the ones the
    last fetch constructed, and the map in the locals was computed from
    them; if the loop made no round, the locals are as they were. *)
Lemma retryLoop_snapshot ends i loc s :
  forall loc', (retryLoop col config ends i loc s).1.1 = Normal loc' ->
  spokePoolClients loc'
  = lastSpokePoolClients (spokePoolClients loc) (retryLoop col config ends i loc s).2
  /\ (((retryLoop col config ends i loc s).2 = [] /\ loc' = loc)
      \/ exists clients,
           spokePoolClients loc' = Some clients
           /\ In (EvGetLatestInvalidBundleStartBlocks clients
                    (Normal (latestInvalidBundleStartBlocks loc')) : Ev)
                (retryLoop col config ends i loc s).2).
Proof.
  apply (retryLoop_rounds_ind ends
           (fun _ loc _ out =>
              forall loc', out.1.1 = Normal loc' ->
              spokePoolClients loc' = lastSpokePoolClients (spokePoolClients loc) out.2
              /\ ((out.2 = [] /\ loc' = loc)
                  \/ exists clients,
                       spokePoolClients loc' = Some clients
                       /\ In (EvGetLatestInvalidBundleStartBlocks clients
                                (Normal (latestInvalidBundleStartBlocks loc')) : Ev) out.2)));
    clear; simpl.
  - intros i loc s _ loc' [= <-]. split; [reflexivity | by left].
  - discriminate.
  - intros i loc s loc1 s1 t1 _ Hround loc' [= <-].
    destruct (RoundResult_snapshot _ _ _ _ _ _ _ _ (spokePoolClients loc) Hround)
      as [Hlast Hmap].
    split; [exact Hlast | by right].
  - intros i loc s loc1 s1 t1 r s2 t2 _ Hround _ IH loc' Hr.
    destruct (RoundResult_snapshot _ _ _ _ _ _ _ _ (spokePoolClients loc) Hround)
      as [Hlast [clients [Hclients Hin]]].
    destruct (IH loc' Hr) as [Hlast' Hmap]. split.
    + by rewrite lastSpokePoolClients_app, <- Hlast.
    + right. destruct Hmap as [[-> ->] | [clients' [Hclients' Hin']]].
      * exists clients. split; [exact Hclients |]. apply in_or_app. by left.
      * exists clients'. split; [exact Hclients' |]. apply in_or_app. by right.
Qed.

(** X4: every call of a pass behind the retry loop that takes the spoke pool
    clients is given the clients constructed by the last fetch of that pass
    ([undefined] if the pass made no fetch), and where it also takes the
    invalid start block map, that map is the one computed from these very
    clients (the empty map together with [undefined] clients if the pass
    made no round). *)
Theorem later_calls_get_last_clients_and_their_map (s : St) :
  Forall (fun e : Ev =>
            forall c, spokePoolClientsGiven e = Some c ->
              c = lastSpokePoolClients None (iteration col config s).2
              /\ forall m, invalidStartBlocksGiven e = Some m ->
                   (c = None /\ m = ∅ /\ count isRoundStart (iteration col config s).2 = 0%nat)
                   \/ exists clients,
                        c = Some clients
                        /\ In (EvGetLatestInvalidBundleStartBlocks clients (Normal m) : Ev)
                             (iteration col config s).2)
    (iteration col config s).2.
Proof.
  destruct (iteration col config s) as [[r s'] t] eqn:Hrun. simpl.
  apply iteration_cases in Hrun.
  inversion Hrun as [ e w Hup
                    | w e s1 t1 Hup Hends
                    | w ends s1 t1 e s2 t2 Hup Hends Hloop
                    | w ends s1 t1 loc s2 t2 r3 s3 t3 Hup Hends Hloop Hrest ]; subst;
    try (apply latestExecutedBundleEndBlocks_cases in Hends as [r0 [-> _]]).
  - by repeat constructor.
  - by repeat constructor.
  - constructor; [done |]. constructor; [done |].
    pose proof (retryLoop_events ends 0 (initialLocals config) s1) as Hevents.
    rewrite Hloop in Hevents. eapply Forall_impl; [exact Hevents |]. intros ev Hev c Hc.
    by rewrite (spokePoolClientsGiven_round_event ev Hev) in Hc.
  - pose proof (retryLoop_events ends 0 (initialLocals config) s1) as Hevents.
    pose proof (retryLoop_snapshot ends 0 (initialLocals config) s1 loc) as Hsnap.
    pose proof (validateProposeExecute_arguments loc s2) as Hargs.
    pose proof (validateProposeExecute_not_round_events loc s2) as Hnot.
    rewrite Hloop in Hevents, Hsnap. rewrite Hrest in Hargs, Hnot.
    simpl in Hevents, Hsnap, Hargs, Hnot.
    destruct (Hsnap eq_refl) as [Hlast Hmap]. clear Hsnap.
    change (EvUpdateDataworkerClients (Normal ())
            :: [EvGetLatestFullyExecutedRootBundle r0] ++ t2 ++ t3)
      with ([EvUpdateDataworkerClients (Normal ());
             EvGetLatestFullyExecutedRootBundle r0] ++ t2 ++ t3).
    rewrite !lastSpokePoolClients_app, (lastSpokePoolClients_unchanged _ t3 Hnot).
    change (lastSpokePoolClients None [EvUpdateDataworkerClients (Normal ());
                                      EvGetLatestFullyExecutedRootBundle r0])
      with (@None SpokePoolClientsByChain).
    rewrite <- Hlast.
    apply Forall_app. split; [by repeat constructor |].
    apply Forall_app. split.
    + eapply Forall_impl; [exact Hevents |]. intros ev Hev c Hc.
      by rewrite (spokePoolClientsGiven_round_event ev Hev) in Hc.
    + eapply Forall_impl; [exact Hargs |]. intros ev [_ [_ [Hm Hc]]] c Hgiven.
      split; [by apply Hc |]. intros m Hmgiven.
      rewrite (Hc c Hgiven), (Hm m Hmgiven).
      destruct Hmap as [[-> ->] | [clients [Hclients Hin]]].
      * left. split; [reflexivity |]. split; [reflexivity |].
        rewrite !count_app, (count_zero_of_not_round_events isRoundStart t3)
          by (done || by intros []).
        reflexivity.
      * right. exists clients. split; [exact Hclients |].
        apply in_or_app. right. apply in_or_app. by left.
Qed.

(** X5: with a negative retry count the retry loop makes no round at all:
    the pass makes no search configuration call and no fetch, and the
    disputer, the proposer and the executors are called with [undefined]
    spoke pool clients and the empty invalid start block map. *)
Theorem negative_retry_count_skips_the_fetch (s : St) :
  dataworkerFastLookbackRetryCount config < 0 ->
  count isRoundStart (iteration col config s).2 = 0%nat
  /\ count isFetch (iteration col config s).2 = 0%nat
  /\ Forall (fun e : Ev =>
               (forall c, spokePoolClientsGiven e = Some c -> c = None)
               /\ (forall m, invalidStartBlocksGiven e = Some m -> m = ∅))
       (iteration col config s).2.
Proof.
  intros Hnegative.
  assert (Hloop0 : forall ends s1,
             retryLoop col config ends 0 (initialLocals config) s1
             = (Normal (initialLocals config), s1, [])).
  { intros ends s1. rewrite retryLoop_unfold.
    by destruct (Z_le_gt_dec 0 (dataworkerFastLookbackRetryCount config)); [lia |]. }
  destruct (iteration col config s) as [[r s'] t] eqn:Hrun. simpl.
  apply iteration_cases in Hrun.
  inversion Hrun as [ e w Hup
                    | w e s1 t1 Hup Hends
                    | w ends s1 t1 e s2 t2 Hup Hends Hloop
                    | w ends s1 t1 loc s2 t2 r3 s3 t3 Hup Hends Hloop Hrest ]; subst;
    try (apply latestExecutedBundleEndBlocks_cases in Hends as [r0 [-> _]]).
  - by repeat constructor.
  - by repeat constructor.
  - rewrite Hloop0 in Hloop. discriminate.
  - rewrite Hloop0 in Hloop. injection Hloop as <- <- <-.
    pose proof (validateProposeExecute_arguments (initialLocals config) s1) as Hargs.
    pose proof (validateProposeExecute_not_round_events (initialLocals config) s1) as Hnot.
    rewrite Hrest in Hargs, Hnot. simpl in Hargs, Hnot.
    split; [| split].
    + count_list. by rewrite (count_zero_of_not_round_events isRoundStart t3)
        by (done || by intros []).
    + count_list. by rewrite (count_zero_of_not_round_events isFetch t3)
        by (done || by intros []).
    + constructor; [done |]. constructor; [done |]. simpl.
      eapply Forall_impl; [exact Hargs |]. intros ev [_ [_ [Hm Hc]]]. split.
      * intros c Hgiven. by rewrite (Hc c Hgiven).
      * intros m Hgiven. by rewrite (Hm m Hgiven).
Qed.

(** ** A pass stops at the first call that throws *)

Lemma stopsAtFirstFailure_app (t1 t2 : list Ev) :
  Forall (fun e : Ev => failure e = None) t1 ->
  stopsAtFirstFailure t2 -> stopsAtFirstFailure (t1 ++ t2).
Proof.
  intros Ht1 Ht2. induction Ht1 as [|e t1 He _ IH]; [exact Ht2 |].
  simpl. split; [by right | exact IH].
Qed.

Lemma stopsAtFirstFailure_before (t1 t2 : list Ev) (e : Ev) :
  stopsAtFirstFailure (t1 ++ e :: t2) -> Forall (fun e : Ev => failure e = None) t1.
Proof.
  induction t1 as [|a t1 IH]; [constructor |]. simpl. intros [[Hnil | Ha] Hrest].
  - by destruct t1.
  - constructor; [exact Ha | by apply IH].
Qed.

Lemma RoundResult_stops ends i loc s r s1 t1 :
  RoundResult col config ends i loc s r s1 t1 ->
  stopsAtFirstFailure t1
  /\ (isNormal r = true -> Forall (fun e : Ev => failure e = None) t1).
Proof.
  intros H. round_cases H;
    (split; [ simpl; repeat split; first [ by right | by left ]
            | first [ discriminate | intros _; by repeat constructor ] ]).
Qed.

Lemma retryLoop_stops ends i loc s :
  stopsAtFirstFailure (retryLoop col config ends i loc s).2
  /\ (isNormal (retryLoop col config ends i loc s).1.1 = true ->
      Forall (fun e : Ev => failure e = None) (retryLoop col config ends i loc s).2).
Proof.
  apply (retryLoop_rounds_ind ends
           (fun _ _ _ out =>
              stopsAtFirstFailure out.2
              /\ (isNormal out.1.1 = true ->
                  Forall (fun e : Ev => failure e = None) out.2)));
    clear; simpl.
  - intros _ _ _ _. split; [exact I | by constructor].
  - intros i loc s e s1 t1 _ Hround. by apply RoundResult_stops in Hround.
  - intros i loc s loc1 s1 t1 _ Hround. by apply RoundResult_stops in Hround.
  - intros i loc s loc1 s1 t1 r s2 t2 _ Hround _ [IHstops IHok].
    apply RoundResult_stops in Hround as [_ Hok1]. specialize (Hok1 eq_refl). split.
    + by apply stopsAtFirstFailure_app.
    + intros Hr. apply Forall_app. split; [exact Hok1 | by apply IHok].
Qed.

Lemma validateProposeExecute_stops (loc : Loc) (s : St) :
  stopsAtFirstFailure (validateProposeExecute col config loc s).2
  /\ (isNormal (validateProposeExecute col config loc s).1.1 = true ->
      Forall (fun e : Ev => failure e = None) (validateProposeExecute col config loc s).2).
Proof.
  run_tail;
    (split; [ simpl; repeat split; first [ by right | by left ]
            | first [ discriminate | intros _; by repeat constructor ] ]).
Qed.

(** What it takes for the end blocks to be had. *)
Lemma latestExecutedBundleEndBlocks_Normal (s s1 : St) (ends : BlockMap) (t1 : list Ev) :
  latestExecutedBundleEndBlocks col s = (Normal ends, s1, t1) ->
  exists endBlocks,
    t1 = [EvGetLatestFullyExecutedRootBundle (Normal (Some endBlocks))]
    /\ bundleEndBlockMapping col
         (chainIdListForBundleEvaluationBlockNumbers col (world s1)) endBlocks
       = Normal ends.
Proof.
  unfold latestExecutedBundleEndBlocks, bind, call, lift, readWorld.
  destruct (getLatestFullyExecutedRootBundle col (world s)) as [[[b|]|e] w]; simpl;
    try discriminate.
  destruct (bundleEndBlockMapping col _ b) as [m|] eqn:Hm; simpl; [| discriminate].
  intros [= <- <- <-]. eauto.
Qed.

(** X6: within a pass through the polling loop no call is made after a call
    that threw, and a pass that returns has made successful calls only; in
    particular the transaction queue is flushed only when every call the
    pass made before succeeded. *)
Theorem pass_stops_at_first_failure (s : St) :
  stopsAtFirstFailure (iteration col config s).2
  /\ (isNormal (iteration col config s).1.1 = true ->
      Forall (fun e : Ev => failure e = None) (iteration col config s).2)
  /\ (forall t1 r0 t2,
        (iteration col config s).2 = t1 ++ EvExecuteTransactionQueue r0 :: t2 ->
        Forall (fun e : Ev => failure e = None) t1).
Proof.
  assert (Hmain : stopsAtFirstFailure (iteration col config s).2
                  /\ (isNormal (iteration col config s).1.1 = true ->
                      Forall (fun e : Ev => failure e = None) (iteration col config s).2)).
  { destruct (iteration col config s) as [[r s'] t] eqn:Hrun. simpl.
    apply iteration_cases in Hrun.
    inversion Hrun as [ e w Hup
                      | w e s1 t1 Hup Hends
                      | w ends s1 t1 e s2 t2 Hup Hends Hloop
                      | w ends s1 t1 loc s2 t2 r3 s3 t3 Hup Hends Hloop Hrest ]; subst.
    - split; [simpl; tauto | discriminate].
    - apply latestExecutedBundleEndBlocks_cases in Hends as [r0 [-> _]].
      split; [simpl; tauto | discriminate].
    - apply latestExecutedBundleEndBlocks_Normal in Hends as [endBlocks [-> _]].
      destruct (retryLoop_stops ends 0 (initialLocals config) s1) as [Hstops _].
      rewrite Hloop in Hstops. simpl in Hstops. split; [| discriminate].
      apply (stopsAtFirstFailure_app
               [EvUpdateDataworkerClients (Normal ());
                EvGetLatestFullyExecutedRootBundle (Normal (Some endBlocks))] t2);
        [by repeat constructor | exact Hstops].
    - apply latestExecutedBundleEndBlocks_Normal in Hends as [endBlocks [-> _]].
      destruct (retryLoop_stops ends 0 (initialLocals config) s1) as [_ Hok2].
      destruct (validateProposeExecute_stops loc s2) as [Hstops Hok3].
      rewrite Hloop in Hok2. rewrite Hrest in Hstops, Hok3.
      simpl in Hok2, Hstops, Hok3. specialize (Hok2 eq_refl).
      change (EvUpdateDataworkerClients (Normal ())
              :: [EvGetLatestFullyExecutedRootBundle (Normal (Some endBlocks))] ++ t2 ++ t3)
        with ([EvUpdateDataworkerClients (Normal ());
               EvGetLatestFullyExecutedRootBundle (Normal (Some endBlocks))]
              ++ t2 ++ t3).
      split.
      + apply stopsAtFirstFailure_app; [by repeat constructor |].
        by apply stopsAtFirstFailure_app.
      + intros Hr. apply Forall_app. split; [by repeat constructor |].
        apply Forall_app. split; [exact Hok2 | by apply Hok3]. }
  destruct Hmain as [Hstops Hok]. split; [exact Hstops |]. split; [exact Hok |].
  intros t1 r0 t2 Hsplit. rewrite Hsplit in Hstops.
  by apply stopsAtFirstFailure_before in Hstops.
Qed.

(** ** The calls of the three roles *)

Lemma count_zero_of_round_events (p : Ev -> bool) (t : list Ev) :
  (forall e, p e = true -> isRoundEvent e = false) ->
  Forall (fun e : Ev => isRoundEvent e = true) t -> count p t = 0%nat.
Proof.
  intros Hp Ht. induction Ht as [|e t He _ IH]; [reflexivity |].
  rewrite count_cons, IH. destruct (p e) eqn:Hpe; [| reflexivity].
  apply Hp in Hpe. congruence.
Qed.

Lemma validateProposeExecute_roles (loc : Loc) (s : St) :
  (count isDisputerCall (validateProposeExecute col config loc s).2
   <= if disputerEnabled config then 1 else 0)%nat
  /\ (count isProposerCall (validateProposeExecute col config loc s).2
      <= if proposerEnabled config then 1 else 0)%nat
  /\ (count isExecutorCall (validateProposeExecute col config loc s).2
      <= if executorEnabled config then 5 else 0)%nat
  /\ (isNormal (validateProposeExecute col config loc s).1.1 = true ->
      count isDisputerCall (validateProposeExecute col config loc s).2
      = (if disputerEnabled config then 1 else 0)%nat
      /\ count isProposerCall (validateProposeExecute col config loc s).2
         = (if proposerEnabled config then 1 else 0)%nat
      /\ count isExecutorCall (validateProposeExecute col config loc s).2
         = (if executorEnabled config then 5 else 0)%nat)
  /\ (executorEnabled config = false ->
      allocators (validateProposeExecute col config loc s).1.2 = allocators s).
Proof.
  run_tail; unfold count; simpl;
    repeat split; first [ lia | reflexivity | discriminate | intros; lia ].
Qed.

(** X7: in a pass through the polling loop the disputer and the proposer
    are called at most once each and the executor branch makes at most its
    five calls; a role that is switched off is not called at all (with the
    executor off, no balance allocator is created either), and a pass that
    returns has made every call of every role that is switched on. *)
Theorem roles_called_as_switched (s : St) :
  (count isDisputerCall (iteration col config s).2
   <= if disputerEnabled config then 1 else 0)%nat
  /\ (count isProposerCall (iteration col config s).2
      <= if proposerEnabled config then 1 else 0)%nat
  /\ (count isExecutorCall (iteration col config s).2
      <= if executorEnabled config then 5 else 0)%nat
  /\ (isNormal (iteration col config s).1.1 = true ->
      count isDisputerCall (iteration col config s).2
      = (if disputerEnabled config then 1 else 0)%nat
      /\ count isProposerCall (iteration col config s).2
         = (if proposerEnabled config then 1 else 0)%nat
      /\ count isExecutorCall (iteration col config s).2
         = (if executorEnabled config then 5 else 0)%nat)
  /\ (executorEnabled config = false ->
      allocators (iteration col config s).1.2 = allocators s).
Proof.
  destruct (iteration col config s) as [[r s'] t] eqn:Hrun. simpl.
  apply iteration_cases in Hrun.
  inversion Hrun as [ e w Hup
                    | w e s1 t1 Hup Hends
                    | w ends s1 t1 e s2 t2 Hup Hends Hloop
                    | w ends s1 t1 loc s2 t2 r3 s3 t3 Hup Hends Hloop Hrest ]; subst;
    try (apply latestExecutedBundleEndBlocks_cases in Hends as [r0 [-> Hheap1]];
         simpl in Hheap1).
  - count_list. simpl. repeat split; first [ lia | discriminate | reflexivity ].
  - count_list. simpl. rewrite Hheap1.
    repeat split; first [ lia | discriminate | reflexivity ].
  - pose proof (retryLoop_events ends 0 (initialLocals config) s1) as Hevents.
    pose proof (retryLoop_allocators ends 0 (initialLocals config) s1) as Hheap2.
    rewrite Hloop in Hevents, Hheap2. simpl in Hevents, Hheap2.
    count_list. simpl.
    rewrite !(count_zero_of_round_events _ t2) by (done || by intros []).
    rewrite Hheap2, Hheap1. repeat split; first [ lia | discriminate | reflexivity ].
  - pose proof (retryLoop_events ends 0 (initialLocals config) s1) as Hevents.
    pose proof (retryLoop_allocators ends 0 (initialLocals config) s1) as Hheap2.
    pose proof (validateProposeExecute_roles loc s2) as Hroles.
    rewrite Hloop in Hevents, Hheap2. rewrite Hrest in Hroles.
    simpl in Hevents, Hheap2, Hroles.
    count_list. simpl.
    rewrite !(count_zero_of_round_events _ t2) by (done || by intros []).
    rewrite Hheap2, Hheap1 in Hroles. exact Hroles.
Qed.

(** ** A pass without usable end blocks *)

(** X8: when the hub pool client knows no fully executed root bundle
    ([undefined]), or gives fewer end blocks than the dataworker has chain
    ids, the pass throws a [TypeError] straight after that query: no round
    of the retry loop is made and none of the roles is called. *)
Theorem pass_without_end_blocks_throws_TypeError
  (s : St) (w w' : World) (bundle : option (list BigNumber)) :
  updateDataworkerClients col (world s) = (Normal tt, w) ->
  getLatestFullyExecutedRootBundle col w = (Normal bundle, w') ->
  (bundle = None
   \/ exists endBlocks,
        bundle = Some endBlocks
        /\ (length endBlocks
            < length (chainIdListForBundleEvaluationBlockNumbers col w'))%nat
        /\ forall b, b ∈ endBlocks -> isNormal (toNumber col b) = true) ->
  iteration col config s
  = (Throw TypeError, {| world := w'; allocators := allocators s |},
     [EvUpdateDataworkerClients (Normal tt); EvGetLatestFullyExecutedRootBundle (Normal bundle)]).
Proof.
  intros Hup Hbundle Hcase.
  unfold iteration, bind at 1, call at 1. rewrite Hup. simpl.
  unfold bind at 1, latestExecutedBundleEndBlocks, bind at 1, call at 1. simpl.
  rewrite Hbundle. simpl.
  destruct Hcase as [-> | [endBlocks [-> [Hshort Hnumbers]]]]; simpl; [reflexivity |].
  unfold bind, lift, readWorld. simpl. unfold bundleEndBlockMapping.
  by rewrite (endBlockEntries_short_list _ endBlocks 0 Hnumbers) by lia.
Qed.

(** ** The redis client *)

Lemma validateProposeExecute_no_disconnect (loc : Loc) (s : St) :
  count isDisconnect (validateProposeExecute col config loc s).2 = 0%nat.
Proof. run_tail; reflexivity. Qed.

Lemma iteration_no_disconnect (s : St) :
  count isDisconnect (iteration col config s).2 = 0%nat.
Proof.
  destruct (iteration col config s) as [[r s'] t] eqn:Hrun. simpl.
  apply iteration_cases in Hrun.
  inversion Hrun as [ e w Hup
                    | w e s1 t1 Hup Hends
                    | w ends s1 t1 e s2 t2 Hup Hends Hloop
                    | w ends s1 t1 loc s2 t2 r3 s3 t3 Hup Hends Hloop Hrest ]; subst;
    try (apply latestExecutedBundleEndBlocks_cases in Hends as [r0 [-> _]]);
    try reflexivity.
  - pose proof (retryLoop_events ends 0 (initialLocals config) s1) as Hevents.
    rewrite Hloop in Hevents. simpl in Hevents. count_list. simpl.
    by rewrite (count_zero_of_round_events _ t2) by (done || by intros []).
  - pose proof (retryLoop_events ends 0 (initialLocals config) s1) as Hevents.
    pose proof (validateProposeExecute_no_disconnect loc s2) as Hnone.
    rewrite Hloop in Hevents. rewrite Hrest in Hnone. simpl in Hevents, Hnone.
    count_list. simpl.
    by rewrite (count_zero_of_round_events _ t2), Hnone by (done || by intros []).
Qed.

Lemma pollingLoop_no_disconnect (fuel : nat) (s : St) :
  count isDisconnect (pollingLoop col config fuel s).2 = 0%nat.
Proof.
  revert s. induction fuel as [|fuel IH]; intros s; simpl; [reflexivity |].
  pose proof (iteration_no_disconnect s) as Hpass.
  destruct (iteration col config s) as [[[[|]|e] s1] t1]; simpl in *; try exact Hpass.
  specialize (IH s1). destruct (pollingLoop col config fuel s1) as [[st s2] t2].
  simpl in *. rewrite count_app. lia.
Qed.

End DataworkerFacts.

(** * The example world *)





(** ** The example world, pass by pass *)

(** A retry loop that never finds its window sufficient stops after
    [dataworkerFastLookbackRetryCount + 1] fetches. *)
Example never_sufficient_two_fetches :
  Dataworker.count Dataworker.isFetch
    (Dataworker.retryLoop (Example.calls 1 1 None) (Example.config 1 true) Example.endBlocks 0
       (Dataworker.initialLocals (Example.config 1 true)) Example.start).2 = 2%nat.
Proof. vm_compute. reflexivity. Qed.

(** With two retries the third round (lookback 64, from block 936) is
    sufficient. *)
Example third_round_sufficient :
  (Dataworker.retryLoop (Example.calls 2 1 None) (Example.config 2 true) Example.endBlocks 0
     (Dataworker.initialLocals (Example.config 2 true)) Example.start).1.1
  = Normal {| Dataworker.spokePoolClients := Some 936;
              Dataworker.latestInvalidBundleStartBlocks := {[ 1 := 936 ]};
              Dataworker.customConfig :=
                Dataworker.setDataworkerFastLookbackCount (Example.config 2 true) 64 |}.
Proof. vm_compute. reflexivity. Qed.

(** The steps of a pass with all three roles switched on. *)
Example steps_of_a_full_pass :
  Dataworker.steps
    (Dataworker.iteration (Example.calls 0 1 None) (Example.config 0 true) Example.start).2
  = [Dataworker.StepRefresh; Dataworker.StepResolve; Dataworker.StepResolve;
     Dataworker.StepResolve; Dataworker.StepResolve;
     Dataworker.StepValidate; Dataworker.StepPropose;
     Dataworker.StepPoolRebalance; Dataworker.StepSlowRelay; Dataworker.StepRelayerRefund;
     Dataworker.StepFlush; Dataworker.StepPoll].
Proof. vm_compute. reflexivity. Qed.

(** Two passes leave two allocator objects, each holding the reservations
    of one pass, in the order pool rebalance, slow relay, relayer refund. *)
Example two_passes_two_allocators :
  Dataworker.allocators
    (Dataworker.pollingLoop (Example.calls 0 2 None) (Example.config 0 true) 5
       Example.start).1.2
  = [[Dataworker.PoolRebalance; Dataworker.SlowRelay; Dataworker.RelayerRefund];
     [Dataworker.PoolRebalance; Dataworker.SlowRelay; Dataworker.RelayerRefund]].
Proof. vm_compute. reflexivity. Qed.

(** The first pass widens the lookback count to 64; the second pass starts
    again from the configured 16. *)
Example second_pass_starts_from_configured_lookback :
  exists s1 t1,
    Dataworker.completedPasses (Example.calls 2 2 None) (Example.config 2 true) 1 Example.start
    = Some (s1, t1)
    /\ Dataworker.firstSearchConfig
         (Dataworker.iteration (Example.calls 2 2 None) (Example.config 2 true) s1).2
       = Some (Example.config 2 true)
    /\ Dataworker.count Dataworker.isWillRetryLog t1 = 2%nat.
Proof. do 2 eexists. split; [vm_compute; reflexivity |]. split; vm_compute; reflexivity. Qed.

(** * Facts about runDataworker as a whole *)

Section RunDataworkerFacts.

Import Dataworker.

Context {World SpokePoolClientsByChain Providers BalanceAllocator BigNumber OtherSettings : Type}.

Variable col :
  @Collaborators World SpokePoolClientsByChain Providers BalanceAllocator BigNumber OtherSettings.

(** Creating the dataworker neither refreshes the clients nor touches the
    redis client, and it only fails with the error of its last call. *)
Lemma createDataworker_events (s0 : @Machine World BalanceAllocator) :
  count isDisconnect (createDataworker col s0).2 = 0%nat
  /\ count isRefresh (createDataworker col s0).2 = 0%nat
  /\ forall e, (createDataworker col s0).1.1 = Throw e ->
       exists t ev, (createDataworker col s0).2 = t ++ [ev] /\ failure ev = Some e.
Proof.
  unfold createDataworker, bind, call, ret.
  destruct (newDataworkerConfig col (world s0)) as [[config|e] w1]; simpl.
  - destruct (constructDataworkerClients col config w1) as [[[]|e] w2]; simpl.
    + destruct (newDataworker col config w2) as [[[]|e] w3]; simpl.
      * repeat split; discriminate.
      * repeat split. intros e' [= <-].
        exists [EvNewDataworkerConfig (Normal config);
                EvConstructDataworkerClients config (Normal ())],
               (EvNewDataworker config (Throw e)). by split.
    + repeat split. intros e' [= <-].
      exists [EvNewDataworkerConfig (Normal config)],
             (EvConstructDataworkerClients config (Throw e)). by split.
  - repeat split. intros e' [= <-]. exists [], (EvNewDataworkerConfig (Throw e)). by split.
Qed.

(** X9: [runDataworker] disconnects the redis client at most once; it does
    so only when it ends by throwing, and the disconnect is then its last
    act.  A run that returns, or is still polling, has not disconnected. *)
Theorem redis_disconnected_only_when_throwing (fuel : nat) (s0 : @Machine World BalanceAllocator) :
  (count isDisconnect (runDataworker col fuel s0).2 <= 1)%nat
  /\ ((forall e, (runDataworker col fuel s0).1.1 <> Raised e) ->
      count isDisconnect (runDataworker col fuel s0).2 = 0%nat)
  /\ (count isDisconnect (runDataworker col fuel s0).2 = 1%nat ->
      last (runDataworker col fuel s0).2 = Some EvRedisDisconnect).
Proof.
  unfold runDataworker.
  destruct (createDataworker_events s0) as [Hcreate _].
  destruct (createDataworker col s0) as [[[config|e] s1] t0]; simpl in *.
  - unfold tryPolling, disconnectOnError.
    pose proof (pollingLoop_no_disconnect col config fuel s1) as Hloop.
    destruct (pollingLoop col config fuel s1) as [[[|e|] s2] t2]; simpl in *.
    + rewrite count_app, count_cons, Hcreate, Hloop. unfold count. simpl. repeat split; lia.
    + destruct (hasRedisClient col (world s2)); simpl.
      * rewrite count_app, count_cons, count_app, Hcreate, Hloop. unfold count. simpl.
        split; [lia |]. split; [intros Hnot; by destruct (Hnot e) |]. intros _.
        assert (Hsplit : t0 ++ EvLog LogStarted
                               :: t2 ++ [EvLog LogDisconnectingRedis; EvRedisDisconnect]
                         = (t0 ++ EvLog LogStarted :: t2 ++ [EvLog LogDisconnectingRedis])
                           ++ [EvRedisDisconnect]).
        { rewrite <- app_assoc. simpl. by rewrite <- app_assoc. }
        rewrite Hsplit. apply last_snoc.
      * rewrite count_app, count_cons, count_app, Hcreate, Hloop. unfold count. simpl.
        repeat split; lia.
    + rewrite count_app, count_cons, Hcreate, Hloop. unfold count. simpl. repeat split; lia.
  - rewrite Hcreate. repeat split; lia.
Qed.

(** X10: when creating the dataworker throws, [runDataworker] throws the
    same error at once: the error is that of the creating call made last,
    no pass through the polling loop is begun, and the redis client is not
    disconnected (the [try] has not been entered). *)
Theorem error_creating_the_dataworker_is_thrown_on
  (fuel : nat) (s0 s1 : @Machine World BalanceAllocator) (e : JsError)
  (t0 : list (@Event SpokePoolClientsByChain Providers BalanceAllocator BigNumber OtherSettings)) :
  createDataworker col s0 = (Throw e, s1, t0) ->
  runDataworker col fuel s0 = (Raised e, s1, t0)
  /\ count isRefresh t0 = 0%nat
  /\ count isDisconnect t0 = 0%nat
  /\ exists t ev, t0 = t ++ [ev] /\ failure ev = Some e.
Proof.
  intros Hcreate. destruct (createDataworker_events s0) as [Hdisconnect [Hrefresh Hlast]].
  unfold runDataworker. rewrite Hcreate in *. simpl in *.
  split; [reflexivity |]. split; [exact Hrefresh |]. split; [exact Hdisconnect |].
  by apply Hlast.
Qed.

End RunDataworkerFacts.

(** * Facts about arrays *)

Lemma mapThrowing_Normal {A B : Type} (f : A -> Completion B) (l : list A) (ys : list B) :
  mapThrowing f l = Normal ys <-> Forall2 (fun x y => f x = Normal y) l ys.
Proof.
  revert ys. induction l as [|x l IH]; intros ys; simpl.
  - split; [intros [= <-]; constructor | intros H; by inversion H].
  - destruct (f x) as [y|e] eqn:Hx.
    + destruct (mapThrowing f l) as [ys'|e'] eqn:Hl.
      * split.
        -- intros [= <-]. constructor; [exact Hx | by apply IH].
        -- intros H. inversion H as [|? y' ? ys'' Hy Hrest]; subst.
           apply IH in Hrest. congruence.
      * split; [discriminate |]. intros H. inversion H as [|? y' ? ys'' Hy Hrest]; subst.
        apply IH in Hrest. discriminate.
    + split; [discriminate |]. intros H. inversion H; congruence.
Qed.

Lemma mapThrowing_Throw {A B : Type} (f : A -> Completion B) (l : list A) (e : JsError) :
  mapThrowing f l = Throw e <->
  exists before x after ys,
    l = before ++ x :: after /\ mapThrowing f before = Normal ys /\ f x = Throw e.
Proof.
  induction l as [|x l IH].
  - split; [discriminate |]. intros (before & x & after & ys & Hl & _). by destruct before.
  - simpl. destruct (f x) as [y|e'] eqn:Hx.
    + assert (Hstep : match mapThrowing f l with
                      | Normal ys => Normal (y :: ys)
                      | Throw e0 => Throw e0
                      end = Throw e <-> mapThrowing f l = Throw e).
      { destruct (mapThrowing f l); split; intros H; first [discriminate | exact H]. }
      rewrite Hstep, IH. split.
      * intros (before & x' & after & ys & -> & Hb & Ht).
        exists (x :: before), x', after, (y :: ys). simpl. by rewrite Hx, Hb.
      * intros ([|x0 before] & x' & after & ys & Hsplit & Hb & Ht); simplify_eq/=.
        -- congruence.
        -- rewrite Hx in Hb.
           destruct (mapThrowing f before) as [ys'|] eqn:Hb'; [| discriminate].
           by exists before, x', after, ys'.
    + split.
      * intros [= ->]. by exists [], x, l, [].
      * intros ([|x0 before] & x' & after & ys & Hsplit & Hb & Ht); simplify_eq/=.
        -- congruence.
        -- rewrite Hx in Hb. discriminate.
Qed.

(** * Further facts about ScrollWethBridge *)

Section MoreBridgeFacts.

Import ScrollWethBridge.

Context {Abi Signer Provider Contract BigNumber BaseBridgeAdapter : Type}.
Variable CONTRACT_ADDRESSES : gmap Z (gmap string (string * Abi)).
Variable newContract : string -> Abi -> Signer + Provider -> Completion Contract.
Variable super :
  Z -> Z -> Signer -> Signer + Provider -> list string -> Completion BaseBridgeAdapter.

Lemma contractEntry_lookup (chainId : Z) (name : string) :
  contractEntry CONTRACT_ADDRESSES chainId name
  = match CONTRACT_ADDRESSES !! chainId ≫= (fun byName => byName !! name) with
    | Some entry => Normal entry
    | None => Throw TypeError
    end.
Proof.
  unfold contractEntry. destruct (CONTRACT_ADDRESSES !! chainId) as [byName|]; simpl;
    [| reflexivity].
  by destruct (byName !! name).
Qed.

(** X11: when the contract table lacks the gateway router of the hub chain
    or of the L2 chain, or the atomic depositor of the hub chain, the
    constructor throws a [TypeError], whatever the base class constructor
    and the contract constructor would do. *)
Theorem constructor_missing_table_entry_TypeError
  (l2chainId hubChainId : Z) (l1Signer : Signer) (l2SignerOrProvider : Signer + Provider)
  (l1Token : string) :
  CONTRACT_ADDRESSES !! hubChainId ≫= (fun byName => byName !! "scrollGatewayRouter") = None
  \/ CONTRACT_ADDRESSES !! l2chainId ≫= (fun byName => byName !! "scrollGatewayRouter") = None
  \/ CONTRACT_ADDRESSES !! hubChainId ≫= (fun byName => byName !! "atomicDepositor") = None ->
  constructor CONTRACT_ADDRESSES newContract super
    l2chainId hubChainId l1Signer l2SignerOrProvider l1Token
  = Throw TypeError.
Proof.
  unfold constructor. rewrite !contractEntry_lookup.
  destruct (CONTRACT_ADDRESSES !! hubChainId ≫= (fun byName => byName !! "scrollGatewayRouter"));
    simpl; [| reflexivity].
  destruct (CONTRACT_ADDRESSES !! l2chainId ≫= (fun byName => byName !! "scrollGatewayRouter"));
    simpl; [| reflexivity].
  destruct (CONTRACT_ADDRESSES !! hubChainId ≫= (fun byName => byName !! "atomicDepositor"));
    simpl; [| reflexivity].
  intros [? | [? | ?]]; discriminate.
Qed.

(** X12: a bridge the constructor builds is wired as follows: the base
    class was constructed with the atomic depositor's address as its only
    gateway; the L1 bridge and the atomic depositor are contracts at the
    hub chain's table entries held by the L1 signer; the L2 bridge is the
    contract at the L2 chain's gateway router entry held by the L2 signer
    or provider; and the L2 gas limit is 20000. *)
Theorem constructor_wiring
  (l2chainId hubChainId : Z) (l1Signer : Signer) (l2SignerOrProvider : Signer + Provider)
  (l1Token : string) (this : Bridge) :
  constructor CONTRACT_ADDRESSES newContract super
    l2chainId hubChainId l1Signer l2SignerOrProvider l1Token = Normal this ->
  exists l1 l2 depositor,
    CONTRACT_ADDRESSES !! hubChainId ≫= (fun byName => byName !! "scrollGatewayRouter") = Some l1
    /\ CONTRACT_ADDRESSES !! l2chainId ≫= (fun byName => byName !! "scrollGatewayRouter") = Some l2
    /\ CONTRACT_ADDRESSES !! hubChainId ≫= (fun byName => byName !! "atomicDepositor")
       = Some depositor
    /\ super l2chainId hubChainId l1Signer l2SignerOrProvider [depositor.1] = Normal (base this)
    /\ newContract l1.1 l1.2 (inl l1Signer) = Normal (l1Bridge this)
    /\ newContract l2.1 l2.2 l2SignerOrProvider = Normal (l2Bridge this)
    /\ newContract depositor.1 depositor.2 (inl l1Signer) = Normal (atomicDepositor this)
    /\ l2Gas this = 20000.
Proof.
  unfold constructor. rewrite !contractEntry_lookup.
  destruct (CONTRACT_ADDRESSES !! hubChainId ≫= (fun byName => byName !! "scrollGatewayRouter"))
    as [l1|]; simpl; [| discriminate].
  destruct (CONTRACT_ADDRESSES !! l2chainId ≫= (fun byName => byName !! "scrollGatewayRouter"))
    as [l2|]; simpl; [| discriminate].
  destruct (CONTRACT_ADDRESSES !! hubChainId ≫= (fun byName => byName !! "atomicDepositor"))
    as [depositor|]; simpl; [| discriminate].
  destruct (super _ _ _ _ _) as [b|] eqn:Hsuper; simpl; [| discriminate].
  destruct (newContract l1.1 _ _) as [c1|] eqn:H1; simpl; [| discriminate].
  destruct (newContract l2.1 _ _) as [c2|] eqn:H2; simpl; [| discriminate].
  destruct (newContract depositor.1 _ _) as [c3|] eqn:H3; simpl; [| discriminate].
  intros [= <-]. exists l1, l2, depositor. simpl. by repeat split.
Qed.

End MoreBridgeFacts.

Section BridgeEventFacts.

Import ScrollWethBridgeEvents.

Context {Contract BaseBridgeAdapter EventFilter EventSearchConfig RawEvent BridgeEvent : Type}.

Abbreviation QBridge :=
  (ScrollWethBridge.Bridge (Contract := Contract) (BaseBridgeAdapter := BaseBridgeAdapter)).

Variable getL1Bridge : QBridge -> Completion Contract.
Variable getL2Bridge : QBridge -> Completion Contract.
Variable resolveL2TokenAddress : QBridge -> string -> Completion string.
Variable DepositETH : Contract -> string -> string -> Completion EventFilter.
Variable FinalizeDepositETH : Contract -> string -> string -> Completion EventFilter.
Variable paginatedEventQuery :
  Contract -> EventFilter -> EventSearchConfig -> Completion (list RawEvent).
Variable processEvent : RawEvent -> string -> string -> string -> Completion BridgeEvent.

Lemma andThen_cases {A B : Type} (c : Completion A) (k : A -> Completion B) (b : B) :
  andThen c k = Normal b -> exists a, c = Normal a /\ k a = Normal b.
Proof. destruct c as [a|e]; simpl; [eauto | discriminate]. Qed.

Lemma eventsUnderToken_Normal (this : QBridge) (l1Token : string) (events : list RawEvent)
  (result : gmap string (list BridgeEvent)) :
  eventsUnderToken resolveL2TokenAddress processEvent this l1Token events = Normal result ->
  exists l2Token processed,
    resolveL2TokenAddress this l1Token = Normal l2Token
    /\ Forall2 (fun event p => processEvent event "amount" "to" "from" = Normal p)
         events processed
    /\ result = {[ l2Token := processed ]}.
Proof.
  unfold eventsUnderToken. intros H.
  apply andThen_cases in H as [l2Token [Hkey H]].
  apply andThen_cases in H as [processed [Hmap H]].
  injection H as <-. apply mapThrowing_Normal in Hmap. eauto.
Qed.

(** X13: when the L1 initiation query and the L2 finalization query for the
    same L1 token both succeed, each result holds exactly one token, the
    same in both: the L2 token [resolveL2TokenAddress] gives for the L1
    token.  Its list has one processed event for every event the paginated
    query returned, in the order returned. *)
Theorem bridge_event_queries_share_the_l2_token
  (this : QBridge) (l1Token fromAddress toAddress : string)
  (eventConfig1 eventConfig2 : EventSearchConfig)
  (initiated finalized : gmap string (list BridgeEvent)) :
  queryL1BridgeInitiationEvents getL1Bridge resolveL2TokenAddress DepositETH
    paginatedEventQuery processEvent this l1Token fromAddress toAddress eventConfig1
  = Normal initiated ->
  queryL2BridgeFinalizationEvents getL2Bridge resolveL2TokenAddress FinalizeDepositETH
    paginatedEventQuery processEvent this l1Token fromAddress toAddress eventConfig2
  = Normal finalized ->
  exists l2Token l1Bridge l2Bridge filter1 filter2 events1 events2 processed1 processed2,
    resolveL2TokenAddress this l1Token = Normal l2Token
    /\ initiated = {[ l2Token := processed1 ]}
    /\ finalized = {[ l2Token := processed2 ]}
    /\ getL1Bridge this = Normal l1Bridge
    /\ DepositETH l1Bridge fromAddress toAddress = Normal filter1
    /\ paginatedEventQuery l1Bridge filter1 eventConfig1 = Normal events1
    /\ Forall2 (fun event p => processEvent event "amount" "to" "from" = Normal p)
         events1 processed1
    /\ getL2Bridge this = Normal l2Bridge
    /\ FinalizeDepositETH l2Bridge fromAddress toAddress = Normal filter2
    /\ paginatedEventQuery l2Bridge filter2 eventConfig2 = Normal events2
    /\ Forall2 (fun event p => processEvent event "amount" "to" "from" = Normal p)
         events2 processed2.
Proof.
  unfold queryL1BridgeInitiationEvents, queryL2BridgeFinalizationEvents. intros H1 H2.
  apply andThen_cases in H1 as [l1Bridge [Hb1 H1]].
  apply andThen_cases in H1 as [filter1 [Hf1 H1]].
  apply andThen_cases in H1 as [events1 [Hq1 H1]].
  apply eventsUnderToken_Normal in H1 as [l2Token [processed1 [Hkey [Hp1 ->]]]].
  apply andThen_cases in H2 as [l2Bridge [Hb2 H2]].
  apply andThen_cases in H2 as [filter2 [Hf2 H2]].
  apply andThen_cases in H2 as [events2 [Hq2 H2]].
  apply eventsUnderToken_Normal in H2 as [l2Token' [processed2 [Hkey' [Hp2 ->]]]].
  assert (l2Token' = l2Token) as -> by congruence.
  exists l2Token, l1Bridge, l2Bridge, filter1, filter2, events1, events2, processed1, processed2.
  by repeat split.
Qed.

(** X14: when the paginated query of the L1 initiation events succeeds and
    the L2 token resolves, but [processEvent] throws on one of the events
    returned, the query throws the error of the first such event. *)
Theorem bridge_event_query_throws_first_processing_error
  (this : QBridge) (l1Token fromAddress toAddress : string) (eventConfig : EventSearchConfig)
  (l1Bridge : Contract) (filter : EventFilter) (l2Token : string)
  (before after : list RawEvent) (event : RawEvent) (e : JsError) :
  getL1Bridge this = Normal l1Bridge ->
  DepositETH l1Bridge fromAddress toAddress = Normal filter ->
  paginatedEventQuery l1Bridge filter eventConfig = Normal (before ++ event :: after) ->
  resolveL2TokenAddress this l1Token = Normal l2Token ->
  Forall (fun x => isNormal (processEvent x "amount" "to" "from") = true) before ->
  processEvent event "amount" "to" "from" = Throw e ->
  queryL1BridgeInitiationEvents getL1Bridge resolveL2TokenAddress DepositETH
    paginatedEventQuery processEvent this l1Token fromAddress toAddress eventConfig
  = Throw e.
Proof.
  intros Hb Hf Hq Hkey Hbefore Hthrow.
  unfold queryL1BridgeInitiationEvents, eventsUnderToken. rewrite Hb. simpl.
  rewrite Hf. simpl. rewrite Hq. simpl. rewrite Hkey. simpl.
  assert (Hmap : mapThrowing (fun x => processEvent x "amount" "to" "from")
                   (before ++ event :: after) = Throw e).
  { apply mapThrowing_Throw.
    assert (Hys : exists ys, mapThrowing (fun x => processEvent x "amount" "to" "from") before
                             = Normal ys).
    { clear Hq. induction Hbefore as [|x before Hx _ [ys IH]]; simpl; [eauto |].
      destruct (processEvent x "amount" "to" "from"); [| discriminate].
      rewrite IH. eauto. }
    destruct Hys as [ys Hys]. eauto 8. }
  by rewrite Hmap.
Qed.

End BridgeEventFacts.

(** * Further facts about RelayerConfig *)

Section MoreRelayerConfigFacts.

Import RelayerConfig.

Context {CommonConfig : Type}.
Variable super : ProcessEnv -> Completion CommonConfig.
Variable JSON_parse : string -> Completion Json.

Lemma parseOrEmpty_Throw (v : option string) (e : JsError) :
  parseOrEmpty JSON_parse v = Throw e <->
  exists text, v = Some text /\ text <> "" /\ JSON_parse text = Throw e.
Proof.
  unfold parseOrEmpty, truthy. destruct v as [text|]; simpl.
  - destruct (String.eqb_spec text "") as [-> | Hne]; simpl.
    + split; [discriminate |]. by intros [? [[= <-] [? _]]].
    + split; [eauto |]. by intros [? [[= <-] [_ ?]]].
  - split; [discriminate |]. by intros [? [? _]].
Qed.

(** X15: the constructor throws exactly the first error met in the order
    [super(env)], parsing [MAX_RELAYER_DEPOSIT_LOOK_BACK], parsing
    [REPAYMENT_CHAIN_FOR_TOKEN]; a variable is parsed only when it is set
    and not empty, so an unset or empty variable never makes the
    constructor throw. *)
Theorem constructor_throws_first_error (env : ProcessEnv) (e : JsError) :
  constructor super JSON_parse env = Throw e <->
  super env = Throw e
  \/ (isNormal (super env) = true
      /\ exists text, env !! "MAX_RELAYER_DEPOSIT_LOOK_BACK" = Some text /\ text <> ""
                      /\ JSON_parse text = Throw e)
  \/ (isNormal (super env) = true
      /\ isNormal (parseOrEmpty JSON_parse (env !! "MAX_RELAYER_DEPOSIT_LOOK_BACK")) = true
      /\ exists text, env !! "REPAYMENT_CHAIN_FOR_TOKEN" = Some text /\ text <> ""
                      /\ JSON_parse text = Throw e).
Proof.
  unfold constructor. rewrite <- !parseOrEmpty_Throw.
  destruct (super env) as [c|e0]; simpl.
  - destruct (parseOrEmpty JSON_parse (env !! "MAX_RELAYER_DEPOSIT_LOOK_BACK")) as [m|e1];
      simpl.
    + destruct (parseOrEmpty JSON_parse (env !! "REPAYMENT_CHAIN_FOR_TOKEN")) as [r|e2];
        simpl.
      * split; [discriminate |]. intros [? | [[_ ?] | [_ [_ ?]]]]; discriminate.
      * split; [intros [= ->]; right; right; by repeat split |].
        intros [? | [[_ ?] | [_ [_ ?]]]]; congruence.
    + split; [intros [= ->]; right; left; by split |].
      intros [? | [[_ ?] | [_ [? _]]]]; congruence.
  - split; [intros [= ->]; by left |].
    intros [? | [[? _] | [? _]]]; congruence.
Qed.

(** X16: a look back or repayment chain variable that is set and not empty
    is stored as [JSON.parse] returns it, whatever kind of value that is. *)
Theorem constructor_stores_parsed_values (env : ProcessEnv) (c : Config) :
  constructor super JSON_parse env = Normal c ->
  (forall text, env !! "MAX_RELAYER_DEPOSIT_LOOK_BACK" = Some text -> text <> "" ->
                JSON_parse text = Normal (maxRelayerLookBack c))
  /\ (forall text, env !! "REPAYMENT_CHAIN_FOR_TOKEN" = Some text -> text <> "" ->
                   JSON_parse text = Normal (repaymentChainIdForToken c))
  /\ super env = Normal (common c).
Proof.
  unfold constructor. intros H.
  destruct (super env) as [b|]; [| discriminate].
  destruct (parseOrEmpty JSON_parse (env !! "MAX_RELAYER_DEPOSIT_LOOK_BACK"))
    as [lookBack|] eqn:Hmax; [| discriminate].
  destruct (parseOrEmpty JSON_parse (env !! "REPAYMENT_CHAIN_FOR_TOKEN"))
    as [repayment|] eqn:Hrep; [| discriminate].
  injection H as <-. simpl.
  split; [| split; [| reflexivity]]; intros text Htext Hne.
  - rewrite Htext in Hmax. unfold parseOrEmpty, truthy in Hmax. simpl in Hmax.
    by destruct (String.eqb_spec text "").
  - rewrite Htext in Hrep. unfold parseOrEmpty, truthy in Hrep. simpl in Hrep.
    by destruct (String.eqb_spec text "").
Qed.

End MoreRelayerConfigFacts.

(** * Facts about the root bundle validation script *)

Lemma findIndexFrom_none {A : Type} (p : A -> bool) (l : list A) (index : Z) :
  Forall (fun x => p x = false) l -> findIndexFrom p index l = -1.
Proof.
  intros Hl. revert index. induction Hl as [|x l Hx _ IH]; intros index; simpl;
    [reflexivity |].
  rewrite Hx. apply IH.
Qed.

Lemma findIndexFrom_found {A : Type} (p : A -> bool) (l : list A) (index : Z) (i : nat) (x : A) :
  l !! i = Some x -> p x = true ->
  (forall j y, (j < i)%nat -> l !! j = Some y -> p y = false) ->
  findIndexFrom p index l = index + Z.of_nat i.
Proof.
  revert index i. induction l as [|a l IH]; intros index i Hi Hx Hbefore;
    [by rewrite lookup_nil in Hi |].
  simpl. destruct i as [|i]; simpl in Hi.
  - injection Hi as ->. rewrite Hx. lia.
  - rewrite (Hbefore 0%nat a ltac:(lia) eq_refl).
    rewrite (IH (index + 1) i Hi Hx); [lia |].
    intros j y Hj Hy. apply (Hbefore (S j) y); [lia | exact Hy].
Qed.

(** [findIndex] finds the first element that satisfies the test, or answers
    [-1]. *)
Lemma findIndexFrom_cases {A : Type} (p : A -> bool) (l : list A) (index : Z) :
  (findIndexFrom p index l = -1 /\ Forall (fun x => p x = false) l)
  \/ exists i x,
       findIndexFrom p index l = index + Z.of_nat i
       /\ l !! i = Some x /\ p x = true
       /\ forall j y, (j < i)%nat -> l !! j = Some y -> p y = false.
Proof.
  revert index. induction l as [|a l IH]; intros index; simpl.
  - left. by split.
  - destruct (p a) eqn:Ha.
    + right. exists 0%nat, a. repeat split; [lia | exact Ha | lia].
    + destruct (IH (index + 1)) as [[Hnone Hall] | [i [x [Hi [Hx [Hpx Hbefore]]]]]].
      * left. split; [exact Hnone | by constructor].
      * right. exists (S i), x. repeat split; [lia | exact Hx | exact Hpx |].
        intros [|j] y Hj Hy; simpl in Hy; [by injection Hy as <- |].
        apply (Hbefore j y); [lia | exact Hy].
Qed.

Section ValidatorFacts.

Import Dataworker RootBundleValidator.

Context {World SpokePoolClientsByChain Providers BalanceAllocator BigNumber OtherSettings : Type}.
Context {Time Dvm DisputeEvent BlockRanges Reason : Type}.

Abbreviation VCol :=
  (@RootBundleValidator.Collaborators World SpokePoolClientsByChain Providers BalanceAllocator
     BigNumber OtherSettings Time Dvm DisputeEvent BlockRanges Reason).
Abbreviation VEv :=
  (@RootBundleValidator.Event SpokePoolClientsByChain Providers BalanceAllocator BigNumber
     OtherSettings Time Dvm DisputeEvent BlockRanges Reason).
Abbreviation VSt := (@Dataworker.Machine World BalanceAllocator).
Abbreviation Proposal := (@ProposedRootBundle BigNumber).

Variable col : VCol.

(** X17: the configuration the script computes the search window with has
    the lookback count 8, whatever was configured, and is otherwise the
    configuration as created; its start bundle is the position of the first
    validated bundle at or after the proposal's block, plus 2, and 1 when
    there is no such bundle: it is never below 1 and never above the number
    of validated bundles plus 1. *)
Theorem overrideConfig_window
  (config : @DataworkerConfig BigNumber OtherSettings) (validated : list Proposal)
  (rootBundle : PendingRootBundle) :
  copied (overrideConfig config validated rootBundle)
  = setDataworkerFastLookbackCount config 8
  /\ 1 <= dataworkerFastStartBundle (overrideConfig config validated rootBundle)
       <= Z.of_nat (length validated) + 1
  /\ (dataworkerFastStartBundle (overrideConfig config validated rootBundle) = 1 <->
      Forall (fun x => blockNumber x < proposalBlockNumber rootBundle) validated)
  /\ (forall i x,
        validated !! i = Some x ->
        proposalBlockNumber rootBundle <= blockNumber x ->
        (forall j y, (j < i)%nat -> validated !! j = Some y ->
                     blockNumber y < proposalBlockNumber rootBundle) ->
        dataworkerFastStartBundle (overrideConfig config validated rootBundle)
        = Z.of_nat i + 2).
Proof.
  unfold overrideConfig, closestFollowingValidatedBundleIndex, findIndex. simpl.
  split; [reflexivity |].
  set (p := fun x : Proposal => blockNumber x >=? proposalBlockNumber rootBundle).
  assert (Hp : forall x, p x = false <-> blockNumber x < proposalBlockNumber rootBundle).
  { intros x. unfold p. rewrite Z.geb_leb, Z.leb_gt. reflexivity. }
  assert (Hp' : forall x, p x = true <-> proposalBlockNumber rootBundle <= blockNumber x).
  { intros x. unfold p. rewrite Z.geb_leb, Z.leb_le. reflexivity. }
  destruct (findIndexFrom_cases p validated 0)
    as [[Hnone Hall] | [i [x [Hi [Hx [Hpx Hbefore]]]]]].
  - rewrite Hnone. split; [lia |]. split.
    + split; [| reflexivity]. intros _.
      eapply Forall_impl; [exact Hall |]. intros x. apply Hp.
    + intros i x Hx Hge _. exfalso.
      rewrite Forall_forall in Hall.
      pose proof (Hall x (list_elem_of_lookup_2 _ _ _ Hx)) as Hfalse.
      apply Hp in Hfalse. lia.
  - rewrite Hi. pose proof (lookup_lt_Some _ _ _ Hx) as Hlen. split; [lia |]. split.
    + split; [lia |]. intros Hall. exfalso.
      rewrite Forall_forall in Hall.
      pose proof (Hall x (list_elem_of_lookup_2 _ _ _ Hx)) as Hlt.
      apply Hp' in Hpx. lia.
    + intros i' x' Hx' Hge Hbefore'.
      rewrite <- Hi.
      rewrite (findIndexFrom_found p validated 0 i' x' Hx' (proj2 (Hp' x') Hge)); [lia |].
      intros j y Hj Hy. apply Hp. by apply (Hbefore' j y).
Qed.

Lemma mostRecentBefore_Some (sorted : list Proposal) (priceRequestBlock : Z) (p : Proposal) :
  mostRecentBefore sorted priceRequestBlock = Some p ->
  In p sorted /\ blockNumber p <= priceRequestBlock.
Proof.
  unfold mostRecentBefore, find. intros H. apply find_some in H as [Hin Hle].
  split; [exact Hin | by apply Z.leb_le].
Qed.

(** X18: over a list of proposals in descending order of block number, the
    fallback search answers a proposal of the list made at or before the
    price request block, and no proposal of the list made at or before that
    block is more recent; it answers nothing exactly when every proposal of
    the list was made after the price request block. *)
Theorem mostRecentBefore_descending
  (sorted : list Proposal) (priceRequestBlock : Z) :
  StronglySorted (fun a b : Proposal => blockNumber b <= blockNumber a) sorted ->
  (forall p, mostRecentBefore sorted priceRequestBlock = Some p ->
     In p sorted /\ blockNumber p <= priceRequestBlock
     /\ forall q, In q sorted -> blockNumber q <= priceRequestBlock ->
                  blockNumber q <= blockNumber p)
  /\ (mostRecentBefore sorted priceRequestBlock = None <->
      Forall (fun q => priceRequestBlock < blockNumber q) sorted).
Proof.
  intros Hsorted. split.
  - intros p Hfound. destruct (mostRecentBefore_Some _ _ _ Hfound) as [Hin Hle].
    split; [exact Hin |]. split; [exact Hle |].
    unfold mostRecentBefore, find in Hfound.
    induction Hsorted as [|a sorted Hrest IH Hhead]; [done |].
    simpl in Hfound. destruct (blockNumber a <=? priceRequestBlock) eqn:Ha.
    + injection Hfound as <-. intros q [<- | Hq] _; [lia |].
      rewrite Forall_forall in Hhead. apply Hhead. by apply list_elem_of_In.
    + apply Z.leb_gt in Ha. intros q [<- | Hq] Hqle; [lia |].
      apply IH; try assumption.
      apply find_some in Hfound as [Hin' _]. exact Hin'.
  - unfold mostRecentBefore, find. clear Hsorted.
    induction sorted as [|a sorted IH]; simpl.
    + split; [constructor | reflexivity].
    + destruct (blockNumber a <=? priceRequestBlock) eqn:Ha.
      * apply Z.leb_le in Ha. split; [discriminate |].
        intros H. inversion H; subst. lia.
      * apply Z.leb_gt in Ha. rewrite IH. split.
        -- intros H. by constructor.
        -- intros H. by inversion H.
Qed.

(** Runs the script on every combination of call results. *)
Ltac run_script_call :=
  match goal with
  | |- context [newDataworkerConfig ?c ?w] =>
      destruct (newDataworkerConfig c w) as [[?|?] ?]
  | |- context [constructDataworkerClients ?c ?a ?w] =>
      destruct (constructDataworkerClients c a w) as [[[]|?] ?]
  | |- context [newDataworker ?c ?a ?w] =>
      destruct (newDataworker c a w) as [[[]|?] ?]
  | |- context [getBlockForTimestamp col ?a ?b ?w] =>
      destruct (getBlockForTimestamp col a b w) as [[?|?] ?]
  | |- context [getDvmContract col ?w] =>
      destruct (getDvmContract col w) as [[?|?] ?]
  | |- context [updateDataworkerClientsOnly col ?w] =>
      destruct (updateDataworkerClientsOnly col w) as [[[]|?] ?]
  | |- context [hasLatestConfigStoreVersion col ?w] =>
      destruct (hasLatestConfigStoreVersion col w)
  | |- context [getDisputeForTimestamp col ?a ?b ?c ?w] =>
      destruct (getDisputeForTimestamp col a b c w) as [[[?|]|?] ?]
  | |- context [getDisputedProposal col ?a ?w] =>
      destruct (getDisputedProposal col a w) as [[[?|]|?] ?]
  | |- context [getProposedRootBundles col ?w] =>
      destruct (getProposedRootBundles col w) as [[?|?] ?]
  | |- context [mostRecentBefore ?l ?b] =>
      destruct (mostRecentBefore l b) eqn:?
  | |- context [toPendingRootBundle col ?p] =>
      destruct (toPendingRootBundle col p) eqn:?
  | |- context [getValidatedRootBundles col ?w] =>
      destruct (getValidatedRootBundles col w) as [[?|?] ?]
  | |- context [getSearchConfigsForOverridden col ?a ?w] =>
      destruct (getSearchConfigsForOverridden col a w) as [[?|?] ?]
  | |- context [constructSpokePoolClientsForFastDataworker ?c ?a ?b ?d ?w] =>
      destruct (constructSpokePoolClientsForFastDataworker c a b d w) as [[?|?] ?]
  | |- context [getWidestPossibleExpectedBlockRange col ?a ?b ?w] =>
      destruct (getWidestPossibleExpectedBlockRange col a b w) as [[?|?] ?]
  | |- context [validateRootBundle col ?a ?b ?c ?d ?w] =>
      destruct (validateRootBundle col a b c d w) as [[[? ?]|?] ?]
  end.

Ltac run_script :=
  unfold validate, findPrecedingProposal, fromDataworker, createDataworker,
    RootBundleValidator.bind, RootBundleValidator.call, RootBundleValidator.log,
    RootBundleValidator.ret, RootBundleValidator.throw, RootBundleValidator.lift,
    RootBundleValidator.readWorld, Dataworker.bind, Dataworker.call, Dataworker.ret;
  simpl;
  repeat (run_script_call; simpl).

(** X19: the script makes no call at all exactly when [REQUEST_TIME] is
    unset or empty; it then throws its "Must set environment variable"
    error and leaves the state as it was.  With [REQUEST_TIME] set, the
    first thing the script does is to create the dataworker. *)
Theorem validate_requires_REQUEST_TIME
  (env : gmap string string) (s s' : VSt) (r : Completion unit) (t : list VEv) :
  validate col env s = (r, s', t) ->
  (t = [] <-> env !! "REQUEST_TIME" = None \/ env !! "REQUEST_TIME" = Some "")
  /\ (t = [] ->
      r = Throw (Thrown "Must set environment variable 'REQUEST_TIME=<NUMBER>' to disputed price request time")
      /\ s' = s)
  /\ (t <> [] ->
      exists created rest, t = EvCreateDataworker (EvNewDataworkerConfig created) :: rest).
Proof.
  destruct (RelayerConfig.truthy (env !! "REQUEST_TIME")) eqn:Henv.
  - assert (Hset : ~ (env !! "REQUEST_TIME" = None \/ env !! "REQUEST_TIME" = Some "")).
    { intros [H | H]; rewrite H in Henv; discriminate. }
    unfold validate. rewrite Henv. cbn [negb]. revert r s' t.
    run_script; intros ? ? ? [= <- <- <-];
      (split; [split; [discriminate | intros H; destruct (Hset H)] |]);
      (split; [discriminate |]); intros _; do 2 eexists; reflexivity.
  - assert (Hunset : env !! "REQUEST_TIME" = None \/ env !! "REQUEST_TIME" = Some "").
    { destruct (env !! "REQUEST_TIME") as [text |]; [| by left].
      right. simpl in Henv. apply negb_false_iff, String.eqb_eq in Henv. by subst. }
    unfold validate. rewrite Henv. cbn [negb]. intros [= <- <- <-].
    split; [by split |]. split; [by split | intros H; by destruct H].
Qed.


(** Goes through the events of a list written out in full. *)
Ltac in_cases H :=
  simpl in H;
  repeat (destruct H as [H | H]; [try discriminate |]);
  try contradiction.

(** X21: the proposal the script goes on to validate is the disputed
    proposal, when the request time belongs to a dispute whose proposal is
    known, and then the list of proposed bundles is not consulted;
    otherwise it is the first proposal, in the order given by
    [sortEventsDescending], made at or before the price request block, and
    when there is none the script throws "No proposed root bundle found
    before request time". *)
Theorem findPrecedingProposal_provenance
  (dvm : Dvm) (priceRequestTime : Time) (priceRequestBlock : Z)
  (s s' : VSt) (r : Completion Proposal) (t : list VEv) :
  findPrecedingProposal col dvm priceRequestTime priceRequestBlock s = (r, s', t) ->
  (RootBundleValidator.count isProposedBundlesQuery t <= 1)%nat
  /\ (forall dispute p,
        In (EvGetDisputedProposal dispute (Normal (Some p)) : VEv) t ->
        r = Normal p /\ RootBundleValidator.count isProposedBundlesQuery t = 0%nat)
  /\ (forall proposed,
        In (EvGetProposedRootBundles (Normal proposed) : VEv) t ->
        match mostRecentBefore (sortEventsDescending col proposed) priceRequestBlock with
        | Some p => r = Normal p /\ blockNumber p <= priceRequestBlock
        | None => r = Throw (Thrown "No proposed root bundle found before request time")
        end)
  /\ (forall p, r = Normal p ->
        (exists dispute, In (EvGetDisputedProposal dispute (Normal (Some p)) : VEv) t)
        \/ exists proposed, In (EvGetProposedRootBundles (Normal proposed) : VEv) t).
Proof.
  revert r s' t.
  run_script; intros ? ? ? [= <- <- <-]; unfold RootBundleValidator.count; simpl;
    (split; [lia |]); (split; [| split]).
  all: try (intros dispute p' Hin; in_cases Hin; injection Hin as <- <-;
            split; reflexivity).
  all: try (intros proposed Hin; in_cases Hin; injection Hin as <-;
            match goal with
            | Heq : mostRecentBefore _ _ = _ |- _ => rewrite Heq
            end;
            first [ reflexivity
                  | split; [reflexivity | eapply mostRecentBefore_Some; eassumption] ]).
  all: try (intros p' Hr; first [ discriminate | injection Hr as <- ];
            first [ solve [left; eexists; simpl; eauto 10]
                  | solve [right; eexists; simpl; eauto 10] ]).
Qed.

(** Finds an event in a list written out in full. *)
Ltac in_list := simpl; repeat first [ left; reflexivity | right ].

(** X22: what a validation is run against.  Whenever the script calls
    [validateRootBundle], the bundle is the pending form of a proposal
    whose transaction hash was logged; the spoke pool clients are those
    constructed with the created configuration over the window searched
    for its copy with lookback count 8 and start bundle two past the first
    validated bundle at or after the proposal; the start blocks are that
    window's; and the block ranges are the widest ones computed for these
    clients at the price request block. *)
Theorem validateRootBundle_arguments
  (env : gmap string string) (s s' : VSt) (r : Completion unit) (t : list VEv)
  (ranges : BlockRanges) (rootBundle : PendingRootBundle)
  (spokePoolClients : SpokePoolClientsByChain) (startBlocks : BlockMap)
  (result : Completion (bool * Reason)) :
  validate col env s = (r, s', t) ->
  In (EvValidateRootBundle ranges rootBundle spokePoolClients startBlocks result : VEv) t ->
  exists config validated searchConfigs priceRequestTime currentTime priceRequestBlock proposal,
    In (EvCreateDataworker (EvNewDataworkerConfig (Normal config)) : VEv) t
    /\ In (EvGetBlockForTimestamp priceRequestTime currentTime (Normal priceRequestBlock) : VEv) t
    /\ toPendingRootBundle col proposal = Normal rootBundle
    /\ In (RootBundleValidator.EvLog
             (LogFoundPrecedingRootBundle (transactionHash proposal)) : VEv) t
    /\ In (EvGetValidatedRootBundles (Normal validated) : VEv) t
    /\ In (RootBundleValidator.EvGetSearchConfigs
             (overrideConfig config validated rootBundle) (Normal searchConfigs) : VEv) t
    /\ In (RootBundleValidator.EvConstructSpokePoolClients config
             (fromBlocks searchConfigs) (toBlocks searchConfigs)
             (Normal spokePoolClients) : VEv) t
    /\ In (EvGetWidestPossibleExpectedBlockRange spokePoolClients priceRequestBlock
             (Normal ranges) : VEv) t
    /\ startBlocks = fromBlocks searchConfigs.
Proof.
  destruct (RelayerConfig.truthy (env !! "REQUEST_TIME")) eqn:Henv.
  - unfold validate. rewrite Henv. cbn [negb]. revert r s' t.
    run_script; intros ? ? ? [= <- <- <-] Hin; in_cases Hin;
      injection Hin as <- <- <- <- <-;
      do 7 eexists; repeat split; first [ eassumption | in_list ].
  - unfold validate. rewrite Henv. cbn [negb]. intros [= <- <- <-] [].
Qed.

End ValidatorFacts.

(** * The further facts on concrete inputs *)

(** Two chains, one end block. *)
Lemma bundleEndBlockMapping_short_list_example :
  Dataworker.bundleEndBlockMapping (Example.calls 0 0 None) [1; 10] [960] = Throw TypeError.
Proof.
  apply (bundleEndBlockMapping_short_list_TypeError (Example.calls 0 0 None) [1; 10] [960]).
  - intros b _. reflexivity.
  - simpl. lia.
Defined.

(** Chain 1 is listed twice: its end block is the one of its last position. *)
Lemma bundleEndBlockMapping_lookup_example :
  Dataworker.bundleEndBlockMapping (Example.calls 0 0 None) [1; 10; 1] [960; 40; 970]
  = Normal {[ 1 := 970; 10 := 40 ]}
  /\ ({[ 1 := 970; 10 := 40 ]} : BlockMap) !! 7 = None
  /\ exists b n,
       [960; 40; 970] !! 2%nat = Some b
       /\ Dataworker.toNumber (Example.calls 0 0 None) b = Normal n
       /\ ({[ 1 := 970; 10 := 40 ]} : BlockMap) !! 1 = Some n.
Proof.
  assert (H : Dataworker.bundleEndBlockMapping (Example.calls 0 0 None)
                [1; 10; 1] [960; 40; 970]
              = Normal {[ 1 := 970; 10 := 40 ]}) by (vm_compute; reflexivity).
  destruct (bundleEndBlockMapping_lookup (Example.calls 0 0 None)
              [1; 10; 1] [960; 40; 970] {[ 1 := 970; 10 := 40 ]} H) as [Hnone Hlast].
  split; [exact H |]. split.
  - apply Hnone. intros Hin. rewrite !elem_of_cons, elem_of_nil in Hin. lia.
  - apply (Hlast 2%nat 1); [reflexivity |].
    intros j Hj Hlookup. apply lookup_lt_Some in Hlookup. simpl in Hlookup. lia.
Defined.

(** A retry count of -1: the pass constructs no spoke pool clients. *)
Lemma negative_retry_count_skips_the_fetch_example :
  Dataworker.count Dataworker.isFetch
    (Dataworker.iteration (Example.calls (-1) 1 None) (Example.config (-1) true)
       Example.start).2 = 0%nat.
Proof.
  destruct (negative_retry_count_skips_the_fetch
              (Example.calls (-1) 1 None) (Example.config (-1) true) Example.start)
    as (_ & Hfetch & _); [simpl; lia | exact Hfetch].
Defined.

(** No executed bundle yet, and a bundle with one end block for two chains. *)
Lemma pass_without_end_blocks_throws_TypeError_example :
  (Dataworker.iteration (BrokenExample.calls None [1] false) (Example.config 0 true)
     Example.start).1.1 = Throw TypeError
  /\ (Dataworker.iteration (BrokenExample.calls (Some [960]) [1; 10] false)
        (Example.config 0 true) Example.start).1.1 = Throw TypeError.
Proof.
  split.
  - rewrite (pass_without_end_blocks_throws_TypeError
               (BrokenExample.calls None [1] false) (Example.config 0 true)
               Example.start 1%nat 1%nat None eq_refl eq_refl (or_introl eq_refl)).
    reflexivity.
  - rewrite (pass_without_end_blocks_throws_TypeError
               (BrokenExample.calls (Some [960]) [1; 10] false) (Example.config 0 true)
               Example.start 1%nat 1%nat (Some [960]) eq_refl eq_refl).
    + reflexivity.
    + right. exists [960]. split; [reflexivity |].
      split; [simpl; lia | intros b _; reflexivity].
Defined.

(** The dataworker clients cannot be constructed. *)
Lemma error_creating_the_dataworker_is_thrown_on_example :
  (Dataworker.runDataworker (BrokenExample.calls (Some [960]) [1] true) 3
     Example.start).1.1
  = Dataworker.Raised (Thrown "no provider").
Proof.
  edestruct (error_creating_the_dataworker_is_thrown_on
               (BrokenExample.calls (Some [960]) [1] true) 3 Example.start)
    as [Hrun _]; [vm_compute; reflexivity |].
  rewrite Hrun. reflexivity.
Defined.

(** Chain 10 has no entry in the contract table. *)
Lemma constructor_missing_table_entry_example :
  ScrollWethBridge.constructor Example.contractAddresses Example.newContract Example.baseAdapter
    10 1 tt (inl tt) "0xC02a" = Throw TypeError.
Proof.
  apply (constructor_missing_table_entry_TypeError
           Example.contractAddresses Example.newContract Example.baseAdapter
           10 1 tt (inl tt) "0xC02a").
  right. left. vm_compute. reflexivity.
Defined.

(** The bridge between chain 1 and Scroll. *)
Lemma constructor_wiring_example :
  exists depositor,
    Example.contractAddresses !! 1 ≫= (fun byName => byName !! "atomicDepositor")
    = Some depositor
    /\ Example.newContract depositor.1 depositor.2 (inl tt)
       = Normal (ScrollWethBridge.atomicDepositor Example.scrollBridge)
    /\ ScrollWethBridge.l2Gas Example.scrollBridge = 20000.
Proof.
  destruct (constructor_wiring
              Example.contractAddresses Example.newContract Example.baseAdapter
              534352 1 tt (inl tt) "0xC02a" Example.scrollBridge
              ltac:(vm_compute; reflexivity))
    as (l1 & l2 & depositor & _ & _ & Hdepositor & _ & _ & _ & Hcontract & Hgas).
  exists depositor. split; [exact Hdepositor |]. split; [exact Hcontract | exact Hgas].
Defined.

(** Deposits of blocks 0 to 15 and finalizations of blocks 25 to 40. *)
Lemma bridge_event_queries_share_the_l2_token_example :
  exists l2Token processed1 processed2,
    ({[ "0x5300"%string := [5] ]} : gmap string (list Z)) = {[ l2Token := processed1 ]}
    /\ ({[ "0x5300"%string := [7] ]} : gmap string (list Z)) = {[ l2Token := processed2 ]}
    /\ BridgeEventsExample.resolveL2TokenAddress Example.scrollBridge "0xC02a"
       = Normal l2Token.
Proof.
  assert (Hinitiation :
            ScrollWethBridgeEvents.queryL1BridgeInitiationEvents
              BridgeEventsExample.getL1Bridge BridgeEventsExample.resolveL2TokenAddress
              (BridgeEventsExample.eventFilter "DepositETH")
              BridgeEventsExample.paginatedEventQuery BridgeEventsExample.processEvent
              Example.scrollBridge "0xC02a" "0x9A8f" "0x9A8f" (0, 15)
            = Normal {[ "0x5300"%string := [5] ]}) by (vm_compute; reflexivity).
  assert (Hfinalization :
            ScrollWethBridgeEvents.queryL2BridgeFinalizationEvents
              BridgeEventsExample.getL2Bridge BridgeEventsExample.resolveL2TokenAddress
              (BridgeEventsExample.eventFilter "FinalizeDepositETH")
              BridgeEventsExample.paginatedEventQuery BridgeEventsExample.processEvent
              Example.scrollBridge "0xC02a" "0x9A8f" "0x9A8f" (25, 40)
            = Normal {[ "0x5300"%string := [7] ]}) by (vm_compute; reflexivity).
  destruct (bridge_event_queries_share_the_l2_token
              BridgeEventsExample.getL1Bridge BridgeEventsExample.getL2Bridge
              BridgeEventsExample.resolveL2TokenAddress
              (BridgeEventsExample.eventFilter "DepositETH")
              (BridgeEventsExample.eventFilter "FinalizeDepositETH")
              BridgeEventsExample.paginatedEventQuery BridgeEventsExample.processEvent
              Example.scrollBridge "0xC02a" "0x9A8f" "0x9A8f" (0, 15) (25, 40)
              _ _ Hinitiation Hfinalization)
    as (l2Token & _ & _ & _ & _ & _ & _ & processed1 & processed2
        & Htoken & Hinitiated & Hfinalized & _).
  exists l2Token, processed1, processed2.
  split; [exact Hinitiated |]. split; [exact Hfinalized | exact Htoken].
Defined.

(** Deposits of blocks 0 to 40: the second one cannot be processed. *)
Lemma bridge_event_query_throws_first_processing_error_example :
  ScrollWethBridgeEvents.queryL1BridgeInitiationEvents
    BridgeEventsExample.getL1Bridge BridgeEventsExample.resolveL2TokenAddress
    (BridgeEventsExample.eventFilter "DepositETH")
    BridgeEventsExample.paginatedEventQuery BridgeEventsExample.processEvent
    Example.scrollBridge "0xC02a" "0x9A8f" "0x9A8f" (0, 40)
  = Throw (Thrown "malformed event").
Proof.
  apply (bridge_event_query_throws_first_processing_error
           BridgeEventsExample.getL1Bridge BridgeEventsExample.resolveL2TokenAddress
           (BridgeEventsExample.eventFilter "DepositETH")
           BridgeEventsExample.paginatedEventQuery BridgeEventsExample.processEvent
           Example.scrollBridge "0xC02a" "0x9A8f" "0x9A8f" (0, 40)
           "0xF8B1" ("DepositETH"%string, "0x9A8f"%string, "0x9A8f"%string) "0x5300"
           [(10, 5)] [(30, 7)] (20, -1) (Thrown "malformed event")).
  - reflexivity.
  - reflexivity.
  - vm_compute. reflexivity.
  - vm_compute. reflexivity.
  - repeat constructor.
  - vm_compute. reflexivity.
Defined.

(** An environment with [MAX_RELAYER_DEPOSIT_LOOK_BACK={}]. *)
Lemma constructor_stores_parsed_values_example :
  exists c,
    RelayerConfig.constructor Example.commonConfig Example.parseJson BrokenExample.lookbackEnv
    = Normal c
    /\ Example.parseJson "{}" = Normal (RelayerConfig.maxRelayerLookBack c).
Proof.
  eexists. split; [vm_compute; reflexivity |].
  match goal with
  | |- _ = Normal (RelayerConfig.maxRelayerLookBack ?c) =>
      destruct (constructor_stores_parsed_values Example.commonConfig Example.parseJson
                  BrokenExample.lookbackEnv c ltac:(vm_compute; reflexivity)) as [Hmax _]
  end.
  apply Hmax; [vm_compute; reflexivity | discriminate].
Defined.

(** Proposals in blocks 300, 200 and 100, and a request in block 250. *)
Lemma mostRecentBefore_descending_example :
  RootBundleValidator.mostRecentBefore ValidatorExample.sortedProposals 250
  = Some (ValidatorExample.proposal 200 "0x02")
  /\ forall q, In q ValidatorExample.sortedProposals ->
       RootBundleValidator.blockNumber q <= 250 ->
       RootBundleValidator.blockNumber q <= 200.
Proof.
  assert (Hfound : RootBundleValidator.mostRecentBefore ValidatorExample.sortedProposals 250
                   = Some (ValidatorExample.proposal 200 "0x02")) by reflexivity.
  split; [exact Hfound |].
  destruct (mostRecentBefore_descending ValidatorExample.sortedProposals 250) as [Hsome _].
  - repeat constructor; simpl; lia.
  - destruct (Hsome _ Hfound) as (_ & _ & Hlatest). exact Hlatest.
Defined.

(** An environment without [REQUEST_TIME]. *)
Lemma validate_requires_REQUEST_TIME_example :
  (RootBundleValidator.validate (ValidatorExample.calls true) ∅ Example.start).1.1
  = Throw (Thrown "Must set environment variable 'REQUEST_TIME=<NUMBER>' to disputed price request time").
Proof.
  pose proof (validate_requires_REQUEST_TIME (ValidatorExample.calls true) ∅ Example.start)
    as Hthm.
  destruct (RootBundleValidator.validate (ValidatorExample.calls true) ∅ Example.start)
    as [[r s'] t] eqn:Hrun.
  destruct (Hthm s' r t eq_refl) as (Hnone & Hthrow & _).
  apply Hthrow, Hnone. left. reflexivity.
Defined.


(** No dispute is recorded: the bundle is the one proposed in block 200. *)
Lemma findPrecedingProposal_provenance_example :
  (RootBundleValidator.findPrecedingProposal (ValidatorExample.calls true) tt 1700000000 250
     Example.start).1.1
  = Normal (ValidatorExample.proposal 200 "0x02").
Proof.
  pose proof (findPrecedingProposal_provenance
                (ValidatorExample.calls true) tt 1700000000 250 Example.start) as Hthm.
  destruct (RootBundleValidator.findPrecedingProposal (ValidatorExample.calls true) tt
              1700000000 250 Example.start) as [[r s'] t] eqn:Hrun.
  destruct (Hthm s' r t eq_refl) as (_ & _ & Hfallback & _).
  vm_compute in Hrun. injection Hrun as <- <- <-.
  specialize (Hfallback ValidatorExample.proposals ltac:(simpl; tauto)).
  assert (Hfound :
            RootBundleValidator.mostRecentBefore
              (RootBundleValidator.sortEventsDescending (ValidatorExample.calls true)
                 ValidatorExample.proposals) 250
            = Some (ValidatorExample.proposal 200 "0x02")) by reflexivity.
  rewrite Hfound in Hfallback. exact (proj1 Hfallback).
Defined.

(** The validation of the bundle proposed in block 200: the window is
    searched with lookback count 8 and starts at block 992. *)
Lemma validateRootBundle_arguments_example :
  exists config validated rootBundle searchConfigs,
    In (RootBundleValidator.EvGetSearchConfigs
          (RootBundleValidator.overrideConfig config validated rootBundle)
          (Normal searchConfigs))
      (RootBundleValidator.validate (ValidatorExample.calls true) ValidatorExample.requestEnv
         Example.start).2
    /\ ({[ 1 := 992 ]} : BlockMap) = Dataworker.fromBlocks searchConfigs.
Proof.
  pose proof (validateRootBundle_arguments
                (ValidatorExample.calls true) ValidatorExample.requestEnv Example.start)
    as Hthm.
  destruct (RootBundleValidator.validate (ValidatorExample.calls true)
              ValidatorExample.requestEnv Example.start) as [[r s'] t] eqn:Hrun.
  vm_compute in Hrun. injection Hrun as <- <- <-.
  edestruct Hthm as (config & validated & searchConfigs & _ & _ & _ & _ & _ & _ & _ & _ & _
                     & Hsearch & _ & _ & Hstart);
    [reflexivity | simpl; repeat first [left; reflexivity | right] |].
  do 4 eexists. split; [exact Hsearch | exact Hstart].
Defined.
